(** * Coordinate-geometry core of the tracing tools

    A shallow embedding of the path parsing, bounds, fit transform,
    vertical flip and path generation of

      - lib/src/tools/fix_json_alignment.py
      - lib/src/tools/fix_dotted_path_alignment.py
      - lib/src/tools/visualize_points.py
      - lib/src/tools/extract_telugu.py
      - lib/src/tools/generate_dotted_path.py

    Python [str] values are [string]s whose characters are code points
    below 256.  Exceptions are values of an error monad ([Py.result]).

    Python numbers are an interface ([Py.PyNumber]) with two instances:
    exact rationals [Q] and IEEE binary64 ([float]), the arithmetic
    CPython uses.  The fit transform, the point projections and the
    flip of the operands are written once over the interface.  The
    parsers, the bounds, the curve samplers and the path generators are
    written over [Q]: a numeric token denotes its exact decimal value
    and sums, products and differences are exact, so rounding, overflow
    to infinity and NaN are absent from that part of the model, and
    [f"{n:.1f}"] rounds the exact value.  Statements about values
    computed there are statements in exact arithmetic. *)

From Stdlib Require Import ZArith QArith Qabs Qround Qminmax Lqa String Ascii List Bool Lia.
From Stdlib Require Import Floats.PrimFloat.
Import ListNotations.

Local Open Scope Q_scope.

(** ** Python run-time fragments *)

Module Py.

Inductive exn : Type :=
| ZeroDivisionError
| ValueError.

Inductive result (A : Type) : Type :=
| Ok (a : A)
| Raise (e : exn).
Arguments Ok {A} a.
Arguments Raise {A} e.

Definition bind {A B} (m : result A) (k : A -> result B) : result B :=
  match m with
  | Ok a => k a
  | Raise e => Raise e
  end.

(** The arithmetic the tools use on coordinates.  [truediv] is Python's
    [/], which raises on a zero divisor; [lt] is [<]. *)
Class PyNumber (T : Type) : Type := {
  lit : Z -> T;
  add : T -> T -> T;
  sub : T -> T -> T;
  mul : T -> T -> T;
  truediv : T -> T -> result T;
  lt : T -> T -> bool
}.

(** Builtins [min(a, b)] and [max(a, b)]: the first argument is kept
    unless the second one is strictly smaller (resp. larger). *)
Definition min2 {T} `{PyNumber T} (a b : T) : T := if lt b a then b else a.
Definition max2 {T} `{PyNumber T} (a b : T) : T := if lt a b then b else a.

(** Builtins [min(seq)] and [max(seq)] on a list; [ValueError] on []. *)
Definition min_seq {T} `{PyNumber T} (l : list T) : result T :=
  match l with
  | [] => Raise ValueError
  | a :: l' => Ok (fold_left min2 l' a)
  end.

Definition max_seq {T} `{PyNumber T} (l : list T) : result T :=
  match l with
  | [] => Raise ValueError
  | a :: l' => Ok (fold_left max2 l' a)
  end.

Definition Qltb (x y : Q) : bool := negb (Qle_bool y x).

#[export] Instance Q_number : PyNumber Q := {|
  lit := inject_Z;
  add := Qplus;
  sub := Qminus;
  mul := Qmult;
  truediv := fun x y => if Qeq_bool y 0 then Raise ZeroDivisionError else Ok (x / y);
  lt := Qltb
|}.

(** Integer literals of the source (0, 1 and 2) as binary64 values. *)
Fixpoint float_of_pos (p : positive) : float :=
  match p with
  | xH => PrimFloat.one
  | xO p' => PrimFloat.mul PrimFloat.two (float_of_pos p')
  | xI p' => PrimFloat.add (PrimFloat.mul PrimFloat.two (float_of_pos p')) PrimFloat.one
  end.

#[export] Instance float_number : PyNumber float := {|
  lit := fun z => match z with
                  | Z0 => PrimFloat.zero
                  | Zpos p => float_of_pos p
                  | Zneg p => PrimFloat.opp (float_of_pos p)
                  end;
  add := PrimFloat.add;
  sub := PrimFloat.sub;
  mul := PrimFloat.mul;
  truediv := fun x y => if PrimFloat.eqb y PrimFloat.zero
                        then Raise ZeroDivisionError else Ok (PrimFloat.div x y);
  lt := PrimFloat.ltb
|}.

End Py.
Import Py.

Declare Scope py_scope.
Notation "'let*' x ':=' e 'in' k" := (Py.bind e (fun x => k))
  (at level 10, x pattern, e at level 100, k at level 200) : py_scope.
Local Open Scope py_scope.

(** ** Dictionaries of the transform code, as records *)

(** [{'left': .., 'top': .., 'width': .., 'height': ..}] *)
Record Bounds (T : Type) : Type := mkBounds {
  left : T;
  top : T;
  width : T;
  height : T
}.
Arguments mkBounds {T}.
Arguments left {T}.
Arguments top {T}.
Arguments width {T}.
Arguments height {T}.

(** [{'scale': .., 'translate_x': .., 'translate_y': ..}] *)
Record Transform (T : Type) : Type := mkTransform {
  scale : T;
  translate_x : T;
  translate_y : T
}.
Arguments mkTransform {T}.
Arguments scale {T}.
Arguments translate_x {T}.
Arguments translate_y {T}.

(** ** Python strings *)

Module Str.
Local Open Scope char_scope.
Local Open Scope string_scope.

Definition code (c : ascii) : N := N_of_ascii c.

(** [str.isspace] on one code point below 256 (also the class [\s] of
    [re] on [str] patterns): TAB, LF, VT, FF, CR, FS, GS, RS, US, space,
    NEL and NBSP. *)
Definition is_space (c : ascii) : bool :=
  let n := code c in
  ((9 <=? n) && (n <=? 13) || (28 <=? n) && (n <=? 32) || (n =? 133) || (n =? 160))%N.

(** The class [\d] below code point 256: the ASCII digits. *)
Definition is_digit (c : ascii) : bool :=
  let n := code c in ((48 <=? n) && (n <=? 57))%N.

Definition digit_value (c : ascii) : Z := Z.of_N (code c) - 48.

(** [c.upper()] for an ASCII letter. *)
Definition upper (c : ascii) : ascii :=
  let n := code c in
  if ((97 <=? n) && (n <=? 122))%N then ascii_of_N (n - 32) else c.

Definition is_empty (s : string) : bool :=
  match s with EmptyString => true | String _ _ => false end.

Fixpoint lstrip (s : string) : string :=
  match s with
  | String c r => if is_space c then lstrip r else s
  | EmptyString => EmptyString
  end.

Fixpoint rstrip (s : string) : string :=
  match s with
  | String c r =>
      let r' := rstrip r in
      if is_space c && is_empty r' then EmptyString else String c r'
  | EmptyString => EmptyString
  end.

(** [s.strip()] *)
Definition strip (s : string) : string := rstrip (lstrip s).

(** [s.replace(a, b)] for one-character [a] and [b]. *)
Fixpoint replace (a b : ascii) (s : string) : string :=
  match s with
  | String c r => String (if Ascii.eqb c a then b else c) (replace a b r)
  | EmptyString => EmptyString
  end.

(** [s.split()]: maximal runs of non-whitespace characters. *)
Fixpoint split_ws_from (cur : string) (s : string) : list string :=
  match s with
  | String c r =>
      if is_space c
      then (if is_empty cur then split_ws_from EmptyString r
            else cur :: split_ws_from EmptyString r)
      else split_ws_from (cur ++ String c EmptyString) r
  | EmptyString => if is_empty cur then [] else [cur]
  end.
Definition split_ws (s : string) : list string := split_ws_from EmptyString s.

(** [s.split(sep)] for a one-character separator: empty fields are kept. *)
Fixpoint split_on_from (sep : ascii) (cur : string) (s : string) : list string :=
  match s with
  | String c r =>
      if Ascii.eqb c sep then cur :: split_on_from sep EmptyString r
      else split_on_from sep (cur ++ String c EmptyString) r
  | EmptyString => [cur]
  end.
Definition split_on (sep : ascii) (s : string) : list string :=
  split_on_from sep EmptyString s.

(** [sep.join(parts)] *)
Fixpoint join (sep : string) (parts : list string) : string :=
  match parts with
  | [] => EmptyString
  | [p] => p
  | p :: rest => p ++ sep ++ join sep rest
  end.

(** [str(i)] / [f"{i}"] for an [int]. *)
Fixpoint pos_digits (fuel : nat) (n : Z) (acc : string) : string :=
  match fuel with
  | O => acc
  | S fuel' =>
      let acc' := String (ascii_of_N (Z.to_N (48 + n mod 10))) acc in
      if n <? 10 then acc' else pos_digits fuel' (n / 10) acc'
  end%Z.

Definition of_int (i : Z) : string :=
  if (i <? 0)%Z
  then String "-" (pos_digits (S (Z.to_nat (Z.log2 (- i)))) (- i) EmptyString)
  else pos_digits (S (Z.to_nat (Z.log2 i))) i EmptyString.
End Str.

(** ** [float(s)] on decimal literals *)

Module Float.
Local Open Scope char_scope.
Local Open Scope string_scope.

(** The whitespace [float] removes at both ends: the class of C's
    [isspace] (TAB, LF, VT, FF, CR and the space), and NEL and NBSP,
    which [float] turns into spaces beforehand.  The separators FS, GS,
    RS and US, which [str.strip] removes, are left in place. *)
Definition is_space (c : ascii) : bool :=
  let n := Str.code c in
  ((9 <=? n) && (n <=? 13) || (n =? 32) || (n =? 133) || (n =? 160))%N.

Fixpoint lstrip (s : string) : string :=
  match s with
  | String c r => if is_space c then lstrip r else s
  | EmptyString => EmptyString
  end.

Fixpoint rstrip (s : string) : string :=
  match s with
  | String c r =>
      let r' := rstrip r in
      if is_space c && Str.is_empty r' then EmptyString else String c r'
  | EmptyString => EmptyString
  end.

Definition strip (s : string) : string := rstrip (lstrip s).

(** Digit-group underscores are removed before the number is read; each
    one must stand between two digits, [prev] being the character
    before [s].  [None] stands for the [ValueError] of a misplaced
    underscore. *)
Fixpoint underscores (prev : ascii) (s : string) : option string :=
  match s with
  | String c r =>
      if Ascii.eqb c "_"
      then (if Str.is_digit prev then underscores c r else None)
      else if Ascii.eqb prev "_" && negb (Str.is_digit c) then None
      else match underscores c r with
           | Some r' => Some (String c r')
           | None => None
           end
  | EmptyString => if Ascii.eqb prev "_" then None else Some EmptyString
  end.

(** Longest run of digits at the head of [s]: the number read so far,
    how many digits were read, and the rest. *)
Fixpoint digits (s : string) (acc : Z) (cnt : nat) : Z * nat * string :=
  match s with
  | String c r =>
      if Str.is_digit c then digits r (10 * acc + Str.digit_value c)%Z (S cnt)
      else (acc, cnt, s)
  | EmptyString => (acc, cnt, s)
  end.

(** Optional sign: [true] for a minus. *)
Definition sign (s : string) : bool * string :=
  match s with
  | String c r =>
      if Ascii.eqb c "-" then (true, r)
      else if Ascii.eqb c "+" then (false, r)
      else (false, s)
  | EmptyString => (false, s)
  end.

(** The rational [(-1)^neg * m * 10^e]. *)
Definition decimal_value (neg : bool) (m e : Z) : Q :=
  let m' := if neg then (- m)%Z else m in
  if (0 <=? e)%Z then inject_Z (m' * 10 ^ e)
  else Qmake m' (Z.to_pos (10 ^ (- e))).

(** The decimal forms [[+-]? (D+ ('.' D* )? | '.' D+) ([eE] [+-]? D+)?];
    anything else raises [ValueError]. *)
Definition literal (s0 : string) : result Q :=
  let '(neg, s1) := sign s0 in
  let '(ip, n1, s2) := digits s1 0%Z O in
  let '(m, n2, s3) :=
    match s2 with
    | String c r => if Ascii.eqb c "." then digits r ip O else (ip, O, s2)
    | EmptyString => (ip, O, s2)
    end in
  if Nat.eqb (n1 + n2) 0 then Raise ValueError
  else
    match s3 with
    | EmptyString => Ok (decimal_value neg m (- Z.of_nat n2))
    | String c r =>
        if Ascii.eqb c "e" || Ascii.eqb c "E" then
          let '(eneg, r1) := sign r in
          let '(ev, n3, r2) := digits r1 0%Z O in
          if Nat.eqb n3 0 then Raise ValueError
          else if Str.is_empty r2
               then Ok (decimal_value neg m ((if eneg then - ev else ev) - Z.of_nat n2))
               else Raise ValueError
        else Raise ValueError
    end.

(** [float(s)] on a [str]: whitespace is removed at both ends, then the
    digit-group underscores, and what is left is read as a decimal
    literal.  The value is the exact decimal value: rounding to
    binary64 and overflow to infinity are not part of the rational
    model.  The words [inf], [infinity] and [nan], which [float]
    accepts and which have no rational value, raise here; they cannot
    occur in the tokens that the path parsers pass. *)
Definition of_str (s : string) : result Q :=
  match underscores Ascii.zero (strip s) with
  | Some s0 => literal s0
  | None => Raise ValueError
  end.
End Float.

(** ** The two regular expressions, as scanners

    [re.findall] scans left to right; after a match the search resumes
    at the end of the match.  Both patterns are matched greedily and
    never need to give characters back: once the leading part matches,
    every later part is optional. *)

Module Re.
Local Open Scope char_scope.
Local Open Scope string_scope.

(** [[MmLlHhVvCcSsQqTtAaZz]] *)
Definition is_command (c : ascii) : bool :=
  existsb (Ascii.eqb c)
    (["M"; "m"; "L"; "l"; "H"; "h"; "V"; "v"; "C"; "c";
      "S"; "s"; "Q"; "q"; "T"; "t"; "A"; "a"; "Z"; "z"])%char.

(** [[-\d.eE, ]] *)
Definition is_coord_char (c : ascii) : bool :=
  Ascii.eqb c "-" || Str.is_digit c || Ascii.eqb c "." || Ascii.eqb c "e"
  || Ascii.eqb c "E" || Ascii.eqb c "," || Ascii.eqb c " ".

(** Where the matcher of
    [([MmLlHhVvCcSsQqTtAaZz])\s*([-\d.eE, ]+)?] stands. *)
Inductive cmd_state : Type :=
| Search                                  (* no match under way *)
| Spaces (cmd : ascii)                    (* letter matched, inside [\s*] *)
| Coords (cmd : ascii) (coords : string). (* inside the second group *)

(** The pending match, closed at the end of input or at a character
    that cannot extend it. *)
Definition cmd_flush (st : cmd_state) : list (ascii * string) :=
  match st with
  | Search => []
  | Spaces cmd => [(cmd, EmptyString)]
  | Coords cmd coords => [(cmd, coords)]
  end.

Fixpoint cmd_scan (st : cmd_state) (s : string) : list (ascii * string) :=
  match s with
  | EmptyString => cmd_flush st
  | String c r =>
      let restart := if is_command c then Spaces c else Search in
      match st with
      | Search => cmd_scan restart r
      | Spaces cmd =>
          if Str.is_space c then cmd_scan (Spaces cmd) r
          else if is_coord_char c then cmd_scan (Coords cmd (String c EmptyString)) r
          else cmd_flush st ++ cmd_scan restart r
      | Coords cmd coords =>
          if is_coord_char c then cmd_scan (Coords cmd (coords ++ String c EmptyString)) r
          else cmd_flush st ++ cmd_scan restart r
      end
  end.

(** [re.findall(r'([MmLlHhVvCcSsQqTtAaZz])\s*([-\d.eE, ]+)?', s)]:
    the pairs (letter, second group), the group being [''] when it
    did not take part. *)
Definition findall_commands (s : string) : list (ascii * string) :=
  cmd_scan Search s.

(** Where the matcher of [([-]?\d+\.?\d* )] stands. *)
Inductive num_state : Type :=
| Idle
| Minus                      (* a [-] that a digit may still follow *)
| IntPart (m : string)       (* inside [\d+] *)
| FracPart (m : string).     (* after the [.], inside [\d*] *)

Definition num_flush (st : num_state) : list string :=
  match st with
  | Idle | Minus => []
  | IntPart m | FracPart m => [m]
  end.

Fixpoint num_scan (st : num_state) (s : string) : list string :=
  match s with
  | EmptyString => num_flush st
  | String c r =>
      let restart :=
        if Ascii.eqb c "-" then Minus
        else if Str.is_digit c then IntPart (String c EmptyString)
        else Idle in
      match st with
      | Idle => num_scan restart r
      | Minus =>
          if Str.is_digit c then num_scan (IntPart (String "-" (String c EmptyString))) r
          else num_scan restart r
      | IntPart m =>
          if Str.is_digit c then num_scan (IntPart (m ++ String c EmptyString)) r
          else if Ascii.eqb c "." then num_scan (FracPart (m ++ String c EmptyString)) r
          else m :: num_scan restart r
      | FracPart m =>
          if Str.is_digit c then num_scan (FracPart (m ++ String c EmptyString)) r
          else m :: num_scan restart r
      end
  end.

(** [re.findall(r'([-]?\d+\.?\d* )', s)] *)
Definition findall_numbers (s : string) : list string := num_scan Idle s.
End Re.

(** A parsed command: the upper-cased letter and its operands,
    [Tuple[str, List[float]]]. *)
Definition command : Type := ascii * list Q.

(** The loop
    [for num_str in coords_clean.split(): try: nums.append(float(num_str))
     except ValueError: continue], shared by the command parsers. *)
Fixpoint parse_numbers (tokens : list string) (nums : list Q) : result (list Q) :=
  match tokens with
  | [] => Ok nums
  | num_str :: rest =>
      match Float.of_str num_str with
      | Ok v => parse_numbers rest (nums ++ [v])
      | Raise ValueError => parse_numbers rest nums
      | Raise e => Raise e
      end
  end.

(** ** fix_json_alignment.py *)

Module fix_json_alignment.

(** Lines 22-50; [matches] is what is left of [re.findall(...)]. *)
Fixpoint parse_matches (matches : list (ascii * string)) (commands : list command)
  : result (list command) :=
  match matches with
  | [] => Ok commands
  | (cmd, coords_str) :: rest =>
      let cmd_upper := Str.upper cmd in
      if Ascii.eqb cmd_upper "Z" then parse_matches rest (commands ++ [(cmd_upper, [])])
      else if Str.is_empty coords_str || Str.is_empty (Str.strip coords_str)
      then parse_matches rest commands
      else
        let coords_clean := Str.replace "," " " coords_str in
        let* nums := parse_numbers (Str.split_ws coords_clean) [] in
        match nums with
        | _ :: _ => parse_matches rest (commands ++ [(cmd_upper, nums)])
        | [] => parse_matches rest commands
        end
  end.

Definition parse_svg_path (svg_path : string) : result (list command) :=
  parse_matches (Re.findall_commands svg_path) [].

(** Lines 64-72, [num_samples] being positive (20 at every call). *)
Definition sample_quadratic_bezier (x0 y0 x1 y1 x2 y2 : Q) (num_samples : positive)
  : list (Q * Q) :=
  map (fun i : nat =>
         let t := inject_Z (Z.of_nat i) / inject_Z (Zpos num_samples) in
         let x := (1-t)^2 * x0 + 2*(1-t)*t * x1 + t^2 * x2 in
         let y := (1-t)^2 * y0 + 2*(1-t)*t * y1 + t^2 * y2 in
         (x, y))
      (seq 0 (Pos.to_nat num_samples + 1)).

(** Lines 74-82. *)
Definition sample_cubic_bezier (x0 y0 x1 y1 x2 y2 x3 y3 : Q) (num_samples : positive)
  : list (Q * Q) :=
  map (fun i : nat =>
         let t := inject_Z (Z.of_nat i) / inject_Z (Zpos num_samples) in
         let x := (1-t)^3 * x0 + 3*(1-t)^2*t * x1 + 3*(1-t)*t^2 * x2 + t^3 * x3 in
         let y := (1-t)^3 * y0 + 3*(1-t)^2*t * y1 + 3*(1-t)*t^2 * y2 + t^3 * y3 in
         (x, y))
      (seq 0 (Pos.to_nat num_samples + 1)).

(** The local variables of [get_svg_bounds] that the loop updates. *)
Record walk : Type := mkWalk {
  all_x : list Q;
  all_y : list Q;
  current_x : Q;
  current_y : Q
}.

(** One iteration of the loop of lines 84-130. *)
Definition step (w : walk) (c : command) : walk :=
  let '(cmd, coords) := c in
  if Ascii.eqb cmd "M" then
    match coords with
    | x :: y :: _ => mkWalk (all_x w ++ [x]) (all_y w ++ [y]) x y
    | _ => w
    end
  else if Ascii.eqb cmd "L" then
    match coords with
    | x :: y :: _ => mkWalk (all_x w ++ [x]) (all_y w ++ [y]) x y
    | _ => w
    end
  else if Ascii.eqb cmd "Q" then
    match coords with
    | x1 :: y1 :: x2 :: y2 :: _ =>
        let curve_points :=
          sample_quadratic_bezier (current_x w) (current_y w) x1 y1 x2 y2 20 in
        mkWalk (all_x w ++ map fst curve_points) (all_y w ++ map snd curve_points) x2 y2
    | _ => w
    end
  else if Ascii.eqb cmd "C" then
    match coords with
    | x1 :: y1 :: x2 :: y2 :: x3 :: y3 :: _ =>
        let curve_points :=
          sample_cubic_bezier (current_x w) (current_y w) x1 y1 x2 y2 x3 y3 20 in
        mkWalk (all_x w ++ map fst curve_points) (all_y w ++ map snd curve_points) x3 y3
    | _ => w
    end
  else if Ascii.eqb cmd "H" then
    match coords with
    | x :: _ => mkWalk (all_x w ++ [x]) (all_y w ++ [current_y w]) x (current_y w)
    | _ => w
    end
  else if Ascii.eqb cmd "V" then
    match coords with
    | y :: _ => mkWalk (all_x w ++ [current_x w]) (all_y w ++ [y]) (current_x w) y
    | _ => w
    end
  else w.

(** Lines 52-140. *)
Definition get_svg_bounds (svg_path : string) : result (option (Bounds Q)) :=
  let* commands := parse_svg_path svg_path in
  let w := fold_left step commands (mkWalk [] [] (lit 0) (lit 0)) in
  match all_x w, all_y w with
  | [], _ | _, [] => Ok None
  | _, _ =>
      let* min_x := min_seq (all_x w) in
      let* min_y := min_seq (all_y w) in
      let* max_x := max_seq (all_x w) in
      let* max_y := max_seq (all_y w) in
      Ok (Some (mkBounds min_x min_y (max_x - min_x) (max_y - min_y)))
  end.

Section Fit.
Context {T : Type} `{PyNumber T}.

(** Lines 142-163. *)
Definition calculate_flutter_transform (svg_bounds : Bounds T) (view_size : T)
  : result (Transform T) :=
  let original_width := width svg_bounds in
  let original_height := height svg_bounds in
  let original_left := left svg_bounds in
  let original_top := top svg_bounds in
  let* scale_x := truediv view_size original_width in
  let* scale_y := truediv view_size original_height in
  let scale := min2 scale_x scale_y in
  let* half_x := truediv (sub view_size (mul original_width scale)) (lit 2) in
  let translate_x := sub half_x (mul original_left scale) in
  let* half_y := truediv (sub view_size (mul original_height scale)) (lit 2) in
  let translate_y := sub half_y (mul original_top scale) in
  Ok (mkTransform scale translate_x translate_y).

(** Lines 165-180. *)
Definition svg_to_flutter_normalized (svg_x svg_y : T) (transform : Transform T)
           (view_size : T) : result (T * T) :=
  let flutter_x := add (mul svg_x (scale transform)) (translate_x transform) in
  let flutter_y := add (mul svg_y (scale transform)) (translate_y transform) in
  let* normalized_x := truediv flutter_x view_size in
  let* normalized_y := truediv flutter_y view_size in
  let normalized_x := max2 (lit 0) (min2 (lit 1) normalized_x) in
  let normalized_y := max2 (lit 0) (min2 (lit 1) normalized_y) in
  Ok (normalized_x, normalized_y).
End Fit.
End fix_json_alignment.

(** ** fix_dotted_path_alignment.py *)

Module fix_dotted_path_alignment.

(** The loop of lines 24-28: every match of the number pattern is
    converted, a failing conversion is skipped. *)
Fixpoint collect_coords (matches : list string) (coords : list Q) : list Q :=
  match matches with
  | [] => coords
  | m :: rest =>
      match Float.of_str m with
      | Ok v => collect_coords rest (coords ++ [v])
      | Raise _ => collect_coords rest coords
      end
  end.

(** [[coords[i] for i in range(0, len(coords), 2) if i < len(coords)]] *)
Fixpoint x_coords_of (coords : list Q) : list Q :=
  match coords with
  | x :: rest => x :: match rest with _ :: rest' => x_coords_of rest' | [] => [] end
  | [] => []
  end.

(** [[coords[i+1] for i in range(0, len(coords)-1, 2) if i+1 < len(coords)]] *)
Fixpoint y_coords_of (coords : list Q) : list Q :=
  match coords with
  | _ :: y :: rest => y :: y_coords_of rest
  | _ => []
  end.

(** Lines 21-38; [min] and [max] raise [ValueError] on an empty list. *)
Definition parse_svg_path (svg_path : string) : result (Bounds Q) :=
  let coords := collect_coords (Re.findall_numbers svg_path) [] in
  let x_coords := x_coords_of coords in
  let y_coords := y_coords_of coords in
  let* left_ := min_seq x_coords in
  let* top_ := min_seq y_coords in
  let* max_x := max_seq x_coords in
  let* min_x := min_seq x_coords in
  let* max_y := max_seq y_coords in
  let* min_y := min_seq y_coords in
  Ok (mkBounds left_ top_ (max_x - min_x) (max_y - min_y)).

Section Fit.
Context {T : Type} `{PyNumber T}.

(** Lines 40-58. *)
Definition calculate_flutter_transform (svg_bounds : Bounds T) (view_size : T)
  : result (Transform T) :=
  let original_width := width svg_bounds in
  let original_height := height svg_bounds in
  let original_left := left svg_bounds in
  let original_top := top svg_bounds in
  let* scale_x := truediv view_size original_width in
  let* scale_y := truediv view_size original_height in
  let scale := min2 scale_x scale_y in
  let* half_x := truediv (sub view_size (mul original_width scale)) (lit 2) in
  let translate_x := sub half_x (mul original_left scale) in
  let* half_y := truediv (sub view_size (mul original_height scale)) (lit 2) in
  let translate_y := sub half_y (mul original_top scale) in
  Ok (mkTransform scale translate_x translate_y).

(** Lines 60-75. *)
Definition reverse_transform_point (normalized_x normalized_y : T)
           (transform : Transform T) (view_size : T) : result (T * T) :=
  let flutter_x := mul normalized_x view_size in
  let flutter_y := mul normalized_y view_size in
  let* svg_x := truediv (sub flutter_x (translate_x transform)) (scale transform) in
  let* svg_y := truediv (sub flutter_y (translate_y transform)) (scale transform) in
  Ok (svg_x, svg_y).
End Fit.

(** [x_norm, y_norm = map(float, point_str.split(','))] of line 107:
    exactly two fields, each accepted by [float]. *)
Definition decode_point (point_str : string) : result (Q * Q) :=
  match Str.split_on "," point_str with
  | [a; b] =>
      let* x_norm := Float.of_str a in
      let* y_norm := Float.of_str b in
      Ok (x_norm, y_norm)
  | _ => Raise ValueError
  end.

(** The loop of lines 105-111 over the point entries of one stroke; the
    bare [except] skips an entry on any exception. *)
Fixpoint convert_points (points : list string) (transform : Transform Q)
         (view_size : Q) (svg_points : list (Q * Q)) : list (Q * Q) :=
  match points with
  | [] => svg_points
  | point_str :: rest =>
      match (let* p := decode_point point_str in
             reverse_transform_point (fst p) (snd p) transform view_size) with
      | Ok q => convert_points rest transform view_size (svg_points ++ [q])
      | Raise _ => convert_points rest transform view_size svg_points
      end
  end.
End fix_dotted_path_alignment.

(** ** Values read by [json.load] *)

Module Json.

(** [None], [bool], numbers, [str], [list] and [dict]; a [dict] is the
    list of its items in insertion order, a key being looked up at its
    first entry. *)
#[warnings="-register-all"]
Inductive value : Type :=
| Null
| Bool (b : bool)
| Num (q : Q)
| Str (s : string)
| Arr (items : list value)
| Obj (fields : list (string * value)).

(** The exceptions of dynamically typed access. *)
Inductive error : Type :=
| TypeError
| KeyError.

Inductive outcome (A : Type) : Type :=
| Returns (a : A)
| Raises (e : error).
Arguments Returns {A} a.
Arguments Raises {A} e.

(** [needle in hay] for two [str]. *)
Fixpoint is_substring (needle hay : string) : bool :=
  String.prefix needle hay
  || match hay with
     | String _ r => is_substring needle r
     | EmptyString => false
     end.

Definition is_str (key : string) (v : value) : bool :=
  match v with
  | Str s => String.eqb s key
  | _ => false
  end.

(** [key in data] for a [str] key: membership in the keys of a dict, in
    the items of a list, substring of a str; [TypeError] otherwise. *)
Definition contains (key : string) (data : value) : outcome bool :=
  match data with
  | Obj fields => Returns (existsb (fun kv => String.eqb (fst kv) key) fields)
  | Arr items => Returns (existsb (is_str key) items)
  | Str s => Returns (is_substring key s)
  | Null | Bool _ | Num _ => Raises TypeError
  end.

(** [data[key]] for a [str] key. *)
Definition getitem (data : value) (key : string) : outcome value :=
  match data with
  | Obj fields =>
      match find (fun kv => String.eqb (fst kv) key) fields with
      | Some kv => Returns (snd kv)
      | None => Raises KeyError
      end
  | _ => Raises TypeError
  end.

(** The items of [for x in v]: the items of a list, the characters of a
    str, the keys of a dict; [TypeError] otherwise. *)
Definition iterate (v : value) : outcome (list value) :=
  match v with
  | Arr items => Returns items
  | Str s => Returns (map (fun c => Str (String c EmptyString)) (list_ascii_of_string s))
  | Obj fields => Returns (map (fun kv => Str (fst kv)) fields)
  | Null | Bool _ | Num _ => Raises TypeError
  end.
End Json.

(** ** visualize_points.py *)

Module visualize_points.

(** Lines 33-40: [(None, None)] on any exception. *)
Definition parse_point (point_str : string) : option Q * option Q :=
  match Str.split_on "," point_str with
  | [x; y] =>
      match Float.of_str (Str.strip x), Float.of_str (Str.strip y) with
      | Ok a, Ok b => (Some a, Some b)
      | _, _ => (None, None)
      end
  | _ => (None, None)
  end.

(** Lines 42-68. *)
Fixpoint parse_matches (matches : list (ascii * string)) (commands : list command)
  : result (list command) :=
  match matches with
  | [] => Ok commands
  | (cmd, coords) :: rest =>
      if Str.is_empty coords || Ascii.eqb (Str.upper cmd) "Z"
      then parse_matches rest (commands ++ [(Str.upper cmd, [])])
      else
        let coords_clean := Str.replace "," " " coords in
        let* nums := parse_numbers (Str.split_ws coords_clean) [] in
        parse_matches rest (commands ++ [(Str.upper cmd, nums)])
  end.

Definition parse_svg_path (svg_path : string) : result (list command) :=
  parse_matches (Re.findall_commands svg_path) [].

Section Fit.
Context {T : Type} `{PyNumber T}.

(** Lines 203-226. *)
Definition apply_flutter_transformation (path_bounds : Bounds T) (view_size : T)
  : result (Transform T) :=
  let original_width := width path_bounds in
  let original_height := height path_bounds in
  let original_left := left path_bounds in
  let original_top := top path_bounds in
  let* scale_x := truediv view_size original_width in
  let* scale_y := truediv view_size original_height in
  let scale := min2 scale_x scale_y in
  let* half_x := truediv (sub view_size (mul original_width scale)) (lit 2) in
  let translate_x := sub half_x (mul original_left scale) in
  let* half_y := truediv (sub view_size (mul original_height scale)) (lit 2) in
  let translate_y := sub half_y (mul original_top scale) in
  Ok (mkTransform scale translate_x translate_y).

(** Lines 228-233. *)
Definition transform_point_to_flutter_space (x y : T) (transform : Transform T)
  : T * T :=
  let flutter_x := add (mul x (scale transform)) (translate_x transform) in
  let flutter_y := add (mul y (scale transform)) (translate_y transform) in
  (flutter_x, flutter_y).

(** Lines 235-239. *)
Definition transform_point_from_flutter_space (flutter_x flutter_y : T)
           (transform : Transform T) : result (T * T) :=
  let* svg_x := truediv (sub flutter_x (translate_x transform)) (scale transform) in
  let* svg_y := truediv (sub flutter_y (translate_y transform)) (scale transform) in
  Ok (svg_x, svg_y).
End Fit.
(** [MPLPath.MOVETO], [MPLPath.LINETO] and [MPLPath.CLOSEPOLY]. *)
Inductive path_code : Type :=
| MOVETO
| LINETO
| CLOSEPOLY.

(** Lines 85-93, [num_samples] being positive (10 at its call). *)
Definition sample_quadratic_bezier (x0 y0 x1 y1 x2 y2 : Q) (num_samples : positive)
  : list (Q * Q) :=
  map (fun i : nat =>
         let t := inject_Z (Z.of_nat i) / inject_Z (Zpos num_samples) in
         let x := (1-t)^2 * x0 + 2*(1-t)*t * x1 + t^2 * x2 in
         let y := (1-t)^2 * y0 + 2*(1-t)*t * y1 + t^2 * y2 in
         (x, y))
      (seq 0 (Pos.to_nat num_samples + 1)).

(** The local variables of [svg_to_matplotlib_path] that the loop
    updates. *)
Record path_walk : Type := mkPathWalk {
  vertices : list (Q * Q);
  codes : list path_code;
  current_x : Q;
  current_y : Q;
  start_x : Q;
  start_y : Q
}.

(** One iteration of the loop of lines 95-158. *)
Definition path_step (w : path_walk) (c : command) : path_walk :=
  let '(cmd, coords) := c in
  if Ascii.eqb cmd "M" then
    match coords with
    | x :: y :: _ =>
        mkPathWalk (vertices w ++ [(x, y)]) (codes w ++ [MOVETO]) x y x y
    | _ => w
    end
  else if Ascii.eqb cmd "L" then
    match coords with
    | x :: y :: _ =>
        mkPathWalk (vertices w ++ [(x, y)]) (codes w ++ [LINETO]) x y (start_x w) (start_y w)
    | _ => w
    end
  else if Ascii.eqb cmd "Q" then
    match coords with
    | x1 :: y1 :: x2 :: y2 :: _ =>
        let curve_points :=
          sample_quadratic_bezier (current_x w) (current_y w) x1 y1 x2 y2 10 in
        let added := tl curve_points in
        mkPathWalk (vertices w ++ added) (codes w ++ map (fun _ => LINETO) added)
                   x2 y2 (start_x w) (start_y w)
    | _ => w
    end
  else if Ascii.eqb cmd "C" then
    match coords with
    | x1 :: y1 :: x2 :: y2 :: x3 :: y3 :: _ =>
        let added :=
          map (fun i : nat =>
                 let t := inject_Z (Z.of_nat i) / inject_Z 20 in
                 let x := (1-t)^3 * current_x w + 3*(1-t)^2*t * x1
                          + 3*(1-t)*t^2 * x2 + t^3 * x3 in
                 let y := (1-t)^3 * current_y w + 3*(1-t)^2*t * y1
                          + 3*(1-t)*t^2 * y2 + t^3 * y3 in
                 (x, y))
              (seq 1 20) in
        mkPathWalk (vertices w ++ added) (codes w ++ map (fun _ => LINETO) added)
                   x3 y3 (start_x w) (start_y w)
    | _ => w
    end
  else if Ascii.eqb cmd "H" then
    match coords with
    | x :: _ =>
        mkPathWalk (vertices w ++ [(x, current_y w)]) (codes w ++ [LINETO])
                   x (current_y w) (start_x w) (start_y w)
    | _ => w
    end
  else if Ascii.eqb cmd "V" then
    match coords with
    | y :: _ =>
        mkPathWalk (vertices w ++ [(current_x w, y)]) (codes w ++ [LINETO])
                   (current_x w) y (start_x w) (start_y w)
    | _ => w
    end
  else if Ascii.eqb cmd "Z" then
    match vertices w with
    | _ :: _ =>
        mkPathWalk (vertices w ++ [(start_x w, start_y w)]) (codes w ++ [CLOSEPOLY])
                   (start_x w) (start_y w) (start_x w) (start_y w)
    | [] => w
    end
  else w.

(** [MPLPath(vertices, codes)], the constructor of
    [matplotlib.path.Path]: it raises [ValueError] when the codes are
    not as many as the vertices, and when the first code is not
    [MOVETO]; the path object is then the pair of its two arrays. *)
Definition MPLPath (path_vertices : list (Q * Q)) (path_codes : list path_code)
  : result (list (Q * Q) * list path_code) :=
  if negb (Nat.eqb (length path_codes) (length path_vertices)) then Raise ValueError
  else
    match path_codes with
    | LINETO :: _ | CLOSEPOLY :: _ => Raise ValueError
    | _ => Ok (path_vertices, path_codes)
    end.

(** Lines 70-163. *)
Definition svg_to_matplotlib_path (svg_path : string)
  : result (option (list (Q * Q) * list path_code)) :=
  let* commands := parse_svg_path svg_path in
  let w := fold_left path_step commands (mkPathWalk [] [] (lit 0) (lit 0) (lit 0) (lit 0)) in
  match vertices w with
  | [] => Ok None
  | _ :: _ =>
      let* mpl_path := MPLPath (vertices w) (codes w) in
      Ok (Some mpl_path)
  end.

(** Lines 268-276 of [visualize]: the bounds of the vertices. *)
Definition svg_bounds_dict (path_vertices : list (Q * Q)) : result (Bounds Q) :=
  let all_x := map fst path_vertices in
  let all_y := map snd path_vertices in
  let* left_ := min_seq all_x in
  let* top_ := min_seq all_y in
  let* max_x := max_seq all_x in
  let* min_x := min_seq all_x in
  let* max_y := max_seq all_y in
  let* min_y := min_seq all_y in
  Ok (mkBounds left_ top_ (max_x - min_x) (max_y - min_y)).

(** [parse_point] on a value of any type: [split] exists on [str] only,
    and the [AttributeError] of the other types is caught like the
    rest. *)
Definition parse_point_value (point_str : Json.value) : option Q * option Q :=
  match point_str with
  | Json.Str s => parse_point s
  | _ => (None, None)
  end.

(** The loop of lines 193-196 over the entries of one stroke. *)
Fixpoint stroke_loop (points : list Json.value) (stroke_points : list (Q * Q))
  : list (Q * Q) :=
  match points with
  | [] => stroke_points
  | point_str :: rest =>
      match parse_point_value point_str with
      | (Some x, Some y) => stroke_loop rest (stroke_points ++ [(x, y)])
      | _ => stroke_loop rest stroke_points
      end
  end.

(** Lines 185-190: the point entries of a stroke, [None] when the stroke
    is skipped. *)
Definition points_of_stroke (stroke : Json.value) : Json.outcome (option Json.value) :=
  match stroke with
  | Json.Obj fields =>
      if existsb (fun kv => String.eqb (fst kv) "points") fields
      then match Json.getitem stroke "points" with
           | Json.Returns points => Json.Returns (Some points)
           | Json.Raises e => Json.Raises e
           end
      else Json.Returns None
  | Json.Arr _ => Json.Returns (Some stroke)
  | _ => Json.Returns None
  end.

(** The loop of lines 184-199 over the strokes. *)
Fixpoint strokes_loop (strokes : list Json.value) (all_strokes : list (list (Q * Q)))
  : Json.outcome (list (list (Q * Q))) :=
  match strokes with
  | [] => Json.Returns all_strokes
  | stroke :: rest =>
      match points_of_stroke stroke with
      | Json.Raises e => Json.Raises e
      | Json.Returns None => strokes_loop rest all_strokes
      | Json.Returns (Some points) =>
          match Json.iterate points with
          | Json.Raises e => Json.Raises e
          | Json.Returns entries =>
              match stroke_loop entries [] with
              | [] => strokes_loop rest all_strokes
              | p :: ps => strokes_loop rest (all_strokes ++ [p :: ps])
              end
          end
      end
  end.

(** Lines 174-201 of [load_points_from_json], from the value that
    [json.load] returned. *)
Definition load_points_from_data (data : Json.value)
  : Json.outcome (list (list (Q * Q))) :=
  match Json.contains "strokes" data with
  | Json.Raises e => Json.Raises e
  | Json.Returns true =>
      match Json.getitem data "strokes" with
      | Json.Raises e => Json.Raises e
      | Json.Returns strokes =>
          match Json.iterate strokes with
          | Json.Raises e => Json.Raises e
          | Json.Returns items => strokes_loop items []
          end
      end
  | Json.Returns false =>
      match data with
      | Json.Arr items => strokes_loop items []
      | _ => Json.Returns []
      end
  end.
(** Lines 261-276 of [visualize]: the path, then the bounds of its
    vertices; [None] when there is no path.  An exception of
    [svg_to_matplotlib_path] is not caught. *)
Definition visualize_bounds (svg_path : string) : result (option (Bounds Q)) :=
  let* mpl_path := svg_to_matplotlib_path svg_path in
  match mpl_path with
  | None => Ok None
  | Some (path_vertices, _) =>
      let* svg_bounds := svg_bounds_dict path_vertices in
      Ok (Some svg_bounds)
  end.
End visualize_points.

(** ** extract_telugu.py *)

Module extract_telugu.
Local Open Scope string_scope.

(** [int(n)]: truncation toward zero. *)
Definition to_int (n : Q) : Z := if Qle_bool 0 n then Qfloor n else Qceiling n.

(** [f"{n:.1f}"]: one decimal place, the exact value rounded to the
    nearest tenth, ties to the even digit; the sign is that of [n]. *)
Definition format_1f (n : Q) : string :=
  let scaled := Qabs n * 10 in
  let q := Qfloor scaled in
  let r := scaled - inject_Z q in
  let tenths :=
    if Qltb r (1 # 2) then q
    else if Qltb (1 # 2) r then (q + 1)%Z
    else if Z.even q then q else (q + 1)%Z in
  (if Qltb n 0 then "-" else "")
    ++ Str.of_int (tenths / 10) ++ "." ++ Str.of_int (tenths mod 10).

(** [f"{n:.1f}" if n != int(n) else f"{int(n)}"] of line 194. *)
Definition format_number (n : Q) : string :=
  if negb (Qeq_bool n (inject_Z (to_int n))) then format_1f n
  else Str.of_int (to_int n).

(** The flip of the operands is written over the number interface;
    [em] is the [unitsPerEm] of the font, an [int] that [em - y] turns
    into a number of the type of [y]. *)
Section Flip.
Context {T : Type} `{PyNumber T}.
Variable em : T.

(** Lines 156-167: whole arcs of seven numbers, a shorter tail copied. *)
Fixpoint flip_arcs (nums : list T) : list T :=
  match nums with
  | rx :: ry :: x_rot :: large_arc :: sweep :: x :: y :: rest =>
      let new_y := sub em y in
      [rx; ry; x_rot; large_arc; sub (lit 1) sweep; x; new_y] ++ flip_arcs rest
  | _ => nums
  end.

(** Lines 173-176 and 190-191: groups of six, the remaining numbers
    copied. *)
Fixpoint flip_sixes (nums : list T) : list T :=
  match nums with
  | x1 :: y1 :: x2 :: y2 :: x :: y :: rest =>
      [x1; sub em y1; x2; sub em y2; x; sub em y] ++ flip_sixes rest
  | _ => nums
  end.

(** Lines 178-181 and 190-191: groups of four. *)
Fixpoint flip_fours (nums : list T) : list T :=
  match nums with
  | x1 :: y1 :: x :: y :: rest => [x1; sub em y1; x; sub em y] ++ flip_fours rest
  | _ => nums
  end.

(** Lines 183-187 and 190-191: pairs. *)
Fixpoint flip_pairs (nums : list T) : list T :=
  match nums with
  | x :: y :: rest => [x; sub em y] ++ flip_pairs rest
  | _ => nums
  end.

(** Lines 145-191: the transformed operands of one command. *)
Definition transform_nums (cmd_upper : ascii) (nums : list T) : list T :=
  if Ascii.eqb cmd_upper "H" then map (fun x => x) nums
  else if Ascii.eqb cmd_upper "V" then map (fun y => sub em y) nums
  else if Ascii.eqb cmd_upper "A" then flip_arcs nums
  else if Ascii.eqb cmd_upper "C" || Ascii.eqb cmd_upper "S" then flip_sixes nums
  else if Ascii.eqb cmd_upper "Q" || Ascii.eqb cmd_upper "T" then flip_fours nums
  else flip_pairs nums.
End Flip.

Section Path.
Variable em : Q.

(** Lines 118-195: the loop over the matched commands. *)
Fixpoint transform_commands (commands : list (ascii * string))
         (transformed : list string) : result (list string) :=
  match commands with
  | [] => Ok transformed
  | (cmd, coords) :: rest =>
      let cmd_upper := Str.upper cmd in
      if Ascii.eqb cmd_upper "Z" then transform_commands rest (transformed ++ ["Z"])
      else if Str.is_empty coords || Str.is_empty (Str.strip coords)
      then transform_commands rest (transformed ++ [String cmd ""])
      else
        let coords_clean := Str.replace "," " " coords in
        let* nums := parse_numbers (Str.split_ws coords_clean) [] in
        match nums with
        | [] => transform_commands rest (transformed ++ [String cmd ""])
        | _ :: _ =>
            let transformed_nums := transform_nums em cmd_upper nums in
            let coord_str := Str.join " " (map format_number transformed_nums) in
            transform_commands rest (transformed ++ [String cmd "" ++ " " ++ coord_str])
        end
  end.

(** Lines 100-197. *)
Definition transform_path (path_d : string) : result string :=
  let commands := Re.findall_commands path_d in
  match commands with
  | [] => Ok path_d
  | _ :: _ =>
      let* transformed := transform_commands commands [] in
      Ok (Str.join " " transformed)
  end.
End Path.
(** The magic numbers of line 90-93: TrueType, OpenType, old TrueType
    and Type 1. *)
Definition font_magics : list string :=
  [String Ascii.zero (String Ascii.one (String Ascii.zero (String Ascii.zero EmptyString)));
   "OTTO"; "true"; "typ1"].

(** Lines 79-97, on the bytes of the file; decoding as latin-1 maps
    every byte to the code point of the same number. *)
Definition inspect_header (data : string) : bool :=
  let head := String.substring 0 64 data in
  let printable := head in
  if String.prefix "<" (Str.lstrip printable) then false
  else if negb (existsb (fun magic => String.prefix magic data) font_magics) then false
  else true.
End extract_telugu.

(** ** generate_dotted_path.py *)

Module generate_dotted_path.
Local Open Scope string_scope.

(** Lines 28-35: [(None, None)] on any exception. *)
Definition parse_point (point_str : string) : option Q * option Q :=
  match Str.split_on "," point_str with
  | [x; y] =>
      match Float.of_str (Str.strip x), Float.of_str (Str.strip y) with
      | Ok a, Ok b => (Some a, Some b)
      | _, _ => (None, None)
      end
  | _ => (None, None)
  end.

(** The loop of lines 53-67, [i] being the index of the next entry. *)
Fixpoint path_loop (view_size : Q) (i : nat) (points : list string)
         (path_commands : list string) : list string :=
  match points with
  | [] => path_commands
  | point_str :: rest =>
      match parse_point point_str with
      | (Some x_norm, Some y_norm) =>
          let x := x_norm * view_size in
          let y := y_norm * view_size in
          if Nat.eqb i 0
          then path_loop view_size (S i) rest
                 (path_commands
                    ++ ["M " ++ extract_telugu.format_1f x ++ " " ++ extract_telugu.format_1f y])
          else path_loop view_size (S i) rest
                 (path_commands
                    ++ ["L " ++ extract_telugu.format_1f x ++ " " ++ extract_telugu.format_1f y])
      | _ => path_loop view_size (S i) rest path_commands
      end
  end.

(** Lines 37-69. *)
Definition points_to_svg_path (points : list string) (view_size : Q) : string :=
  match points with
  | [] => ""
  | _ :: _ => Str.join " " (path_loop view_size 0 points [])
  end.

(** The loop of lines 94-118; [all_points] is the whole list, indexed
    for the previous entry. *)
Fixpoint smooth_loop (all_points : list string) (view_size : Q) (use_curves : bool)
         (i : nat) (points : list string) (path_commands : list string) : list string :=
  match points with
  | [] => path_commands
  | point_str :: rest =>
      match parse_point point_str with
      | (Some x_norm, Some y_norm) =>
          let x := x_norm * view_size in
          let y := y_norm * view_size in
          let line_to :=
            "L " ++ extract_telugu.format_1f x ++ " " ++ extract_telugu.format_1f y in
          if Nat.eqb i 0
          then smooth_loop all_points view_size use_curves (S i) rest
                 (path_commands
                    ++ ["M " ++ extract_telugu.format_1f x ++ " " ++ extract_telugu.format_1f y])
          else if use_curves && Nat.ltb 0 i
          then
            match parse_point (nth (i - 1) all_points "") with
            | (Some prev_x_norm, Some prev_y_norm) =>
                let prev_x := prev_x_norm * view_size in
                let prev_y := prev_y_norm * view_size in
                let ctrl_x := (prev_x + x) / 2 in
                let ctrl_y := (prev_y + y) / 2 in
                smooth_loop all_points view_size use_curves (S i) rest
                  (path_commands
                     ++ ["Q " ++ extract_telugu.format_1f ctrl_x ++ " "
                           ++ extract_telugu.format_1f ctrl_y ++ " "
                           ++ extract_telugu.format_1f x ++ " " ++ extract_telugu.format_1f y])
            | _ =>
                smooth_loop all_points view_size use_curves (S i) rest
                  (path_commands ++ [line_to])
            end
          else smooth_loop all_points view_size use_curves (S i) rest
                 (path_commands ++ [line_to])
      | _ => smooth_loop all_points view_size use_curves (S i) rest path_commands
      end
  end.

(** Lines 71-120.  With a single entry the coordinates are multiplied
    unchecked: [None * view_size] is a [TypeError]. *)
Definition points_to_svg_path_smooth (points : list string) (view_size : Q)
           (use_curves : bool) : Json.outcome string :=
  match points with
  | [] => Json.Returns ""
  | [point_str] =>
      match parse_point point_str with
      | (Some x_norm, Some y_norm) =>
          let x := x_norm * view_size in
          let y := y_norm * view_size in
          Json.Returns
            ("M " ++ extract_telugu.format_1f x ++ " " ++ extract_telugu.format_1f y)
      | _ => Json.Raises Json.TypeError
      end
  | _ :: _ :: _ =>
      Json.Returns (Str.join " " (smooth_loop points view_size use_curves 0 points []))
  end.
End generate_dotted_path.

(** ** fix_dotted_path_alignment.py, the path generator *)

Module fix_dotted_path_alignment_output.
Local Open Scope string_scope.

(** The loop of lines 130-146 over the points of one stroke. *)
Fixpoint stroke_commands (stroke : list (Q * Q)) (use_curves : bool) (i : nat)
         (points : list (Q * Q)) (commands : list string) : list string :=
  match points with
  | [] => commands
  | (x, y) :: rest =>
      let f := extract_telugu.format_1f in
      if Nat.eqb i 0
      then stroke_commands stroke use_curves (S i) rest
             (commands ++ ["M " ++ f x ++ " " ++ f y])
      else if use_curves && Nat.ltb 0 i
      then
        if Nat.eqb i 1
        then
          let '(prev_x, prev_y) := nth (i - 1) stroke (0, 0) in
          stroke_commands stroke use_curves (S i) rest
            (commands ++ ["Q " ++ f prev_x ++ " " ++ f prev_y ++ " " ++ f x ++ " " ++ f y])
        else
          let '(prev_x, prev_y) := nth (i - 1) stroke (0, 0) in
          let mid_x := (prev_x + x) / 2 in
          let mid_y := (prev_y + y) / 2 in
          stroke_commands stroke use_curves (S i) rest
            (commands ++ ["Q " ++ f mid_x ++ " " ++ f mid_y ++ " " ++ f x ++ " " ++ f y])
      else stroke_commands stroke use_curves (S i) rest
             (commands ++ ["L " ++ f x ++ " " ++ f y])
  end.

(** The loop of lines 125-149 over the strokes. *)
Fixpoint path_segments_loop (svg_strokes : list (list (Q * Q))) (use_curves : bool)
         (path_segments : list string) : list string :=
  match svg_strokes with
  | [] => path_segments
  | stroke :: rest =>
      match stroke with
      | [] => path_segments_loop rest use_curves path_segments
      | _ :: _ =>
          match stroke_commands stroke use_curves 0 stroke [] with
          | [] => path_segments_loop rest use_curves path_segments
          | c :: cs =>
              path_segments_loop rest use_curves
                (path_segments ++ [Str.join " " (c :: cs)])
          end
      end
  end.

(** Lines 120-151. *)
Definition generate_dotted_path_from_svg_coords (svg_strokes : list (list (Q * Q)))
           (use_curves : bool) : string :=
  Str.join (String (ascii_of_nat 10) "           ")
           (path_segments_loop svg_strokes use_curves []).
End fix_dotted_path_alignment_output.

(** * Vocabulary of the statements *)

(** Relative closeness of two binary64 values, [|r - p| <= eps * |p|]. *)
Definition float_within (eps r p : float) : bool :=
  PrimFloat.leb (PrimFloat.abs (PrimFloat.sub r p)) (PrimFloat.mul eps (PrimFloat.abs p)).

(** The forward transform of visualize_points.py followed by its
    reverse transform, with the same fit. *)
Definition round_trip {T : Type} `{PyNumber T} (x y : T) (fit : Transform T)
  : result (T * T) :=
  let '(fx, fy) := visualize_points.transform_point_to_flutter_space x y fit in
  visualize_points.transform_point_from_flutter_space fx fy fit.

(** No comma occurs in [s]. *)
Definition comma_free (s : string) : bool :=
  forallb (fun c => negb (Ascii.eqb c ",")) (list_ascii_of_string s).

(** The operands kept from a list of tokens: the values of the tokens
    [float] accepts, in order. *)
Definition well_formed_values (tokens : list string) : list Q :=
  flat_map (fun t => match Float.of_str t with Ok v => [v] | Raise _ => [] end) tokens.

(** The operands of one regex match. *)
Definition operands (coords : string) : list Q :=
  well_formed_values (Str.split_ws (Str.replace "," " " coords)).

(** What one regex match contributes to the result of
    [visualize_points.parse_svg_path]: always one command. *)
Definition vp_command (m : ascii * string) : command :=
  let '(cmd, coords) := m in
  if Str.is_empty coords || Ascii.eqb (Str.upper cmd) "Z" then (Str.upper cmd, [])
  else (Str.upper cmd, operands coords).

(** The commands [fix_json_alignment.parse_svg_path] keeps: [Z], and
    those with at least one operand. *)
Definition kept (c : command) : bool :=
  Ascii.eqb (fst c) "Z" || negb (Nat.eqb (length (snd c)) 0).

(** [s] is made of whitespace only. *)
Fixpoint all_space (s : string) : bool :=
  match s with
  | String c r => Str.is_space c && all_space r
  | EmptyString => true
  end.

(** No command letter occurs in [s]. *)
Fixpoint no_command (s : string) : bool :=
  match s with
  | String c r => negb (Re.is_command c) && no_command r
  | EmptyString => true
  end.

(** The path string with every ASCII letter upper-cased. *)
Fixpoint upper_all (s : string) : string :=
  match s with
  | String c r => String (Str.upper c) (upper_all r)
  | EmptyString => EmptyString
  end.

(** A regex match, and a matcher state, with their letters upper-cased. *)
Definition upper_match (m : ascii * string) : ascii * string :=
  (Str.upper (fst m), upper_all (snd m)).

Definition upper_state (st : Re.cmd_state) : Re.cmd_state :=
  match st with
  | Re.Search => Re.Search
  | Re.Spaces cmd => Re.Spaces (Str.upper cmd)
  | Re.Coords cmd coords => Re.Coords (Str.upper cmd) (upper_all coords)
  end.

(** The commands that reach the accumulators of [get_svg_bounds]: M and
    L with two operands or more, Q with four, C with six, H and V with
    one. *)
Definition contributes (c : command) : bool :=
  let '(cmd, coords) := c in
  let n := length coords in
  if Ascii.eqb cmd "M" || Ascii.eqb cmd "L" then Nat.leb 2 n
  else if Ascii.eqb cmd "Q" then Nat.leb 4 n
  else if Ascii.eqb cmd "C" then Nat.leb 6 n
  else if Ascii.eqb cmd "H" || Ascii.eqb cmd "V" then Nat.leb 1 n
  else false.

(** The walk over an outline, stated on points: what one command records
    when the current point is [cur], and the current point after it. *)
Definition trace_command (cur : Q * Q) (c : command) : list (Q * Q) * (Q * Q) :=
  let '(cmd, coords) := c in
  match coords with
  | [] => ([], cur)
  | a :: coords1 =>
      if Ascii.eqb cmd "H" then ([(a, snd cur)], (a, snd cur))
      else if Ascii.eqb cmd "V" then ([(fst cur, a)], (fst cur, a))
      else
        match coords1 with
        | [] => ([], cur)
        | b :: coords2 =>
            if Ascii.eqb cmd "M" || Ascii.eqb cmd "L" then ([(a, b)], (a, b))
            else
              match coords2 with
              | c2 :: d :: coords4 =>
                  if Ascii.eqb cmd "Q"
                  then (fix_json_alignment.sample_quadratic_bezier
                          (fst cur) (snd cur) a b c2 d 20, (c2, d))
                  else
                    match coords4 with
                    | e :: f :: _ =>
                        if Ascii.eqb cmd "C"
                        then (fix_json_alignment.sample_cubic_bezier
                                (fst cur) (snd cur) a b c2 d e f 20, (e, f))
                        else ([], cur)
                    | _ => ([], cur)
                    end
              | _ => ([], cur)
              end
        end
  end.

(** Every point recorded along an outline, the current point starting
    at [cur]. *)
Fixpoint recorded_points (cur : Q * Q) (cmds : list command) : list (Q * Q) :=
  match cmds with
  | [] => []
  | c :: rest =>
      let '(pts, cur') := trace_command cur c in
      pts ++ recorded_points cur' rest
  end.

(** [b] is the bounding box of the points [pts]: it contains all of
    them and each of its four sides touches one. *)
Definition bounding_box_of (b : Bounds Q) (pts : list (Q * Q)) : Prop :=
  (forall p, In p pts ->
             left b <= fst p /\ fst p <= left b + width b
             /\ top b <= snd p /\ snd p <= top b + height b)
  /\ (exists p, In p pts /\ fst p == left b)
  /\ (exists p, In p pts /\ fst p == left b + width b)
  /\ (exists p, In p pts /\ snd p == top b)
  /\ (exists p, In p pts /\ snd p == top b + height b).

(** [m] is the least (the greatest) of the numbers [l]: one of them,
    and no other is smaller (larger). *)
Definition least (m : Q) (l : list Q) : Prop :=
  (exists x, In x l /\ x == m) /\ forall x, In x l -> m <= x.

Definition greatest (m : Q) (l : list Q) : Prop :=
  (exists x, In x l /\ x == m) /\ forall x, In x l -> x <= m.

(** [b] is the box of the points [pts] the way the bounds are stored:
    [left] and [top] are the least X and Y, [width] and [height] the
    differences between the greatest and the least. *)
Definition box_of_extremes (b : Bounds Q) (pts : list (Q * Q)) : Prop :=
  exists max_x max_y,
    least (left b) (map fst pts) /\ greatest max_x (map fst pts)
    /\ least (top b) (map snd pts) /\ greatest max_y (map snd pts)
    /\ width b == max_x - left b /\ height b == max_y - top b.

(** The binomial coefficient [n] over [k]. *)
Fixpoint binomial (n k : nat) : Z :=
  match k, n with
  | O, _ => 1
  | S _, O => 0
  | S k', S n' => binomial n' k' + binomial n' k
  end%Z.

(** The Bernstein polynomial [C(n,k) t^k (1-t)^(n-k)]. *)
Definition bernstein (n k : nat) (t : Q) : Q :=
  inject_Z (binomial n k) * t ^ Z.of_nat k * (1 - t) ^ Z.of_nat (n - k).

(** One coordinate of the point at parameter [t] of the Bezier curve
    over the values [ctrl] (the start, the control points and the
    endpoint, in this order): the sum of the [bernstein n k t * ctrl_k],
    [n + 1] being the number of values. *)
Definition bezier (ctrl : list Q) (t : Q) : Q :=
  let n := (length ctrl - 1)%nat in
  fold_right Qplus 0 (map (fun kp => bernstein n (fst kp) t * snd kp)
                          (combine (seq 0 (length ctrl)) ctrl)).

(** [t] begins with a command letter. *)
Definition starts_with_command (t : string) : bool :=
  match t with
  | String c _ => Re.is_command c
  | EmptyString => false
  end.

(** The current point after an outline, the walk starting at [cur]. *)
Definition final_point (cur : Q * Q) (cmds : list command) : Q * Q :=
  fold_left (fun p c => snd (trace_command p c)) cmds cur.

(** The box [inner] lies within the box [outer]. *)
Definition box_within (inner outer : Bounds Q) : Prop :=
  left outer <= left inner /\ top outer <= top inner
  /\ left inner + width inner <= left outer + width outer
  /\ top inner + height inner <= top outer + height outer.

(** Commands other than curves and close-path: what both walks treat
    as straight moves, or ignore. *)
Definition polyline_command (c : command) : bool :=
  negb (Ascii.eqb (fst c) "Q" || Ascii.eqb (fst c) "C" || Ascii.eqb (fst c) "Z").

(** The first command of [cmds] that draws, if there is one, is a
    MoveTo. *)
Definition moveto_first (cmds : list command) : bool :=
  match find contributes cmds with
  | Some (cmd, _) => Ascii.eqb cmd "M"
  | None => true
  end.

(** The record form of a stroke, [{"points": [...]}]. *)
Definition stroke_record (entries : list Json.value) : Json.value :=
  Json.Obj [("points"%string, Json.Arr entries)].



Definition is_nil {A : Type} (l : list A) : bool :=
  match l with [] => true | _ :: _ => false end.

(** No whitespace occurs in [s]. *)
Fixpoint space_free (s : string) : bool :=
  match s with
  | String c r => negb (Str.is_space c) && space_free r
  | EmptyString => true
  end.

(** The number of tenths that [f"{n:.1f}"] prints for [n], sign apart. *)
Definition printed_tenths (n : Q) : Z :=
  let scaled := Qabs n * 10 in
  let q := Qfloor scaled in
  let r := scaled - inject_Z q in
  if Qltb r (1 # 2) then q
  else if Qltb (1 # 2) r then (q + 1)%Z
  else if Z.even q then q else (q + 1)%Z.

(** [s] is made of digits, minus signs and decimal points. *)
Fixpoint number_text (s : string) : bool :=
  match s with
  | String c r =>
      (Str.is_digit c || Ascii.eqb c "-" || Ascii.eqb c ".") && number_text r
  | EmptyString => true
  end.

(** The display-space points of the well-formed entries of a stroke. *)
Definition display_points (entries : list string) (view_size : Q) : list (Q * Q) :=
  flat_map (fun e => match generate_dotted_path.parse_point e with
                     | (Some x_norm, Some y_norm) => [(x_norm * view_size, y_norm * view_size)]
                     | _ => []
                     end) entries.

(** The command [c] has the letter [letter] and two operands, each
    within 0.05 of the coordinates of [pt]. *)
Definition command_near (letter : ascii) (pt : Q * Q) (c : command) : Prop :=
  fst c = letter
  /\ exists a b, snd c = [a; b]
                 /\ Qabs (a - fst pt) <= 1 # 20 /\ Qabs (b - snd pt) <= 1 # 20.

(** Every character of [s] belongs to the class of the second group of
    the command pattern. *)
Fixpoint coord_text (s : string) : bool :=
  match s with
  | String c r => Re.is_coord_char c && coord_text r
  | EmptyString => true
  end.

(** The text of a MoveTo or LineTo command as the generators write it. *)
Definition command_text (letter : ascii) (pt : Q * Q) : string :=
  String letter (String " " (extract_telugu.format_1f (fst pt) ++ String " "
                               (extract_telugu.format_1f (snd pt)))).

(** [lo <= v <= hi]. *)
Definition between (lo hi v : Q) : Prop := lo <= v /\ v <= hi.





(** * Properties *)

(** ** The rational instance *)

Lemma Qltb_lt (x y : Q) : Qltb x y = true <-> x < y.
Proof.
  unfold Qltb. rewrite negb_true_iff, <- not_true_iff_false, Qle_bool_iff.
  split; [apply Qnot_le_lt | apply Qlt_not_le].
Qed.

Lemma Qltb_ge (x y : Q) : Qltb x y = false <-> y <= x.
Proof.
  unfold Qltb. rewrite negb_false_iff. apply Qle_bool_iff.
Qed.

Lemma truediv_Q_ok (x y : Q) : ~ y == 0 -> truediv x y = Ok (x / y).
Proof.
  intros Hy. cbn. destruct (Qeq_bool y 0) eqn:E; [|reflexivity].
  apply Qeq_bool_iff in E. contradiction.
Qed.

Lemma truediv_Q_zero (x y : Q) : y == 0 -> truediv x y = Raise ZeroDivisionError.
Proof.
  intros Hy. cbn. apply Qeq_bool_iff in Hy. rewrite Hy. reflexivity.
Qed.

Lemma truediv_Q_two (x : Q) : truediv x (lit 2) = Ok (x / 2).
Proof. reflexivity. Qed.

(** Python's two-argument [min] and [max] compute the rational minimum
    and maximum. *)
Lemma min2_Q (a b : Q) : min2 a b == Qmin a b.
Proof.
  unfold min2. cbn. destruct (Qltb b a) eqn:E.
  - apply Qltb_lt in E. symmetry. apply Q.min_r. apply Qlt_le_weak, E.
  - apply Qltb_ge in E. symmetry. apply Q.min_l, E.
Qed.

Lemma max2_Q (a b : Q) : max2 a b == Qmax a b.
Proof.
  unfold max2. cbn. destruct (Qltb a b) eqn:E.
  - apply Qltb_lt in E. symmetry. apply Q.max_r. apply Qlt_le_weak, E.
  - apply Qltb_ge in E. symmetry. apply Q.max_l, E.
Qed.

(** ** Round trip of the fit transform *)

(** C1, as stated, fails in binary64: with scale 1 and translation
    (1e20, 1e20) the point (1, 1) is absorbed by the translation on the
    way forward and comes back as (0, 0), a relative error of 1. *)
Lemma C1_round_trip_binary64_counterexample :
  round_trip 1%float 1%float (mkTransform 1 1e20 1e20)%float = Ok (0, 0)%float
  /\ PrimFloat.eqb (scale (mkTransform 1 1e20 1e20)%float) 0%float = false
  /\ float_within (1 / 1000000)%float 0%float 1%float = false.
Proof. vm_compute. repeat split. Qed.

(** C1 (amended): in exact rational arithmetic, for every point and
    every fit whose scale is not zero, the inverse transform applied to
    the forward transform returns the point itself.  In binary64 the
    round trip is exact where no rounding occurs, as for the point
    (50, 100) under the fit {scale 1.5, translateX 75, translateY 0}. *)
Theorem C1_round_trip_exact :
  (forall (x y : Q) (fit : Transform Q),
      ~ scale fit == 0 ->
      exists x' y', round_trip x y fit = Ok (x', y') /\ x' == x /\ y' == y)
  /\ round_trip 50%float 100%float (mkTransform 1.5 75 0)%float = Ok (50, 100)%float.
Proof.
  split; [|vm_compute; reflexivity].
  intros x y fit Hs.
  unfold round_trip, visualize_points.transform_point_to_flutter_space,
    visualize_points.transform_point_from_flutter_space.
  rewrite !truediv_Q_ok by assumption. cbn [bind].
  eexists; eexists; split; [reflexivity|].
  cbn [add sub mul Q_number]. split; field; assumption.
Qed.

Lemma C1_round_trip_exact_witness :
  exists x' y', round_trip (3 # 7) (-5 # 2) (mkTransform (3 # 2) 75 0) = Ok (x', y')
                /\ x' == 3 # 7 /\ y' == -5 # 2.
Proof.
  apply (proj1 C1_round_trip_exact (3 # 7) (-5 # 2) (mkTransform (3 # 2) 75 0)).
  cbn. intros E. discriminate E.
Defined.

(** ** The fit computed from a bounding box *)

(** The three copies of the fit computation are the same function. *)
Lemma calculate_flutter_transform_copies {T : Type} `{PyNumber T}
      (b : Bounds T) (v : T) :
  fix_dotted_path_alignment.calculate_flutter_transform b v
    = fix_json_alignment.calculate_flutter_transform b v
  /\ visualize_points.apply_flutter_transformation b v
    = fix_json_alignment.calculate_flutter_transform b v.
Proof. split; reflexivity. Qed.

Lemma calculate_flutter_transform_Q_ok (b : Bounds Q) (v : Q) :
  ~ width b == 0 -> ~ height b == 0 ->
  fix_json_alignment.calculate_flutter_transform b v =
  Ok (let s := min2 (v / width b) (v / height b) in
      mkTransform s ((v - width b * s) / 2 - left b * s)
                    ((v - height b * s) / 2 - top b * s)).
Proof.
  intros Hw Hh. unfold fix_json_alignment.calculate_flutter_transform.
  rewrite (truediv_Q_ok v (width b) Hw), (truediv_Q_ok v (height b) Hh).
  cbn [bind]. rewrite !truediv_Q_two. reflexivity.
Qed.

(** C2: for a box of non-zero width and height both copies of
    [calculate_flutter_transform] return the fit with
    scale = min(target/width, target/height),
    translateX = (target - width*scale)/2 - left*scale and
    translateY = (target - height*scale)/2 - top*scale; for the box
    {left 0, top 0, width 100, height 200} and target 300 this is
    scale 1.5, translateX 75, translateY 0, in rational and in binary64
    arithmetic alike. *)
Theorem C2_fit_formula :
  (forall (b : Bounds Q) (v : Q),
      ~ width b == 0 -> ~ height b == 0 ->
      exists t,
        fix_json_alignment.calculate_flutter_transform b v = Ok t
        /\ fix_dotted_path_alignment.calculate_flutter_transform b v = Ok t
        /\ scale t == Qmin (v / width b) (v / height b)
        /\ translate_x t == (v - width b * scale t) / 2 - left b * scale t
        /\ translate_y t == (v - height b * scale t) / 2 - top b * scale t)
  /\ (exists t,
        fix_json_alignment.calculate_flutter_transform (mkBounds 0 0 100 200) 300 = Ok t
        /\ fix_dotted_path_alignment.calculate_flutter_transform (mkBounds 0 0 100 200) 300
           = Ok t
        /\ scale t == 3 # 2 /\ translate_x t == 75 /\ translate_y t == 0)
  /\ fix_json_alignment.calculate_flutter_transform
       (mkBounds 0 0 100 200)%float 300%float = Ok (mkTransform 1.5 75 0)%float.
Proof.
  split; [|split].
  - intros b v Hw Hh. eexists. split; [|split].
    + apply calculate_flutter_transform_Q_ok; assumption.
    + apply calculate_flutter_transform_Q_ok; assumption.
    + cbn [scale translate_x translate_y]. split; [apply min2_Q|].
      split; reflexivity.
  - eexists. split; [|split]; [vm_compute; reflexivity | vm_compute; reflexivity |].
    cbn [scale translate_x translate_y]. repeat split; reflexivity.
  - vm_compute. reflexivity.
Qed.

(** C3, as stated, fails: on a box of width zero the fit computation
    does divide by zero, and what reaches the caller is Python's
    [ZeroDivisionError]. *)
Lemma C3_zero_width_counterexample :
  fix_json_alignment.calculate_flutter_transform (mkBounds 0 0 0 200) 300
    = Raise ZeroDivisionError
  /\ fix_json_alignment.calculate_flutter_transform
       (mkBounds 0 0 0 200)%float 300%float = Raise ZeroDivisionError.
Proof. split; vm_compute; reflexivity. Qed.

(** C3 (amended): when the width or the height of the box is zero, every
    copy of the fit computation performs the division and fails with
    [ZeroDivisionError]; no fit, default or otherwise, is returned. *)
Theorem C3_degenerate_bounds_raise (b : Bounds Q) (v : Q) :
  width b == 0 \/ height b == 0 ->
  fix_json_alignment.calculate_flutter_transform b v = Raise ZeroDivisionError
  /\ fix_dotted_path_alignment.calculate_flutter_transform b v = Raise ZeroDivisionError
  /\ visualize_points.apply_flutter_transformation b v = Raise ZeroDivisionError.
Proof.
  intros Hd.
  assert (E : fix_json_alignment.calculate_flutter_transform b v = Raise ZeroDivisionError).
  { unfold fix_json_alignment.calculate_flutter_transform.
    destruct (Qeq_dec (width b) 0) as [Hw|Hw].
    - rewrite (truediv_Q_zero v _ Hw). reflexivity.
    - rewrite (truediv_Q_ok v _ Hw). destruct Hd as [Hd|Hd]; [contradiction|].
      rewrite (truediv_Q_zero v _ Hd). reflexivity. }
  repeat split; exact E.
Qed.

Lemma C3_degenerate_bounds_raise_witness :
  fix_json_alignment.calculate_flutter_transform (mkBounds 5 7 40 0) 300
    = Raise ZeroDivisionError
  /\ fix_dotted_path_alignment.calculate_flutter_transform (mkBounds 5 7 40 0) 300
    = Raise ZeroDivisionError
  /\ visualize_points.apply_flutter_transformation (mkBounds 5 7 40 0) 300
    = Raise ZeroDivisionError.
Proof.
  apply (C3_degenerate_bounds_raise (mkBounds 5 7 40 0) 300).
  right. reflexivity.
Defined.

(** ** Projection of stroke points *)

(** C4, as stated, fails: the point (0.5, 0.5) under the fit
    {scale 1.5, translateX 75, translateY 0} and display size 300 is not
    sent to (150, 50). *)
Lemma C4_scenario_counterexample :
  ~ (exists x y,
        fix_dotted_path_alignment.reverse_transform_point
          (1 # 2) (1 # 2) (mkTransform (3 # 2) 75 0) 300 = Ok (x, y)
        /\ x == 150 /\ y == 50).
Proof.
  intros (x & y & E & Hx & _). vm_compute in E. injection E as <- <-.
  discriminate Hx.
Qed.

(** C4 (amended): the stroke point "0.5,0.5" under the fit
    {scale 1.5, translateX 75, translateY 0} and display size 300 is
    sent to the outline-space point (50, 100): each coordinate is
    multiplied by 300, giving (150, 150), and the inverse transform gives
    ((150 - 75) / 1.5, (150 - 0) / 1.5). *)
Theorem C4_scenario_amended :
  (exists x y,
      fix_dotted_path_alignment.reverse_transform_point
        (1 # 2) (1 # 2) (mkTransform (3 # 2) 75 0) 300 = Ok (x, y)
      /\ x == 50 /\ y == 100)
  /\ (exists x y,
         fix_dotted_path_alignment.convert_points
           ["0.5,0.5"%string] (mkTransform (3 # 2) 75 0) 300 [] = [(x, y)]
         /\ x == 50 /\ y == 100)
  /\ fix_dotted_path_alignment.reverse_transform_point
       0.5%float 0.5%float (mkTransform 1.5 75 0)%float 300%float = Ok (50, 100)%float.
Proof.
  split; [|split].
  - eexists; eexists. split; [vm_compute; reflexivity|]. split; reflexivity.
  - eexists; eexists. split; [vm_compute; reflexivity|]. split; reflexivity.
  - vm_compute. reflexivity.
Qed.

Lemma C2_fit_formula_witness :
  exists t,
    fix_json_alignment.calculate_flutter_transform (mkBounds 10 20 40 80) 200 = Ok t
    /\ fix_dotted_path_alignment.calculate_flutter_transform (mkBounds 10 20 40 80) 200 = Ok t
    /\ scale t == Qmin (200 / 40) (200 / 80)
    /\ translate_x t == (200 - 40 * scale t) / 2 - 10 * scale t
    /\ translate_y t == (200 - 80 * scale t) / 2 - 20 * scale t.
Proof.
  apply (proj1 C2_fit_formula (mkBounds 10 20 40 80) 200); cbn; intros E; discriminate E.
Defined.

(** ** Clamping *)

(** [max(0.0, min(1.0, u))] on rationals. *)
Lemma clamp_Q (u : Q) :
  let c := max2 (lit 0) (min2 (lit 1) u) in
  0 <= c /\ c <= 1
  /\ (0 <= u -> u <= 1 -> c == u)
  /\ (u < 0 -> c == 0)
  /\ (1 < u -> c == 1).
Proof.
  unfold max2, min2. cbn [lt lit Q_number].
  change (inject_Z 0) with 0. change (inject_Z 1) with 1.
  destruct (Qltb u 1) eqn:E1.
  - apply Qltb_lt in E1. destruct (Qltb 0 u) eqn:E0.
    + apply Qltb_lt in E0. repeat split; intros; lra.
    + apply Qltb_ge in E0. repeat split; intros; lra.
  - apply Qltb_ge in E1. replace (Qltb 0 1) with true by reflexivity.
    repeat split; intros; lra.
Qed.

Lemma split_on_from_comma_free (sep_free cur rest : string) :
  comma_free sep_free = true ->
  Str.split_on_from "," cur (sep_free ++ String "," rest)
  = (cur ++ sep_free)%string :: Str.split_on_from "," EmptyString rest.
Proof.
  revert cur. induction sep_free as [|c s IH]; intros cur Hf.
  - cbn. replace (cur ++ "")%string with cur; [reflexivity|].
    clear. induction cur; cbn; congruence.
  - unfold comma_free in Hf. cbn in Hf. apply andb_true_iff in Hf as [Hc Hs].
    cbn. apply negb_true_iff in Hc. rewrite Hc.
    rewrite IH by exact Hs. f_equal.
    clear. induction cur; cbn; congruence.
Qed.

Lemma split_on_from_no_comma (s cur : string) :
  comma_free s = true -> Str.split_on_from "," cur s = [(cur ++ s)%string].
Proof.
  revert cur. induction s as [|c s IH]; intros cur Hf.
  - cbn. f_equal. clear. induction cur; cbn; congruence.
  - unfold comma_free in Hf. cbn in Hf. apply andb_true_iff in Hf as [Hc Hs].
    cbn. apply negb_true_iff in Hc. rewrite Hc. rewrite IH by exact Hs.
    f_equal. clear. induction cur; cbn; congruence.
Qed.

(** A point entry made of two comma-free fields decodes to the values
    [float] gives the fields. *)
Lemma decode_point_fields (a b : string) (x y : Q) :
  comma_free a = true -> comma_free b = true ->
  Float.of_str a = Ok x -> Float.of_str b = Ok y ->
  fix_dotted_path_alignment.decode_point (a ++ String "," b) = Ok (x, y).
Proof.
  intros Ha Hb Ea Eb. unfold fix_dotted_path_alignment.decode_point, Str.split_on.
  rewrite split_on_from_comma_free by exact Ha.
  rewrite split_on_from_no_comma by exact Hb.
  cbn [append]. rewrite Ea, Eb. reflexivity.
Qed.

(** C6, as stated, fails for the forward projection: with the identity
    fit and display size 1 the point (2, -3) has the unclamped normalized
    image (2, -3), and [svg_to_flutter_normalized] returns (1, 0). *)
Lemma C6_forward_clamps_counterexample :
  exists nx ny,
    fix_json_alignment.svg_to_flutter_normalized 2 (-3) (mkTransform 1 0 0) 1 = Ok (nx, ny)
    /\ nx == 1 /\ ny == 0
    /\ ~ nx == (2 * 1 + 0) / 1 /\ ~ ny == (-3 * 1 + 0) / 1.
Proof.
  eexists; eexists. split; [vm_compute; reflexivity|].
  repeat split; try reflexivity; intros E; discriminate E.
Qed.

(** C6 (amended): decoding a stroke point and projecting it back to
    outline space do not clamp: the decoded coordinates are the values of
    the two fields, and [reverse_transform_point] returns
    ((nx*size - translateX)/scale, (ny*size - translateY)/scale) for
    every normalized point, inside [0, 1] or not.  The forward projection
    [svg_to_flutter_normalized] does clamp: with u the unclamped
    normalized coordinate (x*scale + translate)/size, it returns u when
    0 <= u <= 1, 0 when u < 0 and 1 when u > 1. *)
Theorem C6_clamping :
  (forall (a b : string) (x y : Q),
      comma_free a = true -> comma_free b = true ->
      Float.of_str a = Ok x -> Float.of_str b = Ok y ->
      fix_dotted_path_alignment.decode_point (a ++ String "," b) = Ok (x, y))
  /\ (forall (nx ny v : Q) (fit : Transform Q),
         ~ scale fit == 0 ->
         fix_dotted_path_alignment.reverse_transform_point nx ny fit v
         = Ok ((nx * v - translate_x fit) / scale fit,
               (ny * v - translate_y fit) / scale fit))
  /\ (forall (x y v : Q) (fit : Transform Q),
         ~ v == 0 ->
         exists nx ny,
           fix_json_alignment.svg_to_flutter_normalized x y fit v = Ok (nx, ny)
           /\ (let u := (x * scale fit + translate_x fit) / v in
               0 <= nx /\ nx <= 1 /\ (0 <= u -> u <= 1 -> nx == u)
               /\ (u < 0 -> nx == 0) /\ (1 < u -> nx == 1))
           /\ (let u := (y * scale fit + translate_y fit) / v in
               0 <= ny /\ ny <= 1 /\ (0 <= u -> u <= 1 -> ny == u)
               /\ (u < 0 -> ny == 0) /\ (1 < u -> ny == 1))).
Proof.
  split; [|split].
  - exact decode_point_fields.
  - intros nx ny v fit Hs. unfold fix_dotted_path_alignment.reverse_transform_point.
    rewrite !truediv_Q_ok by exact Hs. reflexivity.
  - intros x y v fit Hv. unfold fix_json_alignment.svg_to_flutter_normalized.
    rewrite !truediv_Q_ok by exact Hv. cbn [bind].
    eexists; eexists. split; [reflexivity|].
    split; apply clamp_Q.
Qed.

Lemma C6_clamping_witness :
  fix_dotted_path_alignment.decode_point ("1.5" ++ String "," "-0.25") = Ok (15 # 10, -25 # 100)
  /\ fix_dotted_path_alignment.reverse_transform_point (3 # 2) (-1 # 4) (mkTransform 2 10 20) 300
     = Ok (((3 # 2) * 300 - 10) / 2, ((-1 # 4) * 300 - 20) / 2)
  /\ exists nx ny,
       fix_json_alignment.svg_to_flutter_normalized 500 (-7) (mkTransform 2 10 20) 300
       = Ok (nx, ny)
       /\ (let u := (500 * 2 + 10) / 300 in
           0 <= nx /\ nx <= 1 /\ (0 <= u -> u <= 1 -> nx == u)
           /\ (u < 0 -> nx == 0) /\ (1 < u -> nx == 1))
       /\ (let u := (-7 * 2 + 20) / 300 in
           0 <= ny /\ ny <= 1 /\ (0 <= u -> u <= 1 -> ny == u)
           /\ (u < 0 -> ny == 0) /\ (1 < u -> ny == 1)).
Proof.
  split; [|split].
  - apply (proj1 C6_clamping "1.5"%string "-0.25"%string); reflexivity.
  - apply (proj1 (proj2 C6_clamping) (3 # 2) (-1 # 4) 300 (mkTransform 2 10 20)).
    cbn. intros E; discriminate E.
  - apply (proj2 (proj2 C6_clamping) 500 (-7) 300 (mkTransform 2 10 20)).
    intros E; discriminate E.
Defined.

(** ** The command parsers *)

Lemma literal_raises (s : string) (e : exn) : Float.literal s = Raise e -> e = ValueError.
Proof.
  unfold Float.literal.
  destruct (Float.sign s) as [neg s1].
  destruct (Float.digits s1 0 0) as [[ip n1] s2].
  destruct (match s2 with
            | String c r => if Ascii.eqb c "." then Float.digits r ip 0 else (ip, O, s2)
            | EmptyString => (ip, O, s2)
            end) as [[m n2] s3].
  destruct (Nat.eqb (n1 + n2) 0); [congruence|].
  destruct s3 as [|c r]; [congruence|].
  destruct (Ascii.eqb c "e" || Ascii.eqb c "E"); [|congruence].
  destruct (Float.sign r) as [eneg r1].
  destruct (Float.digits r1 0 0) as [[ev n3] r2].
  destruct (Nat.eqb n3 0); [congruence|].
  destruct (Str.is_empty r2); congruence.
Qed.

(** [float] raises nothing but [ValueError]. *)
Lemma of_str_raises (s : string) (e : exn) : Float.of_str s = Raise e -> e = ValueError.
Proof.
  unfold Float.of_str.
  destruct (Float.underscores Ascii.zero (Float.strip s)) as [s0|];
    [apply literal_raises | congruence].
Qed.

Lemma parse_numbers_spec (tokens : list string) (nums : list Q) :
  parse_numbers tokens nums = Ok (nums ++ well_formed_values tokens).
Proof.
  revert nums. induction tokens as [|t ts IH]; intros nums; cbn.
  - rewrite app_nil_r. reflexivity.
  - destruct (Float.of_str t) as [v|e] eqn:E.
    + rewrite IH, <- app_assoc. reflexivity.
    + rewrite (of_str_raises _ _ E), IH. reflexivity.
Qed.

Lemma vp_parse_matches_spec (ms : list (ascii * string)) (cs : list command) :
  visualize_points.parse_matches ms cs = Ok (cs ++ map vp_command ms).
Proof.
  revert cs. induction ms as [|[cmd coords] ms IH]; intros cs; cbn.
  - rewrite app_nil_r. reflexivity.
  - destruct (Str.is_empty coords || Ascii.eqb (Str.upper cmd) "Z").
    + rewrite IH, <- app_assoc. reflexivity.
    + rewrite parse_numbers_spec. cbn. rewrite IH, <- app_assoc. reflexivity.
Qed.

Lemma rstrip_empty (s : string) : Str.is_empty (Str.rstrip s) = true -> all_space s = true.
Proof.
  induction s as [|c r IH]; [reflexivity|]. cbn.
  destruct (Str.is_space c); cbn; [|discriminate].
  destruct (Str.is_empty (Str.rstrip r)); cbn; [auto | discriminate].
Qed.

Lemma lstrip_all_space (s : string) : all_space (Str.lstrip s) = true -> all_space s = true.
Proof.
  induction s as [|c r IH]; [reflexivity|]. cbn.
  destruct (Str.is_space c) eqn:E; cbn; [exact IH|].
  rewrite E. discriminate.
Qed.

Lemma split_ws_all_space (s : string) :
  all_space s = true -> Str.split_ws (Str.replace "," " " s) = [].
Proof.
  unfold Str.split_ws. induction s as [|c r IH]; [reflexivity|]. cbn.
  intros H. apply andb_true_iff in H as [Hc Hr].
  destruct (Ascii.eqb c ",") eqn:E.
  - apply Ascii.eqb_eq in E. subst c. discriminate Hc.
  - rewrite Hc. cbn. apply IH, Hr.
Qed.

(** A second group made of blanks only has no operands. *)
Lemma blank_operands (coords : string) :
  Str.is_empty (Str.strip coords) = true -> operands coords = [].
Proof.
  intros H. unfold operands.
  rewrite split_ws_all_space; [reflexivity|].
  apply lstrip_all_space, rstrip_empty, H.
Qed.

Lemma fja_parse_matches_spec (ms : list (ascii * string)) (cs : list command) :
  fix_json_alignment.parse_matches ms cs = Ok (cs ++ filter kept (map vp_command ms)).
Proof.
  revert cs. induction ms as [|[cmd coords] ms IH]; intros cs.
  - cbn. rewrite app_nil_r. reflexivity.
  - cbn [fix_json_alignment.parse_matches map vp_command filter].
    destruct (Ascii.eqb (Str.upper cmd) "Z") eqn:EZ.
    + rewrite orb_true_r. unfold kept. cbn [fst snd]. rewrite EZ. cbn [orb].
      rewrite IH, <- app_assoc. reflexivity.
    + rewrite orb_false_r. destruct (Str.is_empty coords) eqn:Ee.
      * cbn [orb]. unfold kept. cbn [fst snd length Nat.eqb negb]. rewrite EZ. cbn [orb].
        apply IH.
      * cbn [orb]. rewrite parse_numbers_spec. cbn [bind app].
        change (well_formed_values (Str.split_ws (Str.replace "," " " coords)))
          with (operands coords).
        unfold kept. cbn [fst snd]. rewrite EZ. cbn [orb].
        destruct (Str.is_empty (Str.strip coords)) eqn:Es.
        -- rewrite (blank_operands _ Es). cbn. apply IH.
        -- destruct (operands coords) as [|v vs]; cbn [length Nat.eqb negb].
           ++ apply IH.
           ++ rewrite IH, <- app_assoc. reflexivity.
Qed.

Lemma findall_commands_no_command (s : string) :
  no_command s = true -> Re.findall_commands s = [].
Proof.
  unfold Re.findall_commands. induction s as [|c r IH]; [reflexivity|].
  cbn [no_command Re.cmd_scan]. intros H. apply andb_true_iff in H as [Hc Hr].
  apply negb_true_iff in Hc. rewrite Hc. apply IH, Hr.
Qed.

(** C7, as stated, fails for the parser of fix_json_alignment.py: a
    command letter with no numeric operand is not retained. *)
Lemma C7_dangling_letter_counterexample :
  fix_json_alignment.parse_svg_path "M"%string = Ok []
  /\ fix_json_alignment.parse_svg_path "M 10 20 H L x"%string = Ok [("M"%char, [10; 20])].
Proof. split; vm_compute; reflexivity. Qed.

(** C7 (amended): for every input string both parsers return a command
    sequence without raising; malformed numeric substrings are dropped
    from the operand list; a string without command letters parses to
    nothing; the string "Z" parses to exactly one zero-operand Z command.
    [visualize_points.parse_svg_path] retains every matched command
    letter, one with no numeric operand as a zero-operand command;
    [fix_json_alignment.parse_svg_path] returns the same sequence without
    the commands other than Z that have no operand. *)
Theorem C7_parsers_total :
  (forall s : string,
      visualize_points.parse_svg_path s = Ok (map vp_command (Re.findall_commands s))
      /\ fix_json_alignment.parse_svg_path s
         = Ok (filter kept (map vp_command (Re.findall_commands s))))
  /\ (forall (tokens : list string) (nums : list Q),
         parse_numbers tokens nums = Ok (nums ++ well_formed_values tokens))
  /\ (forall s : string,
         no_command s = true ->
         visualize_points.parse_svg_path s = Ok []
         /\ fix_json_alignment.parse_svg_path s = Ok [])
  /\ (forall c : ascii,
         Re.is_command c = true ->
         visualize_points.parse_svg_path (String c EmptyString) = Ok [(Str.upper c, [])])
  /\ visualize_points.parse_svg_path "Z"%string = Ok [("Z"%char, [])]
  /\ fix_json_alignment.parse_svg_path "Z"%string = Ok [("Z"%char, [])].
Proof.
  split; [|split; [|split; [|split; [|split]]]].
  - intros s. split.
    + unfold visualize_points.parse_svg_path. apply vp_parse_matches_spec.
    + unfold fix_json_alignment.parse_svg_path. apply fja_parse_matches_spec.
  - exact parse_numbers_spec.
  - intros s Hs.
    unfold visualize_points.parse_svg_path, fix_json_alignment.parse_svg_path.
    rewrite (findall_commands_no_command s Hs). split; reflexivity.
  - intros c Hc. unfold visualize_points.parse_svg_path, Re.findall_commands.
    cbn [Re.cmd_scan]. rewrite Hc. reflexivity.
  - reflexivity.
  - reflexivity.
Qed.

Lemma C7_parsers_total_witness :
  visualize_points.parse_svg_path "q"%string = Ok [("Q"%char, [])].
Proof.
  apply (proj1 (proj2 (proj2 (proj2 C7_parsers_total))) "q"%char). reflexivity.
Defined.

(** ** Case of the command letters *)

Ltac by_cases_on_char c :=
  destruct c as [[] [] [] [] [] [] [] []]; reflexivity.

Lemma upper_idem (c : ascii) : Str.upper (Str.upper c) = Str.upper c.
Proof. by_cases_on_char c. Qed.

Lemma upper_is_command (c : ascii) : Re.is_command (Str.upper c) = Re.is_command c.
Proof. by_cases_on_char c. Qed.

Lemma upper_is_space (c : ascii) : Str.is_space (Str.upper c) = Str.is_space c.
Proof. by_cases_on_char c. Qed.

Lemma upper_is_coord_char (c : ascii) : Re.is_coord_char (Str.upper c) = Re.is_coord_char c.
Proof. by_cases_on_char c. Qed.

Lemma upper_is_digit (c : ascii) : Str.is_digit (Str.upper c) = Str.is_digit c.
Proof. by_cases_on_char c. Qed.

Lemma upper_digit (c : ascii) : Str.is_digit c = true -> Str.upper c = c.
Proof. destruct c as [[] [] [] [] [] [] [] []]; intros H; try reflexivity; discriminate H. Qed.

Lemma upper_eqb_minus (c : ascii) : Ascii.eqb (Str.upper c) "-" = Ascii.eqb c "-".
Proof. by_cases_on_char c. Qed.

Lemma upper_eqb_plus (c : ascii) : Ascii.eqb (Str.upper c) "+" = Ascii.eqb c "+".
Proof. by_cases_on_char c. Qed.

Lemma upper_eqb_dot (c : ascii) : Ascii.eqb (Str.upper c) "." = Ascii.eqb c ".".
Proof. by_cases_on_char c. Qed.

Lemma upper_eqb_comma (c : ascii) : Ascii.eqb (Str.upper c) "," = Ascii.eqb c ",".
Proof. by_cases_on_char c. Qed.

Lemma upper_comma_to_space (c : ascii) :
  (if Ascii.eqb (Str.upper c) "," then " "%char else Str.upper c)
  = Str.upper (if Ascii.eqb c "," then " "%char else c).
Proof. by_cases_on_char c. Qed.

Lemma upper_exponent (c : ascii) :
  Ascii.eqb (Str.upper c) "e" || Ascii.eqb (Str.upper c) "E"
  = Ascii.eqb c "e" || Ascii.eqb c "E".
Proof. by_cases_on_char c. Qed.

Lemma upper_all_app (s t : string) :
  upper_all (s ++ t) = (upper_all s ++ upper_all t)%string.
Proof. induction s as [|c r IH]; cbn; [reflexivity | rewrite IH; reflexivity]. Qed.

Lemma upper_all_is_empty (s : string) : Str.is_empty (upper_all s) = Str.is_empty s.
Proof. destruct s; reflexivity. Qed.

Lemma upper_all_lstrip (s : string) : Str.lstrip (upper_all s) = upper_all (Str.lstrip s).
Proof.
  induction s as [|c r IH]; [reflexivity|]. cbn. rewrite upper_is_space.
  destruct (Str.is_space c); [exact IH | reflexivity].
Qed.

Lemma upper_all_rstrip (s : string) : Str.rstrip (upper_all s) = upper_all (Str.rstrip s).
Proof.
  induction s as [|c r IH]; [reflexivity|]. cbn. rewrite upper_is_space, IH.
  rewrite upper_all_is_empty.
  destruct (Str.is_space c && Str.is_empty (Str.rstrip r)); reflexivity.
Qed.

Lemma upper_all_strip (s : string) : Str.strip (upper_all s) = upper_all (Str.strip s).
Proof. unfold Str.strip. rewrite upper_all_lstrip, upper_all_rstrip. reflexivity. Qed.

Lemma upper_all_replace (s : string) :
  Str.replace "," " " (upper_all s) = upper_all (Str.replace "," " " s).
Proof.
  induction s as [|c r IH]; [reflexivity|]. cbn [upper_all Str.replace].
  rewrite IH, upper_comma_to_space. reflexivity.
Qed.

Lemma upper_all_split_ws_from (cur s : string) :
  Str.split_ws_from (upper_all cur) (upper_all s) = map upper_all (Str.split_ws_from cur s).
Proof.
  revert cur. induction s as [|c r IH]; intros cur; cbn.
  - rewrite upper_all_is_empty. destruct (Str.is_empty cur); reflexivity.
  - rewrite upper_is_space, upper_all_is_empty. destruct (Str.is_space c).
    + destruct (Str.is_empty cur); cbn; rewrite <- (IH EmptyString); reflexivity.
    + rewrite <- IH, upper_all_app. reflexivity.
Qed.

Lemma upper_all_sign (s : string) :
  Float.sign (upper_all s) = (fst (Float.sign s), upper_all (snd (Float.sign s))).
Proof.
  destruct s as [|c r]; [reflexivity|]. cbn [upper_all Float.sign].
  rewrite upper_eqb_minus, upper_eqb_plus.
  destruct (Ascii.eqb c "-"); [reflexivity|]. destruct (Ascii.eqb c "+"); reflexivity.
Qed.

Lemma upper_all_digits (s : string) (acc : Z) (cnt : nat) :
  Float.digits (upper_all s) acc cnt
  = (fst (Float.digits s acc cnt), upper_all (snd (Float.digits s acc cnt))).
Proof.
  revert acc cnt. induction s as [|c r IH]; intros acc cnt; [reflexivity|].
  cbn [upper_all Float.digits]. rewrite upper_is_digit.
  destruct (Str.is_digit c) eqn:E; [|reflexivity].
  rewrite (upper_digit c E). apply IH.
Qed.

Lemma upper_is_float_space (c : ascii) : Float.is_space (Str.upper c) = Float.is_space c.
Proof. by_cases_on_char c. Qed.

Lemma upper_eqb_underscore (c : ascii) : Ascii.eqb (Str.upper c) "_" = Ascii.eqb c "_".
Proof. by_cases_on_char c. Qed.

Lemma upper_all_float_strip (s : string) :
  Float.strip (upper_all s) = upper_all (Float.strip s).
Proof.
  unfold Float.strip.
  assert (Hl : forall t, Float.lstrip (upper_all t) = upper_all (Float.lstrip t)).
  { induction t as [|c r IH]; [reflexivity|]. cbn. rewrite upper_is_float_space.
    destruct (Float.is_space c); [exact IH | reflexivity]. }
  assert (Hr : forall t, Float.rstrip (upper_all t) = upper_all (Float.rstrip t)).
  { induction t as [|c r IH]; [reflexivity|]. cbn. rewrite upper_is_float_space, IH.
    rewrite upper_all_is_empty.
    destruct (Float.is_space c && Str.is_empty (Float.rstrip r)); reflexivity. }
  rewrite Hl, Hr. reflexivity.
Qed.

Lemma upper_all_underscores (prev : ascii) (s : string) :
  Float.underscores (Str.upper prev) (upper_all s)
  = option_map upper_all (Float.underscores prev s).
Proof.
  revert prev. induction s as [|c r IH]; intros prev.
  - cbn. rewrite upper_eqb_underscore. destruct (Ascii.eqb prev "_"); reflexivity.
  - cbn [upper_all Float.underscores].
    rewrite !upper_eqb_underscore, !upper_is_digit, IH.
    destruct (Ascii.eqb c "_").
    + destruct (Str.is_digit prev); reflexivity.
    + destruct (Ascii.eqb prev "_" && negb (Str.is_digit c)); [reflexivity|].
      destruct (Float.underscores c r); reflexivity.
Qed.

Lemma literal_upper_all (s : string) : Float.literal (upper_all s) = Float.literal s.
Proof.
  unfold Float.literal. rewrite upper_all_sign.
  destruct (Float.sign s) as [neg s1]. cbn [fst snd].
  rewrite upper_all_digits.
  destruct (Float.digits s1 0 0) as [[ip n1] s2]. cbn [fst snd].
  assert (Hfrac :
    match upper_all s2 with
    | String c r => if Ascii.eqb c "." then Float.digits r ip 0 else (ip, O, upper_all s2)
    | EmptyString => (ip, O, upper_all s2)
    end
    = (fst match s2 with
           | String c r => if Ascii.eqb c "." then Float.digits r ip 0 else (ip, O, s2)
           | EmptyString => (ip, O, s2)
           end,
       upper_all (snd match s2 with
                      | String c r => if Ascii.eqb c "." then Float.digits r ip 0 else (ip, O, s2)
                      | EmptyString => (ip, O, s2)
                      end))).
  { destruct s2 as [|c r]; [reflexivity|]. cbn [upper_all]. rewrite upper_eqb_dot.
    destruct (Ascii.eqb c "."); [apply upper_all_digits | reflexivity]. }
  rewrite Hfrac. clear Hfrac.
  destruct (match s2 with
            | String c r => if Ascii.eqb c "." then Float.digits r ip 0 else (ip, O, s2)
            | EmptyString => (ip, O, s2)
            end) as [[m n2] s3]. cbn [fst snd].
  destruct (Nat.eqb (n1 + n2) 0); [reflexivity|].
  destruct s3 as [|c r]; [reflexivity|]. cbn [upper_all]. rewrite upper_exponent.
  destruct (Ascii.eqb c "e" || Ascii.eqb c "E"); [|reflexivity].
  rewrite upper_all_sign. destruct (Float.sign r) as [eneg r1]. cbn [fst snd].
  rewrite upper_all_digits. destruct (Float.digits r1 0 0) as [[ev n3] r2]. cbn [fst snd].
  rewrite upper_all_is_empty. reflexivity.
Qed.

(** [float] reads [e] and [E] alike, and no other letter. *)
Lemma of_str_upper_all (s : string) : Float.of_str (upper_all s) = Float.of_str s.
Proof.
  unfold Float.of_str. rewrite upper_all_float_strip.
  change Ascii.zero with (Str.upper Ascii.zero) at 1.
  rewrite upper_all_underscores.
  destruct (Float.underscores Ascii.zero (Float.strip s)) as [s0|]; [|reflexivity].
  apply literal_upper_all.
Qed.

Lemma well_formed_values_upper_all (tokens : list string) :
  well_formed_values (map upper_all tokens) = well_formed_values tokens.
Proof.
  unfold well_formed_values. induction tokens as [|t ts IH]; [reflexivity|].
  cbn [map flat_map]. rewrite of_str_upper_all, IH. reflexivity.
Qed.

Lemma operands_upper_all (coords : string) : operands (upper_all coords) = operands coords.
Proof.
  unfold operands, Str.split_ws. rewrite upper_all_replace.
  change EmptyString with (upper_all EmptyString) at 1.
  rewrite upper_all_split_ws_from. apply well_formed_values_upper_all.
Qed.

Lemma cmd_flush_upper (st : Re.cmd_state) :
  Re.cmd_flush (upper_state st) = map upper_match (Re.cmd_flush st).
Proof. destruct st; reflexivity. Qed.

Lemma cmd_scan_upper_all (st : Re.cmd_state) (s : string) :
  Re.cmd_scan (upper_state st) (upper_all s) = map upper_match (Re.cmd_scan st s).
Proof.
  revert st. induction s as [|c r IH]; intros st.
  - apply cmd_flush_upper.
  - cbn [upper_all Re.cmd_scan].
    rewrite upper_is_command.
    assert (Hrestart :
      (if Re.is_command c then Re.Spaces (Str.upper c) else Re.Search)
      = upper_state (if Re.is_command c then Re.Spaces c else Re.Search)).
    { destruct (Re.is_command c); reflexivity. }
    rewrite Hrestart. clear Hrestart.
    destruct st as [|cmd|cmd coords]; cbn [upper_state].
    + apply IH.
    + rewrite upper_is_space, upper_is_coord_char.
      destruct (Str.is_space c); [apply (IH (Re.Spaces cmd))|].
      destruct (Re.is_coord_char c).
      * apply (IH (Re.Coords cmd (String c EmptyString))).
      * rewrite map_app, <- IH. reflexivity.
    + rewrite upper_is_coord_char. destruct (Re.is_coord_char c).
      * rewrite <- (IH (Re.Coords cmd (coords ++ String c EmptyString))).
        cbn [upper_state]. rewrite upper_all_app. reflexivity.
      * rewrite map_app, <- IH. reflexivity.
Qed.

Lemma vp_command_upper (m : ascii * string) : vp_command (upper_match m) = vp_command m.
Proof.
  destruct m as [cmd coords]. unfold upper_match, vp_command. cbn [fst snd].
  rewrite upper_all_is_empty, upper_idem, operands_upper_all. reflexivity.
Qed.

Lemma findall_commands_upper_all (s : string) :
  map vp_command (Re.findall_commands (upper_all s))
  = map vp_command (Re.findall_commands s).
Proof.
  unfold Re.findall_commands. change Re.Search with (upper_state Re.Search) at 1.
  rewrite cmd_scan_upper_all, map_map.
  apply map_ext. exact vp_command_upper.
Qed.

(** C5, as stated, fails: the relative command [l 5 5] issued at the
    current point (10, 10) ends at (15, 15), but both parsers hand
    downstream the raw operands (5, 5) under the letter L, exactly what
    they return for the absolute command [L 5 5]. *)
Lemma C5_relative_not_resolved_counterexample :
  fix_json_alignment.parse_svg_path "M 10 10 l 5 5"%string
    = Ok [("M"%char, [10; 10]); ("L"%char, [5; 5])]
  /\ visualize_points.parse_svg_path "M 10 10 l 5 5"%string
    = Ok [("M"%char, [10; 10]); ("L"%char, [5; 5])]
  /\ fix_json_alignment.parse_svg_path "M 10 10 l 5 5"%string
    <> Ok [("M"%char, [10; 10]); ("L"%char, [10 + 5; 10 + 5])].
Proof. repeat split; try (vm_compute; reflexivity). vm_compute. discriminate. Qed.

(** C5 (amended): for every path string the parsers identify a command
    by its upper-cased letter and do not track its case: a path parses to
    the same commands, with the same operands, as the path with every
    letter upper-cased, so the operands of a lowercase command are handed
    downstream as written, not resolved against the current point. *)
Theorem C5_case_not_tracked (s : string) :
  fix_json_alignment.parse_svg_path (upper_all s) = fix_json_alignment.parse_svg_path s
  /\ visualize_points.parse_svg_path (upper_all s) = visualize_points.parse_svg_path s.
Proof.
  unfold fix_json_alignment.parse_svg_path, visualize_points.parse_svg_path.
  rewrite !fja_parse_matches_spec, !vp_parse_matches_spec.
  cbn [app]. rewrite findall_commands_upper_all. split; reflexivity.
Qed.

(** ** Bounds of an outline *)

Lemma step_trace (w : fix_json_alignment.walk) (c : command) :
  fix_json_alignment.step w c
  = let cur := (fix_json_alignment.current_x w, fix_json_alignment.current_y w) in
    fix_json_alignment.mkWalk
      (fix_json_alignment.all_x w ++ map fst (fst (trace_command cur c)))
      (fix_json_alignment.all_y w ++ map snd (fst (trace_command cur c)))
      (fst (snd (trace_command cur c)))
      (snd (snd (trace_command cur c))).
Proof.
  destruct w as [ax ay cx cy]. destruct c as [cmd coords].
  unfold fix_json_alignment.step, trace_command.
  cbn [fix_json_alignment.all_x fix_json_alignment.all_y
       fix_json_alignment.current_x fix_json_alignment.current_y fst snd].
  destruct (Ascii.eqb_spec cmd "M") as [->|HM];
    [destruct coords as [|a [|b ?]]; cbn; rewrite ?app_nil_r; reflexivity|].
  destruct (Ascii.eqb_spec cmd "L") as [->|HL];
    [destruct coords as [|a [|b ?]]; cbn; rewrite ?app_nil_r; reflexivity|].
  destruct (Ascii.eqb_spec cmd "Q") as [->|HQ];
    [destruct coords as [|a [|b [|c2 [|d ?]]]];
     cbn -[fix_json_alignment.sample_quadratic_bezier]; rewrite ?app_nil_r; reflexivity|].
  destruct (Ascii.eqb_spec cmd "C") as [->|HC];
    [destruct coords as [|a [|b [|c2 [|d [|e [|f ?]]]]]];
     cbn -[fix_json_alignment.sample_cubic_bezier]; rewrite ?app_nil_r; reflexivity|].
  destruct (Ascii.eqb_spec cmd "H") as [->|HH];
    [destruct coords as [|a ?]; cbn; rewrite ?app_nil_r; reflexivity|].
  destruct (Ascii.eqb_spec cmd "V") as [->|HV];
    [destruct coords as [|a ?]; cbn; rewrite ?app_nil_r; reflexivity|].
  destruct coords as [|a [|b [|c2 [|d [|e [|f ?]]]]]]; cbn; rewrite ?app_nil_r; reflexivity.
Qed.

Lemma walk_recorded (cmds : list command) (w : fix_json_alignment.walk) :
  let pts := recorded_points
               (fix_json_alignment.current_x w, fix_json_alignment.current_y w) cmds in
  fix_json_alignment.all_x (fold_left fix_json_alignment.step cmds w)
    = fix_json_alignment.all_x w ++ map fst pts
  /\ fix_json_alignment.all_y (fold_left fix_json_alignment.step cmds w)
    = fix_json_alignment.all_y w ++ map snd pts.
Proof.
  revert w. induction cmds as [|c cmds IH]; intros w; cbn [fold_left recorded_points].
  - cbn. rewrite !app_nil_r. split; reflexivity.
  - rewrite step_trace. cbn zeta.
    destruct (trace_command (fix_json_alignment.current_x w, fix_json_alignment.current_y w) c)
      as [pts [cx' cy']] eqn:E.
    cbn [fst snd].
    specialize (IH (fix_json_alignment.mkWalk
                      (fix_json_alignment.all_x w ++ map fst pts)
                      (fix_json_alignment.all_y w ++ map snd pts) cx' cy')).
    cbn [fix_json_alignment.all_x fix_json_alignment.all_y
         fix_json_alignment.current_x fix_json_alignment.current_y] in IH.
    destruct IH as [IHx IHy]. rewrite IHx, IHy, !map_app, !app_assoc. split; reflexivity.
Qed.

Lemma sample_quadratic_bezier_length (x0 y0 x1 y1 x2 y2 : Q) (n : positive) :
  length (fix_json_alignment.sample_quadratic_bezier x0 y0 x1 y1 x2 y2 n)
  = (Pos.to_nat n + 1)%nat.
Proof.
  unfold fix_json_alignment.sample_quadratic_bezier.
  rewrite length_map, length_seq. reflexivity.
Qed.

Lemma sample_cubic_bezier_length (x0 y0 x1 y1 x2 y2 x3 y3 : Q) (n : positive) :
  length (fix_json_alignment.sample_cubic_bezier x0 y0 x1 y1 x2 y2 x3 y3 n)
  = (Pos.to_nat n + 1)%nat.
Proof.
  unfold fix_json_alignment.sample_cubic_bezier.
  rewrite length_map, length_seq. reflexivity.
Qed.

Lemma length_pos_not_nil {A : Type} (l : list A) (n : nat) :
  length l = (n + 1)%nat -> l = [] -> False.
Proof. intros H ->. cbn in H. lia. Qed.

Ltac trace_cases :=
  cbn -[fix_json_alignment.sample_quadratic_bezier fix_json_alignment.sample_cubic_bezier];
  split; intros H; try congruence;
  exfalso;
  first [ eapply length_pos_not_nil; [apply sample_quadratic_bezier_length | exact H]
        | eapply length_pos_not_nil; [apply sample_cubic_bezier_length | exact H] ].

Lemma trace_command_nil (cur : Q * Q) (c : command) :
  fst (trace_command cur c) = [] <-> contributes c = false.
Proof.
  destruct c as [cmd coords]. unfold trace_command, contributes.
  destruct (Ascii.eqb_spec cmd "M") as [->|HM];
    [destruct coords as [|a [|b ?]]; trace_cases|].
  destruct (Ascii.eqb_spec cmd "L") as [->|HL];
    [destruct coords as [|a [|b ?]]; trace_cases|].
  destruct (Ascii.eqb_spec cmd "Q") as [->|HQ];
    [destruct coords as [|a [|b [|c2 [|d ?]]]]; trace_cases|].
  destruct (Ascii.eqb_spec cmd "C") as [->|HC];
    [destruct coords as [|a [|b [|c2 [|d [|e [|f ?]]]]]]; trace_cases|].
  destruct (Ascii.eqb_spec cmd "H") as [->|HH];
    [destruct coords as [|a ?]; trace_cases|].
  destruct (Ascii.eqb_spec cmd "V") as [->|HV];
    [destruct coords as [|a ?]; trace_cases|].
  destruct coords as [|a [|b [|c2 [|d [|e [|f ?]]]]]]; trace_cases.
Qed.

Lemma recorded_points_nil (cmds : list command) (cur : Q * Q) :
  recorded_points cur cmds = [] <-> existsb contributes cmds = false.
Proof.
  revert cur. induction cmds as [|c cmds IH]; intros cur; cbn [recorded_points existsb].
  - split; reflexivity.
  - pose proof (trace_command_nil cur c) as Hc.
    destruct (trace_command cur c) as [pts cur'] eqn:E. cbn [fst] in Hc.
    rewrite orb_false_iff, <- Hc, <- (IH cur').
    split.
    + intros H. apply app_eq_nil in H. exact H.
    + intros [-> ->]. reflexivity.
Qed.

Lemma fold_min2_spec (l : list Q) (a : Q) :
  let m := fold_left min2 l a in
  (forall x, In x (a :: l) -> m <= x) /\ In m (a :: l).
Proof.
  revert a. induction l as [|b l IH]; intros a; cbn [fold_left].
  - split; [|left; reflexivity]. intros x [<-|[]]. apply Qle_refl.
  - destruct (IH (min2 a b)) as [Hle Hin]. split.
    + intros x Hx.
      assert (Hab : min2 a b <= a /\ min2 a b <= b).
      { rewrite min2_Q. split; [apply Q.le_min_l | apply Q.le_min_r]. }
      destruct Hx as [<-|[<-|Hx]].
      * eapply Qle_trans; [apply Hle; left; reflexivity | apply Hab].
      * eapply Qle_trans; [apply Hle; left; reflexivity | apply Hab].
      * apply Hle. right. exact Hx.
    + destruct Hin as [E|Hin].
      * rewrite <- E. unfold min2. destruct (lt b a); [right; left|left]; reflexivity.
      * right. right. exact Hin.
Qed.

Lemma fold_max2_spec (l : list Q) (a : Q) :
  let m := fold_left max2 l a in
  (forall x, In x (a :: l) -> x <= m) /\ In m (a :: l).
Proof.
  revert a. induction l as [|b l IH]; intros a; cbn [fold_left].
  - split; [|left; reflexivity]. intros x [<-|[]]. apply Qle_refl.
  - destruct (IH (max2 a b)) as [Hle Hin]. split.
    + intros x Hx.
      assert (Hab : a <= max2 a b /\ b <= max2 a b).
      { rewrite max2_Q. split; [apply Q.le_max_l | apply Q.le_max_r]. }
      destruct Hx as [<-|[<-|Hx]].
      * eapply Qle_trans; [apply Hab | apply Hle; left; reflexivity].
      * eapply Qle_trans; [apply Hab | apply Hle; left; reflexivity].
      * apply Hle. right. exact Hx.
    + destruct Hin as [E|Hin].
      * rewrite <- E. unfold max2. destruct (lt a b); [right; left|left]; reflexivity.
      * right. right. exact Hin.
Qed.

Lemma bounding_box_min_max (p : Q * Q) (pts : list (Q * Q)) :
  let xs := map fst pts in
  let ys := map snd pts in
  let min_x := fold_left min2 xs (fst p) in
  let min_y := fold_left min2 ys (snd p) in
  let max_x := fold_left max2 xs (fst p) in
  let max_y := fold_left max2 ys (snd p) in
  bounding_box_of (mkBounds min_x min_y (max_x - min_x) (max_y - min_y)) (p :: pts).
Proof.
  intros xs ys min_x min_y max_x max_y.
  destruct (fold_min2_spec xs (fst p)) as [Hminx Hinminx].
  destruct (fold_min2_spec ys (snd p)) as [Hminy Hinminy].
  destruct (fold_max2_spec xs (fst p)) as [Hmaxx Hinmaxx].
  destruct (fold_max2_spec ys (snd p)) as [Hmaxy Hinmaxy].
  fold min_x in Hminx, Hinminx. fold min_y in Hminy, Hinminy.
  fold max_x in Hmaxx, Hinmaxx. fold max_y in Hmaxy, Hinmaxy.
  change (fst p :: xs) with (map fst (p :: pts)) in *.
  change (snd p :: ys) with (map snd (p :: pts)) in *.
  unfold bounding_box_of. cbn [left top width height].
  split; [|split; [|split; [|split]]].
  - intros q Hq.
    pose proof (Hminx _ (in_map fst _ _ Hq)). pose proof (Hmaxx _ (in_map fst _ _ Hq)).
    pose proof (Hminy _ (in_map snd _ _ Hq)). pose proof (Hmaxy _ (in_map snd _ _ Hq)).
    repeat split; lra.
  - apply in_map_iff in Hinminx as (q & E & Hq). exists q. split; [exact Hq|].
    rewrite E. reflexivity.
  - apply in_map_iff in Hinmaxx as (q & E & Hq). exists q. split; [exact Hq|].
    rewrite E. lra.
  - apply in_map_iff in Hinminy as (q & E & Hq). exists q. split; [exact Hq|].
    rewrite E. reflexivity.
  - apply in_map_iff in Hinmaxy as (q & E & Hq). exists q. split; [exact Hq|].
    rewrite E. lra.
Qed.

(** The curve samples run from the pre-command current point to the
    endpoint of the command. *)
Lemma sample_quadratic_bezier_ends (x0 y0 x1 y1 x2 y2 : Q) :
  let pts := fix_json_alignment.sample_quadratic_bezier x0 y0 x1 y1 x2 y2 20 in
  length pts = 21%nat
  /\ fst (nth 0 pts (0, 0)) == x0 /\ snd (nth 0 pts (0, 0)) == y0
  /\ fst (nth 20 pts (0, 0)) == x2 /\ snd (nth 20 pts (0, 0)) == y2.
Proof.
  cbn zeta. split; [apply sample_quadratic_bezier_length|].
  unfold fix_json_alignment.sample_quadratic_bezier.
  change (seq 0 (Pos.to_nat 20 + 1)) with (seq 0 21). cbn [seq map nth fst snd].
  change (inject_Z (Z.of_nat 0) / inject_Z 20) with (0 / 20).
  change (inject_Z (Z.of_nat 20) / inject_Z 20) with (20 / 20).
  repeat split; field.
Qed.

Lemma sample_cubic_bezier_ends (x0 y0 x1 y1 x2 y2 x3 y3 : Q) :
  let pts := fix_json_alignment.sample_cubic_bezier x0 y0 x1 y1 x2 y2 x3 y3 20 in
  length pts = 21%nat
  /\ fst (nth 0 pts (0, 0)) == x0 /\ snd (nth 0 pts (0, 0)) == y0
  /\ fst (nth 20 pts (0, 0)) == x3 /\ snd (nth 20 pts (0, 0)) == y3.
Proof.
  cbn zeta. split; [apply sample_cubic_bezier_length|].
  unfold fix_json_alignment.sample_cubic_bezier.
  change (seq 0 (Pos.to_nat 20 + 1)) with (seq 0 21). cbn [seq map nth fst snd].
  change (inject_Z (Z.of_nat 0) / inject_Z 20) with (0 / 20).
  change (inject_Z (Z.of_nat 20) / inject_Z 20) with (20 / 20).
  repeat split; field.
Qed.

(** C8, as stated, fails: an outline whose only command carries
    coordinates, but is a smooth curve or has too few operands, has no
    bounds. *)
Lemma C8_none_with_coordinates_counterexample :
  fix_json_alignment.parse_svg_path "S 1 2 3 4"%string = Ok [("S"%char, [1; 2; 3; 4])]
  /\ fix_json_alignment.get_svg_bounds "S 1 2 3 4"%string = Ok None
  /\ fix_json_alignment.parse_svg_path "M 5"%string = Ok [("M"%char, [5])]
  /\ fix_json_alignment.get_svg_bounds "M 5"%string = Ok None.
Proof. repeat split; vm_compute; reflexivity. Qed.

Lemma box_of_extremes_min_max (p : Q * Q) (pts : list (Q * Q)) :
  let xs := map fst pts in
  let ys := map snd pts in
  let min_x := fold_left min2 xs (fst p) in
  let min_y := fold_left min2 ys (snd p) in
  let max_x := fold_left max2 xs (fst p) in
  let max_y := fold_left max2 ys (snd p) in
  box_of_extremes (mkBounds min_x min_y (max_x - min_x) (max_y - min_y)) (p :: pts).
Proof.
  intros xs ys min_x min_y max_x max_y.
  destruct (fold_min2_spec xs (fst p)) as [Hminx Hinminx].
  destruct (fold_min2_spec ys (snd p)) as [Hminy Hinminy].
  destruct (fold_max2_spec xs (fst p)) as [Hmaxx Hinmaxx].
  destruct (fold_max2_spec ys (snd p)) as [Hmaxy Hinmaxy].
  exists max_x, max_y. cbn [left top width height map]. unfold least, greatest.
  split; [split; [exists min_x; split; [exact Hinminx | reflexivity] | exact Hminx]|].
  split; [split; [exists max_x; split; [exact Hinmaxx | reflexivity] | exact Hmaxx]|].
  split; [split; [exists min_y; split; [exact Hinminy | reflexivity] | exact Hminy]|].
  split; [split; [exists max_y; split; [exact Hinmaxy | reflexivity] | exact Hmaxy]|].
  split; reflexivity.
Qed.

(** The expressions of the two samplers are the Bernstein form of the
    quadratic and of the cubic curve. *)
Lemma bezier_quadratic (a b c t : Q) :
  (1-t)^2 * a + 2*(1-t)*t * b + t^2 * c == bezier [a; b; c] t.
Proof.
  unfold bezier, bernstein.
  cbn [length Nat.sub seq combine map fold_right fst snd binomial Z.add Pos.add Pos.succ].
  change (Z.of_nat 0) with 0%Z. change (Z.of_nat 1) with 1%Z. change (Z.of_nat 2) with 2%Z.
  change (inject_Z 1) with 1. change (inject_Z 2) with 2.
  ring.
Qed.

Lemma bezier_cubic (a b c d t : Q) :
  (1-t)^3 * a + 3*(1-t)^2*t * b + 3*(1-t)*t^2 * c + t^3 * d == bezier [a; b; c; d] t.
Proof.
  unfold bezier, bernstein.
  cbn [length Nat.sub seq combine map fold_right fst snd binomial Z.add Pos.add Pos.succ].
  change (Z.of_nat 0) with 0%Z. change (Z.of_nat 1) with 1%Z. change (Z.of_nat 2) with 2%Z.
  change (Z.of_nat 3) with 3%Z.
  change (inject_Z 1) with 1. change (inject_Z 3) with 3.
  ring.
Qed.

(** Sample [i] of [n + 1] is the point of the curve at the parameter
    [i / n]. *)
Lemma sample_quadratic_bezier_nth (x0 y0 x1 y1 x2 y2 : Q) (n : positive) (i : nat) :
  (i <= Pos.to_nat n)%nat ->
  let t := inject_Z (Z.of_nat i) / inject_Z (Zpos n) in
  let p := nth i (fix_json_alignment.sample_quadratic_bezier x0 y0 x1 y1 x2 y2 n) (0, 0) in
  fst p == bezier [x0; x1; x2] t /\ snd p == bezier [y0; y1; y2] t.
Proof.
  intros Hi t p. unfold p, fix_json_alignment.sample_quadratic_bezier.
  set (f := fun i0 : nat => _).
  rewrite (nth_indep _ (0, 0) (f 0%nat)) by (rewrite length_map, length_seq; lia).
  rewrite map_nth, seq_nth by lia. cbn [Nat.add]. unfold f. cbn [fst snd]. fold t.
  split; apply bezier_quadratic.
Qed.

Lemma sample_cubic_bezier_nth (x0 y0 x1 y1 x2 y2 x3 y3 : Q) (n : positive) (i : nat) :
  (i <= Pos.to_nat n)%nat ->
  let t := inject_Z (Z.of_nat i) / inject_Z (Zpos n) in
  let p := nth i (fix_json_alignment.sample_cubic_bezier x0 y0 x1 y1 x2 y2 x3 y3 n) (0, 0) in
  fst p == bezier [x0; x1; x2; x3] t /\ snd p == bezier [y0; y1; y2; y3] t.
Proof.
  intros Hi t p. unfold p, fix_json_alignment.sample_cubic_bezier.
  set (f := fun i0 : nat => _).
  rewrite (nth_indep _ (0, 0) (f 0%nat)) by (rewrite length_map, length_seq; lia).
  rewrite map_nth, seq_nth by lia. cbn [Nat.add]. unfold f. cbn [fst snd]. fold t.
  split; apply bezier_cubic.
Qed.

(** C8 (amended): [get_svg_bounds] returns None exactly when no parsed
    command is an M or L with at least two operands, a Q with at least
    four, a C with at least six, or an H or V with at least one (S, T and
    A commands and commands with fewer operands record nothing).
    Otherwise it returns the box of the recorded points: [left] and
    [top] are their least X and Y, [width] and [height] the differences
    between the greatest and the least.  The current point starts at
    (0, 0); M, L, H and V record the new current point; Q and C record
    all 21 sampled curve points, not just the endpoint: the curve is
    sampled from the pre-command current point through the control
    points to the endpoint, sample [i] being the point at the parameter
    [i / 20] of the Bezier curve over these points (Bernstein form, as
    in exact arithmetic), so that the first sample is the current point
    and the last one the endpoint. *)
Theorem C8_bounds (s : string) :
  exists cmds,
    fix_json_alignment.parse_svg_path s = Ok cmds
    /\ (fix_json_alignment.get_svg_bounds s = Ok None <-> existsb contributes cmds = false)
    /\ (existsb contributes cmds = true ->
        exists b, fix_json_alignment.get_svg_bounds s = Ok (Some b)
                  /\ box_of_extremes b (recorded_points (0, 0) cmds))
    /\ (forall x0 y0 x1 y1 x2 y2 rest,
           let pts := fix_json_alignment.sample_quadratic_bezier x0 y0 x1 y1 x2 y2 20 in
           trace_command (x0, y0) ("Q"%char, x1 :: y1 :: x2 :: y2 :: rest) = (pts, (x2, y2))
           /\ length pts = 21%nat
           /\ (forall i, (i <= 20)%nat ->
                  let t := inject_Z (Z.of_nat i) / 20 in
                  fst (nth i pts (0, 0)) == bezier [x0; x1; x2] t
                  /\ snd (nth i pts (0, 0)) == bezier [y0; y1; y2] t)
           /\ fst (nth 0 pts (0, 0)) == x0 /\ snd (nth 0 pts (0, 0)) == y0
           /\ fst (nth 20 pts (0, 0)) == x2 /\ snd (nth 20 pts (0, 0)) == y2)
    /\ (forall x0 y0 x1 y1 x2 y2 x3 y3 rest,
           let pts := fix_json_alignment.sample_cubic_bezier x0 y0 x1 y1 x2 y2 x3 y3 20 in
           trace_command (x0, y0) ("C"%char, x1 :: y1 :: x2 :: y2 :: x3 :: y3 :: rest)
           = (pts, (x3, y3))
           /\ length pts = 21%nat
           /\ (forall i, (i <= 20)%nat ->
                  let t := inject_Z (Z.of_nat i) / 20 in
                  fst (nth i pts (0, 0)) == bezier [x0; x1; x2; x3] t
                  /\ snd (nth i pts (0, 0)) == bezier [y0; y1; y2; y3] t)
           /\ fst (nth 0 pts (0, 0)) == x0 /\ snd (nth 0 pts (0, 0)) == y0
           /\ fst (nth 20 pts (0, 0)) == x3 /\ snd (nth 20 pts (0, 0)) == y3).
Proof.
  pose proof (fja_parse_matches_spec (Re.findall_commands s) []) as Hp.
  cbn [app] in Hp.
  exists (filter kept (map vp_command (Re.findall_commands s))).
  set (cmds := filter kept (map vp_command (Re.findall_commands s))) in *.
  split; [exact Hp|].
  assert (Hb : fix_json_alignment.get_svg_bounds s
               = match recorded_points (0, 0) cmds with
                 | [] => Ok None
                 | p :: pts =>
                     let xs := map fst pts in
                     let ys := map snd pts in
                     let min_x := fold_left min2 xs (fst p) in
                     let min_y := fold_left min2 ys (snd p) in
                     let max_x := fold_left max2 xs (fst p) in
                     let max_y := fold_left max2 ys (snd p) in
                     Ok (Some (mkBounds min_x min_y (max_x - min_x) (max_y - min_y)))
                 end).
  { unfold fix_json_alignment.get_svg_bounds, fix_json_alignment.parse_svg_path.
    rewrite Hp. cbn [bind].
    destruct (walk_recorded cmds (fix_json_alignment.mkWalk [] [] (lit 0) (lit 0)))
      as [Hx Hy].
    cbn [fix_json_alignment.all_x fix_json_alignment.all_y
         fix_json_alignment.current_x fix_json_alignment.current_y app] in Hx, Hy.
    rewrite Hx, Hy.
    change (lit 0, lit 0) with (0, 0).
    destruct (recorded_points (0, 0) cmds) as [|p pts]; reflexivity. }
  split; [|split; [|split]].
  - rewrite Hb, <- (recorded_points_nil cmds (0, 0)).
    destruct (recorded_points (0, 0) cmds) as [|p pts]; split; intros H; congruence.
  - intros Hc. rewrite Hb.
    destruct (recorded_points (0, 0) cmds) as [|p pts] eqn:E.
    + apply recorded_points_nil in E. congruence.
    + eexists. split; [reflexivity|]. apply box_of_extremes_min_max.
  - intros x0 y0 x1 y1 x2 y2 rest pts. split; [reflexivity|].
    destruct (sample_quadratic_bezier_ends x0 y0 x1 y1 x2 y2) as (Hl & He).
    split; [exact Hl|]. split; [|exact He].
    intros i Hi. apply (sample_quadratic_bezier_nth x0 y0 x1 y1 x2 y2 20 i).
    change (Pos.to_nat 20) with 20%nat. exact Hi.
  - intros x0 y0 x1 y1 x2 y2 x3 y3 rest pts. split; [reflexivity|].
    destruct (sample_cubic_bezier_ends x0 y0 x1 y1 x2 y2 x3 y3) as (Hl & He).
    split; [exact Hl|]. split; [|exact He].
    intros i Hi. apply (sample_cubic_bezier_nth x0 y0 x1 y1 x2 y2 x3 y3 20 i).
    change (Pos.to_nat 20) with 20%nat. exact Hi.
Qed.

Lemma C8_bounds_witness :
  exists b,
    fix_json_alignment.get_svg_bounds "M 0 0 Q 50 100 100 0"%string = Ok (Some b)
    /\ box_of_extremes b
         (recorded_points (0, 0) [("M"%char, [0; 0]); ("Q"%char, [50; 100; 100; 0])])
    /\ height b == 50
    /\ snd (nth 10 (fix_json_alignment.sample_quadratic_bezier 0 0 50 100 100 0 20) (0, 0))
       == bezier [0; 100; 0] (10 # 20).
Proof.
  destruct (C8_bounds "M 0 0 Q 50 100 100 0"%string) as (cmds & Hp & _ & Hsome & Hq & _).
  vm_compute in Hp. injection Hp as <-.
  destruct (Hsome eq_refl) as (b & Hb & Hbox).
  exists b. split; [exact Hb|]. split; [exact Hbox|]. split.
  - vm_compute in Hb. injection Hb as <-. reflexivity.
  - destruct (Hq 0 0 50 100 100 0 []) as (_ & _ & Hs & _).
    destruct (Hs 10%nat ltac:(lia)) as [_ Hy]. exact Hy.
Defined.

(** ** The vertical flip *)

Lemma transform_nums_H (em : Q) (nums : list Q) :
  extract_telugu.transform_nums em "H" nums = nums.
Proof. cbn. apply map_id. Qed.

Lemma flip_arcs_whole (em rx ry x_rot large_arc sweep x y : Q) :
  extract_telugu.transform_nums em "A" [rx; ry; x_rot; large_arc; sweep; x; y]
  = [rx; ry; x_rot; large_arc; 1 - sweep; x; em - y].
Proof. reflexivity. Qed.

(** On whole pairs, the M and L loop flips every Y and keeps every X. *)
Lemma flip_pairs_whole (em : Q) (pairs : list (Q * Q)) :
  extract_telugu.flip_pairs em (flat_map (fun p => [fst p; snd p]) pairs)
  = flat_map (fun p => [fst p; em - snd p]) pairs.
Proof.
  induction pairs as [|[x y] pairs IH]; [reflexivity|].
  cbn [flat_map fst snd app extract_telugu.flip_pairs]. rewrite IH. reflexivity.
Qed.

(** Smooth-curve commands at their arity in the path grammar (four
    numbers for S, two for T) fall below the group size the loop uses
    for them (six and four) and are copied without a flip. *)
Lemma transform_nums_S_T_unflipped (em x2 y2 x y : Q) :
  extract_telugu.transform_nums em "S" [x2; y2; x; y] = [x2; y2; x; y]
  /\ extract_telugu.transform_nums em "T" [x; y] = [x; y].
Proof. split; reflexivity. Qed.

(** C9: the scenario of the claim holds, and so do the H and arc rules,
    but not every coordinate pair is flipped: with axis size 100 the
    pair (10, 20) of [T 10 20] and the pairs (1, 2), (3, 4) of
    [S 1 2 3 4] come out unchanged, where the claim requires (10, 80),
    (1, 98) and (3, 96). *)
Theorem C9_flip_misses_smooth_curves :
  extract_telugu.transform_path 100 "M 0 0 L 100 0 L 100 100 Z"%string
    = Ok "M 0 100 L 100 100 L 100 0 Z"%string
  /\ extract_telugu.transform_path 100 "M 0 0 H 30 A 5 6 0 1 1 10 20"%string
    = Ok "M 0 100 H 30 A 5 6 0 1 0 10 80"%string
  /\ extract_telugu.transform_path 100 "M 0 0 T 10 20"%string
    = Ok "M 0 100 T 10 20"%string
  /\ extract_telugu.transform_path 100 "M 0 0 S 1 2 3 4"%string
    = Ok "M 0 100 S 1 2 3 4"%string.
Proof. repeat split; vm_compute; reflexivity. Qed.

(** ** The two bounds computations *)

(** C10: the two bounds computations disagree.  On the outline
    [M 0 0 Q 50 100 100 0] the number-pairing scan of
    fix_dotted_path_alignment.py takes the control point (50, 100) for a
    point of the outline and returns height 100; the curve-sampling
    [get_svg_bounds] returns height 50.  On [H 5] the scan finds no Y
    value and raises [ValueError], while [get_svg_bounds] returns the
    box of the single point (5, 0). *)
Theorem C10_bounds_computations_disagree :
  fix_dotted_path_alignment.parse_svg_path "M 0 0 Q 50 100 100 0"%string
    = Ok (mkBounds 0 0 100 100)
  /\ (exists b,
         fix_json_alignment.get_svg_bounds "M 0 0 Q 50 100 100 0"%string = Ok (Some b)
         /\ left b == 0 /\ top b == 0 /\ width b == 100 /\ height b == 50)
  /\ fix_dotted_path_alignment.parse_svg_path "H 5"%string = Raise ValueError
  /\ fix_json_alignment.get_svg_bounds "H 5"%string = Ok (Some (mkBounds 5 0 (5 - 5) (0 - 0))).
Proof.
  split; [vm_compute; reflexivity|]. split; [|split; vm_compute; reflexivity].
  eexists. split; [vm_compute; reflexivity|].
  cbn [left top width height]. repeat split; reflexivity.
Qed.


(** * Further properties of the code *)

(** ** Geometry of the fit *)

Lemma fit_scale_facts (w h v : Q) :
  0 < w -> 0 < h -> 0 < v ->
  let s := min2 (v / w) (v / h) in
  0 < s /\ w * s <= v /\ h * s <= v /\ (w * s == v \/ h * s == v).
Proof.
  intros Hw Hh Hv s.
  assert (Hvw : (v / w) * w == v) by (field; lra).
  assert (Hvh : (v / h) * h == v) by (field; lra).
  assert (Pw : 0 < v / w) by (apply Qlt_shift_div_l; lra).
  assert (Ph : 0 < v / h) by (apply Qlt_shift_div_l; lra).
  assert (Hcase : (s = v / h /\ v / h <= v / w) \/ (s = v / w /\ v / w <= v / h)).
  { unfold s, min2. cbn [lt Q_number]. destruct (Qltb (v / h) (v / w)) eqn:E.
    - left. split; [reflexivity|]. apply Qltb_lt in E. lra.
    - right. split; [reflexivity|]. apply Qltb_ge in E. exact E. }
  destruct Hcase as [[-> Hle]|[-> Hle]].
  - assert (Hm : (v / h) * w <= (v / w) * w) by (apply Qmult_le_compat_r; lra).
    repeat split; lra.
  - assert (Hm : (v / w) * h <= (v / h) * h) by (apply Qmult_le_compat_r; lra).
    repeat split; lra.
Qed.

(** X1: for a box of positive width and height and a positive target
    size, the fit has a positive scale, the scaled box is no larger than
    the target square and spans it along one axis, and the images of the
    two corners of the box lie in the square, at equal distances from
    its opposite sides. *)
Theorem fit_centres_box_in_square (b : Bounds Q) (v : Q) :
  0 < width b -> 0 < height b -> 0 < v ->
  exists t,
    fix_json_alignment.calculate_flutter_transform b v = Ok t
    /\ 0 < scale t
    /\ width b * scale t <= v /\ height b * scale t <= v
    /\ (width b * scale t == v \/ height b * scale t == v)
    /\ (let p0 := visualize_points.transform_point_to_flutter_space (left b) (top b) t in
        let p1 := visualize_points.transform_point_to_flutter_space
                    (left b + width b) (top b + height b) t in
        0 <= fst p0 /\ fst p1 <= v /\ fst p0 + fst p1 == v
        /\ 0 <= snd p0 /\ snd p1 <= v /\ snd p0 + snd p1 == v).
Proof.
  intros Hw Hh Hv.
  destruct (fit_scale_facts (width b) (height b) v Hw Hh Hv) as (Hs & Hws & Hhs & Hor).
  eexists. split.
  { apply calculate_flutter_transform_Q_ok; lra. }
  cbn zeta. cbn [scale translate_x translate_y].
  set (s := min2 (v / width b) (v / height b)) in *. clearbody s.
  split; [exact Hs|]. split; [exact Hws|]. split; [exact Hhs|]. split; [exact Hor|].
  unfold visualize_points.transform_point_to_flutter_space.
  cbn [fst snd scale translate_x translate_y add mul Q_number].
  destruct b as [l t w h]. cbn [left top width height] in *.
  assert (Ex : 2 * ((v - w * s) / 2) == v - w * s) by field.
  assert (Ey : 2 * ((v - h * s) / 2) == v - h * s) by field.
  set (hx := (v - w * s) / 2) in *. set (hy := (v - h * s) / 2) in *.
  clearbody hx hy. clear Hor.
  repeat split; nra.
Qed.

Lemma fit_centres_box_in_square_witness :
  exists t,
    fix_json_alignment.calculate_flutter_transform (mkBounds 10 20 40 80) 200 = Ok t
    /\ 0 < scale t
    /\ 40 * scale t <= 200 /\ 80 * scale t <= 200
    /\ (40 * scale t == 200 \/ 80 * scale t == 200)
    /\ (let p0 := visualize_points.transform_point_to_flutter_space 10 20 t in
        let p1 := visualize_points.transform_point_to_flutter_space (10 + 40) (20 + 80) t in
        0 <= fst p0 /\ fst p1 <= 200 /\ fst p0 + fst p1 == 200
        /\ 0 <= snd p0 /\ snd p1 <= 200 /\ snd p0 + snd p1 == 200).
Proof.
  apply (fit_centres_box_in_square (mkBounds 10 20 40 80) 200); reflexivity.
Defined.

(** ** Normalizing and projecting back *)

Lemma normalize_then_reverse_unclamped (x y v : Q) (t : Transform Q) :
  ~ v == 0 -> ~ scale t == 0 ->
  0 <= (x * scale t + translate_x t) / v -> (x * scale t + translate_x t) / v <= 1 ->
  0 <= (y * scale t + translate_y t) / v -> (y * scale t + translate_y t) / v <= 1 ->
  exists nx ny x' y',
    fix_json_alignment.svg_to_flutter_normalized x y t v = Ok (nx, ny)
    /\ nx == (x * scale t + translate_x t) / v
    /\ ny == (y * scale t + translate_y t) / v
    /\ fix_dotted_path_alignment.reverse_transform_point nx ny t v = Ok (x', y')
    /\ x' == x /\ y' == y.
Proof.
  intros Hv Hs Hx0 Hx1 Hy0 Hy1.
  unfold fix_json_alignment.svg_to_flutter_normalized,
    fix_dotted_path_alignment.reverse_transform_point.
  rewrite !truediv_Q_ok by exact Hv. cbn [bind].
  cbn [add mul sub Q_number].
  destruct (clamp_Q ((x * scale t + translate_x t) / v)) as (_ & _ & Hcx & _).
  destruct (clamp_Q ((y * scale t + translate_y t) / v)) as (_ & _ & Hcy & _).
  cbn zeta in Hcx, Hcy. specialize (Hcx Hx0 Hx1). specialize (Hcy Hy0 Hy1).
  set (nx := max2 (lit 0) (min2 (lit 1) ((x * scale t + translate_x t) / v))) in *.
  set (ny := max2 (lit 0) (min2 (lit 1) ((y * scale t + translate_y t) / v))) in *.
  exists nx, ny.
  rewrite !truediv_Q_ok by exact Hs. cbn [bind].
  eexists; eexists. split; [reflexivity|]. split; [exact Hcx|]. split; [exact Hcy|].
  split; [reflexivity|].
  split.
  - rewrite Hcx. field. split; assumption.
  - rewrite Hcy. field. split; assumption.
Qed.

(** X2: when the display size and the scale are not zero and the
    unclamped normalized image of a point lies in [0, 1] on both axes,
    [svg_to_flutter_normalized] returns that image and
    [reverse_transform_point] sends it back to the point. *)
Theorem normalize_then_reverse (x y v : Q) (t : Transform Q) :
  ~ v == 0 -> ~ scale t == 0 ->
  0 <= (x * scale t + translate_x t) / v -> (x * scale t + translate_x t) / v <= 1 ->
  0 <= (y * scale t + translate_y t) / v -> (y * scale t + translate_y t) / v <= 1 ->
  exists nx ny x' y',
    fix_json_alignment.svg_to_flutter_normalized x y t v = Ok (nx, ny)
    /\ nx == (x * scale t + translate_x t) / v
    /\ ny == (y * scale t + translate_y t) / v
    /\ fix_dotted_path_alignment.reverse_transform_point nx ny t v = Ok (x', y')
    /\ x' == x /\ y' == y.
Proof. exact (normalize_then_reverse_unclamped x y v t). Qed.

Lemma normalize_then_reverse_witness :
  exists nx ny x' y',
    fix_json_alignment.svg_to_flutter_normalized 50 100 (mkTransform (3 # 2) 75 0) 300
      = Ok (nx, ny)
    /\ nx == (50 * (3 # 2) + 75) / 300
    /\ ny == (100 * (3 # 2) + 0) / 300
    /\ fix_dotted_path_alignment.reverse_transform_point nx ny (mkTransform (3 # 2) 75 0) 300
       = Ok (x', y')
    /\ x' == 50 /\ y' == 100.
Proof.
  apply (normalize_then_reverse 50 100 300 (mkTransform (3 # 2) 75 0));
    cbn; intros E; discriminate E.
Defined.

(** X3: in exact (rational) arithmetic, under the fit computed from a
    box of positive width and height for a positive display size, no
    point of the box is clamped: [svg_to_flutter_normalized] sends it
    into [0, 1] x [0, 1] and [reverse_transform_point] sends the result
    back to the point.  In binary64 this fails: for the box with left 0,
    top 1, width 1 and height 6 and the display size 10, the unclamped
    image of the corner (1, 7) exceeds 1, the corner is clamped, and
    the point that comes back has a Y smaller than 7. *)
Theorem box_points_survive_normalization :
  (forall (b : Bounds Q) (v x y : Q),
      0 < width b -> 0 < height b -> 0 < v ->
      left b <= x -> x <= left b + width b ->
      top b <= y -> y <= top b + height b ->
      exists t nx ny x' y',
        fix_json_alignment.calculate_flutter_transform b v = Ok t
        /\ fix_json_alignment.svg_to_flutter_normalized x y t v = Ok (nx, ny)
        /\ 0 <= nx /\ nx <= 1 /\ 0 <= ny /\ ny <= 1
        /\ fix_dotted_path_alignment.reverse_transform_point nx ny t v = Ok (x', y')
        /\ x' == x /\ y' == y)
  /\ (exists t nx ny x' y',
         fix_json_alignment.calculate_flutter_transform (mkBounds 0 1 1 6)%float 10%float
         = Ok t
         /\ PrimFloat.ltb 1 (PrimFloat.div (PrimFloat.add (PrimFloat.mul 7 (scale t))
                                                         (translate_y t)) 10) = true
         /\ fix_json_alignment.svg_to_flutter_normalized 1%float 7%float t 10%float
            = Ok (nx, ny)
         /\ PrimFloat.eqb ny 1 = true
         /\ fix_dotted_path_alignment.reverse_transform_point nx ny t 10%float = Ok (x', y')
         /\ PrimFloat.ltb y' 7 = true).
Proof.
  split; [|do 5 eexists; repeat split; vm_compute; reflexivity].
  intros b v x y Hw Hh Hv Hx0 Hx1 Hy0 Hy1.
  destruct (fit_scale_facts (width b) (height b) v Hw Hh Hv) as (Hs & Hws & Hhs & _).
  pose proof (calculate_flutter_transform_Q_ok b v) as Ht.
  cbn zeta in Ht.
  set (s := min2 (v / width b) (v / height b)) in *. clearbody s.
  set (t := mkTransform s ((v - width b * s) / 2 - left b * s)
                          ((v - height b * s) / 2 - top b * s)) in *.
  destruct b as [l tp w h]. cbn [left top width height] in *.
  assert (Ex : 2 * ((v - w * s) / 2) == v - w * s) by field.
  assert (Ey : 2 * ((v - h * s) / 2) == v - h * s) by field.
  assert (Bx : 0 <= x * scale t + translate_x t /\ x * scale t + translate_x t <= v).
  { unfold t. cbn [scale translate_x].
    set (hx := (v - w * s) / 2) in *. clearbody hx. split; nra. }
  assert (By : 0 <= y * scale t + translate_y t /\ y * scale t + translate_y t <= v).
  { unfold t. cbn [scale translate_y].
    set (hy := (v - h * s) / 2) in *. clearbody hy. split; nra. }
  assert (Ux : 0 <= (x * scale t + translate_x t) / v
               /\ (x * scale t + translate_x t) / v <= 1).
  { split; [apply Qle_shift_div_l | apply Qle_shift_div_r]; lra. }
  assert (Uy : 0 <= (y * scale t + translate_y t) / v
               /\ (y * scale t + translate_y t) / v <= 1).
  { split; [apply Qle_shift_div_l | apply Qle_shift_div_r]; lra. }
  destruct (normalize_then_reverse_unclamped x y v t)
    as (nx & ny & x' & y' & E1 & Hnx & Hny & E2 & Hx' & Hy');
    try (unfold t; cbn [scale]; lra); try tauto.
  exists t, nx, ny, x', y'.
  split; [apply Ht; lra|]. split; [exact E1|].
  split; [rewrite Hnx; tauto|]. split; [rewrite Hnx; tauto|].
  split; [rewrite Hny; tauto|]. split; [rewrite Hny; tauto|].
  split; [exact E2|]. split; assumption.
Qed.

Lemma box_points_survive_normalization_witness :
  exists t nx ny x' y',
    fix_json_alignment.calculate_flutter_transform (mkBounds 10 20 40 80) 200 = Ok t
    /\ fix_json_alignment.svg_to_flutter_normalized 50 20 t 200 = Ok (nx, ny)
    /\ 0 <= nx /\ nx <= 1 /\ 0 <= ny /\ ny <= 1
    /\ fix_dotted_path_alignment.reverse_transform_point nx ny t 200 = Ok (x', y')
    /\ x' == 50 /\ y' == 20.
Proof.
  apply (proj1 box_points_survive_normalization (mkBounds 10 20 40 80) 200 50 20);
    cbn; try reflexivity; intros E; discriminate E.
Defined.

(** ** Outlines written one after the other *)

Lemma command_not_blank (c : ascii) :
  Re.is_command c = true -> Str.is_space c = false /\ Re.is_coord_char c = false.
Proof.
  destruct c as [[] [] [] [] [] [] [] []]; intros H; try discriminate H; split; reflexivity.
Qed.

Lemma cmd_scan_app_command (s : string) (st : Re.cmd_state) (c : ascii) (r : string) :
  Re.is_command c = true ->
  Re.cmd_scan st (s ++ String c r) = Re.cmd_scan st s ++ Re.cmd_scan Re.Search (String c r).
Proof.
  intros Hc. destruct (command_not_blank c Hc) as [Hsp Hco].
  revert st. induction s as [|a s IH]; intros st.
  - cbn [append Re.cmd_scan]. rewrite Hc, Hsp, Hco.
    destruct st; reflexivity.
  - cbn [append Re.cmd_scan].
    destruct st as [|cmd|cmd coords].
    + apply IH.
    + destruct (Str.is_space a); [apply IH|].
      destruct (Re.is_coord_char a); [apply IH|].
      rewrite IH, app_assoc. reflexivity.
    + destruct (Re.is_coord_char a); [apply IH|].
      rewrite IH, app_assoc. reflexivity.
Qed.

(** X4: a path string followed by a string that begins with a command
    letter parses, in both parsers, to the commands of the first followed
    by the commands of the second. *)
Theorem parse_svg_path_app (s t : string) :
  starts_with_command t = true ->
  exists cs ct,
    fix_json_alignment.parse_svg_path s = Ok cs
    /\ fix_json_alignment.parse_svg_path t = Ok ct
    /\ fix_json_alignment.parse_svg_path (s ++ t) = Ok (cs ++ ct)
    /\ exists vs vt,
        visualize_points.parse_svg_path s = Ok vs
        /\ visualize_points.parse_svg_path t = Ok vt
        /\ visualize_points.parse_svg_path (s ++ t) = Ok (vs ++ vt).
Proof.
  intros Ht. destruct t as [|c r]; [discriminate Ht|]. cbn in Ht.
  unfold fix_json_alignment.parse_svg_path, visualize_points.parse_svg_path.
  rewrite !fja_parse_matches_spec, !vp_parse_matches_spec. cbn [app].
  unfold Re.findall_commands. rewrite (cmd_scan_app_command s Re.Search c r Ht).
  rewrite map_app, filter_app.
  eexists; eexists. split; [reflexivity|]. split; [reflexivity|]. split; [reflexivity|].
  eexists; eexists. split; [reflexivity|]. split; reflexivity.
Qed.

Lemma parse_svg_path_app_witness :
  exists cs ct,
    fix_json_alignment.parse_svg_path "M 1 2 L 3"%string = Ok cs
    /\ fix_json_alignment.parse_svg_path "l 5 6 Z"%string = Ok ct
    /\ fix_json_alignment.parse_svg_path ("M 1 2 L 3" ++ "l 5 6 Z")%string = Ok (cs ++ ct)
    /\ exists vs vt,
        visualize_points.parse_svg_path "M 1 2 L 3"%string = Ok vs
        /\ visualize_points.parse_svg_path "l 5 6 Z"%string = Ok vt
        /\ visualize_points.parse_svg_path ("M 1 2 L 3" ++ "l 5 6 Z")%string = Ok (vs ++ vt).
Proof.
  apply (parse_svg_path_app "M 1 2 L 3"%string "l 5 6 Z"%string). reflexivity.
Defined.

Lemma recorded_points_app (c1 c2 : list command) (cur : Q * Q) :
  recorded_points cur (c1 ++ c2)
  = recorded_points cur c1 ++ recorded_points (final_point cur c1) c2.
Proof.
  revert cur. induction c1 as [|c c1 IH]; intros cur; [reflexivity|].
  cbn [app recorded_points final_point fold_left].
  destruct (trace_command cur c) as [pts cur'] eqn:E. cbn [snd].
  fold (final_point cur' c1). rewrite IH, app_assoc. reflexivity.
Qed.

(** [get_svg_bounds] in terms of the recorded points. *)
Lemma get_svg_bounds_recorded (s : string) :
  fix_json_alignment.get_svg_bounds s
  = match recorded_points (0, 0)
            (filter kept (map vp_command (Re.findall_commands s))) with
    | [] => Ok None
    | p :: pts =>
        Ok (Some (mkBounds (fold_left min2 (map fst pts) (fst p))
                           (fold_left min2 (map snd pts) (snd p))
                           (fold_left max2 (map fst pts) (fst p)
                            - fold_left min2 (map fst pts) (fst p))
                           (fold_left max2 (map snd pts) (snd p)
                            - fold_left min2 (map snd pts) (snd p))))
    end.
Proof.
  unfold fix_json_alignment.get_svg_bounds, fix_json_alignment.parse_svg_path.
  rewrite fja_parse_matches_spec. cbn [app bind].
  set (cmds := filter kept (map vp_command (Re.findall_commands s))).
  destruct (walk_recorded cmds (fix_json_alignment.mkWalk [] [] (lit 0) (lit 0)))
    as [Hx Hy].
  cbn [fix_json_alignment.all_x fix_json_alignment.all_y
       fix_json_alignment.current_x fix_json_alignment.current_y app] in Hx, Hy.
  rewrite Hx, Hy. change (lit 0, lit 0) with (0, 0).
  destruct (recorded_points (0, 0) cmds) as [|p pts]; reflexivity.
Qed.

Lemma bounding_box_grows (b b' : Bounds Q) (pts more : list (Q * Q)) :
  bounding_box_of b pts -> bounding_box_of b' (pts ++ more) -> box_within b b'.
Proof.
  intros (_ & (pl & Il & El) & (pr & Ir & Er) & (pt & It & Et) & (pb & Ib & Eb))
         (Hall & _).
  pose proof (Hall pl (in_or_app _ _ _ (or_introl Il))) as Hl.
  pose proof (Hall pr (in_or_app _ _ _ (or_introl Ir))) as Hr.
  pose proof (Hall pt (in_or_app _ _ _ (or_introl It))) as Ht.
  pose proof (Hall pb (in_or_app _ _ _ (or_introl Ib))) as Hb.
  unfold box_within. repeat split; lra.
Qed.

(** X5: appending to an outline a string that begins with a command
    letter never shrinks its bounds: [left] and [top] do not grow,
    [width] and [height] do not shrink and, in exact arithmetic, the
    new box contains the old one (its right and bottom edges,
    [left + width] and [top + height], are not stored, and the rounding
    of [width] and [height] in binary64 is not part of the statement). *)
Theorem get_svg_bounds_monotone (s t : string) (b : Bounds Q) :
  starts_with_command t = true ->
  fix_json_alignment.get_svg_bounds s = Ok (Some b) ->
  exists b',
    fix_json_alignment.get_svg_bounds (s ++ t) = Ok (Some b')
    /\ left b' <= left b /\ top b' <= top b
    /\ width b <= width b' /\ height b <= height b'
    /\ box_within b b'.
Proof.
  intros Ht Hb.
  enough (exists b', fix_json_alignment.get_svg_bounds (s ++ t) = Ok (Some b')
                     /\ box_within b b') as (b' & E & Hw).
  { exists b'. split; [exact E|]. pose proof Hw as (H1 & H2 & H3 & H4).
    repeat split; try assumption; lra. }
  destruct t as [|c r]; [discriminate Ht|]. cbn in Ht.
  rewrite get_svg_bounds_recorded in Hb. rewrite get_svg_bounds_recorded.
  unfold Re.findall_commands in *. rewrite (cmd_scan_app_command s Re.Search c r Ht).
  rewrite map_app, filter_app, recorded_points_app.
  destruct (recorded_points (0, 0) (filter kept (map vp_command (Re.cmd_scan Re.Search s))))
    as [|p pts] eqn:E; [discriminate Hb|].
  injection Hb as <-.
  cbn [app]. eexists. split; [reflexivity|].
  eapply bounding_box_grows.
  - apply bounding_box_min_max.
  - apply (bounding_box_min_max p (pts ++ _)).
Qed.

Lemma get_svg_bounds_monotone_witness :
  exists b',
    fix_json_alignment.get_svg_bounds ("M 0 0 L 10 5" ++ "Q 20 30 5 5")%string = Ok (Some b')
    /\ left b' <= 0 /\ top b' <= 0 /\ 10 - 0 <= width b' /\ 5 - 0 <= height b'
    /\ box_within (mkBounds 0 0 (10 - 0) (5 - 0)) b'.
Proof.
  apply (get_svg_bounds_monotone "M 0 0 L 10 5"%string "Q 20 30 5 5"%string
                                 (mkBounds 0 0 (10 - 0) (5 - 0))).
  - reflexivity.
  - vm_compute. reflexivity.
Defined.

(** ** Degenerate outlines *)




(** ** The flip of the operands *)

Lemma flip_pairs_twice (em : Q) (l : list Q) :
  Forall2 Qeq (extract_telugu.flip_pairs em (extract_telugu.flip_pairs em l)) l
  /\ length (extract_telugu.flip_pairs em l) = length l.
Proof.
  assert (H : forall n l, (length l <= n)%nat ->
                Forall2 Qeq (extract_telugu.flip_pairs em (extract_telugu.flip_pairs em l)) l
                /\ length (extract_telugu.flip_pairs em l) = length l);
    [|apply (H (length l)); lia].
  clear l. intros n. induction n as [|n IH]; intros l Hle.
  - destruct l; [split; [constructor | reflexivity] | cbn in Hle; lia].
  - destruct l as [|x [|y rest]].
    + split; [constructor | reflexivity].
    + split; [repeat constructor; reflexivity | reflexivity].
    + cbn in Hle. destruct (IH rest ltac:(lia)) as [IH1 IH2].
      cbn [extract_telugu.flip_pairs app length]. split.
      * repeat (constructor; [try reflexivity; cbn [sub lit Q_number]; ring|]). exact IH1.
      * rewrite IH2. reflexivity.
Qed.

Lemma flip_fours_twice (em : Q) (l : list Q) :
  Forall2 Qeq (extract_telugu.flip_fours em (extract_telugu.flip_fours em l)) l
  /\ length (extract_telugu.flip_fours em l) = length l.
Proof.
  assert (H : forall n l, (length l <= n)%nat ->
                Forall2 Qeq (extract_telugu.flip_fours em (extract_telugu.flip_fours em l)) l
                /\ length (extract_telugu.flip_fours em l) = length l);
    [|apply (H (length l)); lia].
  clear l. intros n. induction n as [|n IH]; intros l Hle.
  - destruct l; [split; [constructor | reflexivity] | cbn in Hle; lia].
  - destruct l as [|a [|b [|c [|d rest]]]];
      try (split; [repeat constructor; reflexivity | reflexivity]).
    cbn in Hle. destruct (IH rest ltac:(lia)) as [IH1 IH2].
    cbn [extract_telugu.flip_fours app length]. split.
    + repeat (constructor; [try reflexivity; cbn [sub lit Q_number]; ring|]). exact IH1.
    + rewrite IH2. reflexivity.
Qed.

Lemma flip_sixes_twice (em : Q) (l : list Q) :
  Forall2 Qeq (extract_telugu.flip_sixes em (extract_telugu.flip_sixes em l)) l
  /\ length (extract_telugu.flip_sixes em l) = length l.
Proof.
  assert (H : forall n l, (length l <= n)%nat ->
                Forall2 Qeq (extract_telugu.flip_sixes em (extract_telugu.flip_sixes em l)) l
                /\ length (extract_telugu.flip_sixes em l) = length l);
    [|apply (H (length l)); lia].
  clear l. intros n. induction n as [|n IH]; intros l Hle.
  - destruct l; [split; [constructor | reflexivity] | cbn in Hle; lia].
  - destruct l as [|a [|b [|c [|d [|e [|f rest]]]]]];
      try (split; [repeat constructor; reflexivity | reflexivity]).
    cbn in Hle. destruct (IH rest ltac:(lia)) as [IH1 IH2].
    cbn [extract_telugu.flip_sixes app length]. split.
    + repeat (constructor; [try reflexivity; cbn [sub lit Q_number]; ring|]). exact IH1.
    + rewrite IH2. reflexivity.
Qed.

Lemma flip_arcs_twice (em : Q) (l : list Q) :
  Forall2 Qeq (extract_telugu.flip_arcs em (extract_telugu.flip_arcs em l)) l
  /\ length (extract_telugu.flip_arcs em l) = length l.
Proof.
  assert (H : forall n l, (length l <= n)%nat ->
                Forall2 Qeq (extract_telugu.flip_arcs em (extract_telugu.flip_arcs em l)) l
                /\ length (extract_telugu.flip_arcs em l) = length l);
    [|apply (H (length l)); lia].
  clear l. intros n. induction n as [|n IH]; intros l Hle.
  - destruct l; [split; [constructor | reflexivity] | cbn in Hle; lia].
  - destruct l as [|a [|b [|c [|d [|e [|f [|g rest]]]]]]];
      try (split; [repeat constructor; reflexivity | reflexivity]).
    cbn in Hle. destruct (IH rest ltac:(lia)) as [IH1 IH2].
    cbn [extract_telugu.flip_arcs app length]. split.
    + repeat (constructor; [try reflexivity; cbn [sub lit Q_number]; ring|]). exact IH1.
    + rewrite IH2. reflexivity.
Qed.

Lemma flip_V_twice (em : Q) (l : list Q) :
  Forall2 Qeq (map (fun y => em - y) (map (fun y => em - y) l)) l.
Proof. induction l as [|y l IH]; cbn; constructor; [ring | exact IH]. Qed.

Lemma Forall2_Qeq_refl (l : list Q) : Forall2 Qeq l l.
Proof. induction l; constructor; [reflexivity | assumption]. Qed.

Lemma flip_pairs_length {T : Type} `{PyNumber T} (em : T) (l : list T) :
  length (extract_telugu.flip_pairs em l) = length l.
Proof.
  assert (G : forall n l, (length l <= n)%nat ->
                length (extract_telugu.flip_pairs em l) = length l);
    [|apply (G (length l)); lia].
  clear l. intros n. induction n as [|n IH]; intros l Hle.
  - destruct l; [reflexivity | cbn in Hle; lia].
  - destruct l as [|x [|y rest]]; try reflexivity.
    cbn in Hle. cbn [extract_telugu.flip_pairs app length].
    rewrite (IH rest) by lia. reflexivity.
Qed.

Lemma flip_fours_length {T : Type} `{PyNumber T} (em : T) (l : list T) :
  length (extract_telugu.flip_fours em l) = length l.
Proof.
  assert (G : forall n l, (length l <= n)%nat ->
                length (extract_telugu.flip_fours em l) = length l);
    [|apply (G (length l)); lia].
  clear l. intros n. induction n as [|n IH]; intros l Hle.
  - destruct l; [reflexivity | cbn in Hle; lia].
  - destruct l as [|a [|b [|c [|d rest]]]]; try reflexivity.
    cbn in Hle. cbn [extract_telugu.flip_fours app length].
    rewrite (IH rest) by lia. reflexivity.
Qed.

Lemma flip_sixes_length {T : Type} `{PyNumber T} (em : T) (l : list T) :
  length (extract_telugu.flip_sixes em l) = length l.
Proof.
  assert (G : forall n l, (length l <= n)%nat ->
                length (extract_telugu.flip_sixes em l) = length l);
    [|apply (G (length l)); lia].
  clear l. intros n. induction n as [|n IH]; intros l Hle.
  - destruct l; [reflexivity | cbn in Hle; lia].
  - destruct l as [|a [|b [|c [|d [|e [|f rest]]]]]]; try reflexivity.
    cbn in Hle. cbn [extract_telugu.flip_sixes app length].
    rewrite (IH rest) by lia. reflexivity.
Qed.

Lemma flip_arcs_length {T : Type} `{PyNumber T} (em : T) (l : list T) :
  length (extract_telugu.flip_arcs em l) = length l.
Proof.
  assert (G : forall n l, (length l <= n)%nat ->
                length (extract_telugu.flip_arcs em l) = length l);
    [|apply (G (length l)); lia].
  clear l. intros n. induction n as [|n IH]; intros l Hle.
  - destruct l; [reflexivity | cbn in Hle; lia].
  - destruct l as [|a [|b [|c [|d [|e [|f [|g rest]]]]]]]; try reflexivity.
    cbn in Hle. cbn [extract_telugu.flip_arcs app length].
    rewrite (IH rest) by lia. reflexivity.
Qed.

Lemma transform_nums_length {T : Type} `{PyNumber T} (em : T) (cmd_upper : ascii)
      (nums : list T) :
  length (extract_telugu.transform_nums em cmd_upper nums) = length nums.
Proof.
  unfold extract_telugu.transform_nums.
  destruct (Ascii.eqb cmd_upper "H"); [apply length_map|].
  destruct (Ascii.eqb cmd_upper "V"); [apply length_map|].
  destruct (Ascii.eqb cmd_upper "A"); [apply flip_arcs_length|].
  destruct (Ascii.eqb cmd_upper "C" || Ascii.eqb cmd_upper "S"); [apply flip_sixes_length|].
  destruct (Ascii.eqb cmd_upper "Q" || Ascii.eqb cmd_upper "T"); [apply flip_fours_length|].
  apply flip_pairs_length.
Qed.

(** X7: whatever the command letter, the number of operands and the
    arithmetic, the flip of an operand list keeps its length.  In exact
    (rational) arithmetic, flipping twice with the same axis size gives
    back every operand, the sweep flag of an arc included.  In binary64
    it does not: with the axis size 1000 the operand 0.1 of a [V]
    command does not come back from two flips. *)
Theorem transform_nums_involutive :
  (forall (T : Type) (number : PyNumber T) (em : T) (cmd_upper : ascii) (nums : list T),
      length (extract_telugu.transform_nums em cmd_upper nums) = length nums)
  /\ (forall (em : Q) (cmd_upper : ascii) (nums : list Q),
         Forall2 Qeq
           (extract_telugu.transform_nums em cmd_upper
              (extract_telugu.transform_nums em cmd_upper nums))
           nums)
  /\ (exists y' : float,
         extract_telugu.transform_nums 1000%float "V"
           (extract_telugu.transform_nums 1000%float "V" [PrimFloat.div 1 10]) = [y']
         /\ PrimFloat.eqb y' (PrimFloat.div 1 10) = false).
Proof.
  split; [intros T number em cmd_upper nums; apply transform_nums_length|].
  split; [|eexists; split; vm_compute; reflexivity].
  intros em cmd_upper nums.
  unfold extract_telugu.transform_nums.
  destruct (Ascii.eqb cmd_upper "H").
  { rewrite !map_id. apply Forall2_Qeq_refl. }
  destruct (Ascii.eqb cmd_upper "V"); [apply flip_V_twice|].
  destruct (Ascii.eqb cmd_upper "A"); [apply flip_arcs_twice|].
  destruct (Ascii.eqb cmd_upper "C" || Ascii.eqb cmd_upper "S"); [apply flip_sixes_twice|].
  destruct (Ascii.eqb cmd_upper "Q" || Ascii.eqb cmd_upper "T"); [apply flip_fours_twice|].
  apply flip_pairs_twice.
Qed.

(** ** The path of the visualizer *)

Lemma path_step_lengths (w : visualize_points.path_walk) (c : command) :
  length (visualize_points.vertices w) = length (visualize_points.codes w) ->
  length (visualize_points.vertices (visualize_points.path_step w c))
  = length (visualize_points.codes (visualize_points.path_step w c)).
Proof.
  intros H. destruct c as [cmd coords]. unfold visualize_points.path_step.
  destruct (Ascii.eqb cmd "M");
    [destruct coords as [|a [|b ?]]; cbn; rewrite ?length_app, ?H; reflexivity|].
  destruct (Ascii.eqb cmd "L");
    [destruct coords as [|a [|b ?]]; cbn; rewrite ?length_app, ?H; reflexivity|].
  destruct (Ascii.eqb cmd "Q").
  { destruct coords as [|a [|b [|c2 [|d ?]]]]; try exact H.
    cbn [visualize_points.vertices visualize_points.codes].
    rewrite !length_app, length_map, H. reflexivity. }
  destruct (Ascii.eqb cmd "C").
  { destruct coords as [|a [|b [|c2 [|d [|e [|f ?]]]]]]; try exact H.
    cbn [visualize_points.vertices visualize_points.codes].
    rewrite !length_app, !length_map, H. reflexivity. }
  destruct (Ascii.eqb cmd "H");
    [destruct coords as [|a ?]; cbn; rewrite ?length_app, ?H; reflexivity|].
  destruct (Ascii.eqb cmd "V");
    [destruct coords as [|a ?]; cbn; rewrite ?length_app, ?H; reflexivity|].
  destruct (Ascii.eqb cmd "Z"); [|exact H].
  destruct (visualize_points.vertices w) eqn:E; [rewrite E; exact H|].
  cbn [visualize_points.vertices visualize_points.codes].
  rewrite !length_app, <- H. reflexivity.
Qed.

Lemma path_walk_lengths (cmds : list command) (w : visualize_points.path_walk) :
  length (visualize_points.vertices w) = length (visualize_points.codes w) ->
  length (visualize_points.vertices (fold_left visualize_points.path_step cmds w))
  = length (visualize_points.codes (fold_left visualize_points.path_step cmds w)).
Proof.
  revert w. induction cmds as [|c cmds IH]; intros w H; [exact H|].
  cbn [fold_left]. apply IH, path_step_lengths, H.
Qed.

Lemma path_step_appends (w : visualize_points.path_walk) (c : command) :
  exists cs,
    visualize_points.codes (visualize_points.path_step w c)
    = visualize_points.codes w ++ cs.
Proof.
  destruct c as [cmd coords]. unfold visualize_points.path_step.
  assert (Hid : exists cs, visualize_points.codes w = visualize_points.codes w ++ cs)
    by (exists []; rewrite app_nil_r; reflexivity).
  destruct (Ascii.eqb cmd "M");
    [destruct coords as [|a [|b ?]]; try exact Hid; eexists; reflexivity|].
  destruct (Ascii.eqb cmd "L");
    [destruct coords as [|a [|b ?]]; try exact Hid; eexists; reflexivity|].
  destruct (Ascii.eqb cmd "Q");
    [destruct coords as [|a [|b [|c2 [|d ?]]]]; try exact Hid; eexists; reflexivity|].
  destruct (Ascii.eqb cmd "C");
    [destruct coords as [|a [|b [|c2 [|d [|e [|f ?]]]]]]; try exact Hid;
     eexists; reflexivity|].
  destruct (Ascii.eqb cmd "H");
    [destruct coords as [|a ?]; try exact Hid; eexists; reflexivity|].
  destruct (Ascii.eqb cmd "V");
    [destruct coords as [|a ?]; try exact Hid; eexists; reflexivity|].
  destruct (Ascii.eqb cmd "Z"); [|exact Hid].
  destruct (visualize_points.vertices w); [exact Hid | eexists; reflexivity].
Qed.

Lemma path_walk_appends (cmds : list command) (w : visualize_points.path_walk) :
  exists cs,
    visualize_points.codes (fold_left visualize_points.path_step cmds w)
    = visualize_points.codes w ++ cs.
Proof.
  revert w. induction cmds as [|c cmds IH]; intros w; cbn [fold_left].
  - exists []. rewrite app_nil_r. reflexivity.
  - destruct (IH (visualize_points.path_step w c)) as [cs2 E2].
    destruct (path_step_appends w c) as [cs1 E1].
    exists (cs1 ++ cs2). rewrite E2, E1, app_assoc. reflexivity.
Qed.

(** Before anything is drawn, a command that records nothing leaves the
    walk as it is, [Z] included. *)
Lemma path_step_idle (w : visualize_points.path_walk) (c : command) :
  contributes c = false -> visualize_points.vertices w = [] ->
  visualize_points.path_step w c = w.
Proof.
  destruct c as [cmd coords]. unfold contributes, visualize_points.path_step.
  intros Hc Hv.
  destruct (Ascii.eqb cmd "M");
    [destruct coords as [|a [|b ?]]; try reflexivity; discriminate Hc|].
  destruct (Ascii.eqb cmd "L");
    [destruct coords as [|a [|b ?]]; try reflexivity; discriminate Hc|].
  cbn [orb] in Hc.
  destruct (Ascii.eqb cmd "Q");
    [destruct coords as [|a [|b [|c2 [|d ?]]]]; try reflexivity; discriminate Hc|].
  destruct (Ascii.eqb cmd "C");
    [destruct coords as [|a [|b [|c2 [|d [|e [|f ?]]]]]]; try reflexivity;
     discriminate Hc|].
  destruct (Ascii.eqb cmd "H");
    [destruct coords as [|a ?]; try reflexivity; discriminate Hc|].
  destruct (Ascii.eqb cmd "V");
    [destruct coords as [|a ?]; try reflexivity; discriminate Hc|].
  destruct (Ascii.eqb cmd "Z"); [|reflexivity].
  rewrite Hv. reflexivity.
Qed.

(** The first command that draws gives the first code: [MOVETO] for an
    [M], [LINETO] for all others. *)
Lemma path_step_first (w : visualize_points.path_walk) (c : command) :
  contributes c = true -> visualize_points.codes w = [] ->
  exists cs,
    visualize_points.codes (visualize_points.path_step w c)
    = (if Ascii.eqb (fst c) "M"
       then visualize_points.MOVETO else visualize_points.LINETO) :: cs.
Proof.
  destruct c as [cmd coords]. unfold contributes, visualize_points.path_step.
  cbn [fst]. intros Hc Hv. rewrite Hv.
  destruct (Ascii.eqb cmd "M");
    [destruct coords as [|a [|b ?]]; try discriminate Hc; eexists; reflexivity|].
  destruct (Ascii.eqb cmd "L");
    [destruct coords as [|a [|b ?]]; try discriminate Hc; eexists; reflexivity|].
  cbn [orb] in Hc.
  destruct (Ascii.eqb cmd "Q");
    [destruct coords as [|a [|b [|c2 [|d ?]]]]; try discriminate Hc; eexists; reflexivity|].
  destruct (Ascii.eqb cmd "C");
    [destruct coords as [|a [|b [|c2 [|d [|e [|f ?]]]]]]; try discriminate Hc;
     eexists; reflexivity|].
  destruct (Ascii.eqb cmd "H");
    [destruct coords as [|a ?]; try discriminate Hc; eexists; reflexivity|].
  destruct (Ascii.eqb cmd "V");
    [destruct coords as [|a ?]; try discriminate Hc; eexists; reflexivity|].
  discriminate Hc.
Qed.

Lemma path_walk_first (cmds : list command) (w : visualize_points.path_walk) :
  visualize_points.vertices w = [] -> visualize_points.codes w = [] ->
  match find contributes cmds with
  | None => visualize_points.vertices (fold_left visualize_points.path_step cmds w) = []
  | Some c =>
      exists cs,
        visualize_points.codes (fold_left visualize_points.path_step cmds w)
        = (if Ascii.eqb (fst c) "M"
           then visualize_points.MOVETO else visualize_points.LINETO) :: cs
  end.
Proof.
  revert w. induction cmds as [|c cmds IH]; intros w Hv Hc; cbn [find fold_left].
  - exact Hv.
  - destruct (contributes c) eqn:E.
    + destruct (path_step_first w c E Hc) as [cs1 E1].
      destruct (path_walk_appends cmds (visualize_points.path_step w c)) as [cs2 E2].
      exists (cs1 ++ cs2). rewrite E2, E1. reflexivity.
    + rewrite (path_step_idle w c E Hv). apply IH; assumption.
Qed.

Lemma find_contributes_none (cmds : list command) :
  find contributes cmds = None <-> existsb contributes cmds = false.
Proof.
  induction cmds as [|c cmds IH]; cbn [find existsb]; [split; reflexivity|].
  destruct (contributes c); cbn [orb]; [split; discriminate | exact IH].
Qed.

(** The outcome of [svg_to_matplotlib_path], read off the parsed
    commands. *)
Lemma svg_to_matplotlib_path_cases (s : string) :
  let cmds := map vp_command (Re.findall_commands s) in
  match find contributes cmds with
  | None => visualize_points.svg_to_matplotlib_path s = Ok None
  | Some c =>
      if Ascii.eqb (fst c) "M"
      then exists v vs cs,
          visualize_points.svg_to_matplotlib_path s
          = Ok (Some (v :: vs, visualize_points.MOVETO :: cs))
          /\ visualize_points.vertices
               (fold_left visualize_points.path_step cmds
                  (visualize_points.mkPathWalk [] [] 0 0 0 0)) = v :: vs
          /\ length vs = length cs
      else visualize_points.svg_to_matplotlib_path s = Raise ValueError
  end.
Proof.
  intros cmds.
  unfold visualize_points.svg_to_matplotlib_path, visualize_points.parse_svg_path.
  rewrite vp_parse_matches_spec. cbn [app bind]. fold cmds.
  change (lit 0) with 0.
  set (w := fold_left visualize_points.path_step cmds _).
  assert (Hl : length (visualize_points.vertices w) = length (visualize_points.codes w)).
  { apply path_walk_lengths. reflexivity. }
  pose proof (path_walk_first cmds (visualize_points.mkPathWalk [] [] 0 0 0 0)
                eq_refl eq_refl) as Hf.
  fold w in Hf.
  destruct (find contributes cmds) as [c|].
  - destruct Hf as [cs Hcs]. rewrite Hcs in Hl.
    destruct (visualize_points.vertices w) as [|v vs] eqn:Ev; [discriminate Hl|].
    unfold visualize_points.MPLPath. rewrite Hcs, <- Hl, Nat.eqb_refl. cbn [negb].
    destruct (Ascii.eqb (fst c) "M"); cbn [bind]; [|reflexivity].
    exists v, vs, cs. repeat split. cbn [length] in Hl. congruence.
  - rewrite Hf. reflexivity.
Qed.

(** X8: [svg_to_matplotlib_path] raises [ValueError], from the path
    constructor of matplotlib, exactly when the first command that draws
    is not a MoveTo (an outline that begins with L, H, V, Q or C).
    Otherwise it returns: [None] when no command draws, and else a path
    whose codes begin with [MOVETO] and are as many as its vertices. *)
Theorem svg_to_matplotlib_path_outcome (s : string) :
  let cmds := map vp_command (Re.findall_commands s) in
  if moveto_first cmds
  then exists r,
      visualize_points.svg_to_matplotlib_path s = Ok r
      /\ (r = None <-> existsb contributes cmds = false)
      /\ forall path_vertices path_codes,
          r = Some (path_vertices, path_codes) ->
          path_vertices <> []
          /\ length path_vertices = length path_codes
          /\ hd_error path_codes = Some visualize_points.MOVETO
  else visualize_points.svg_to_matplotlib_path s = Raise ValueError.
Proof.
  intros cmds. pose proof (svg_to_matplotlib_path_cases s) as H. cbn zeta in H.
  fold cmds in H. unfold moveto_first.
  pose proof (find_contributes_none cmds) as Hn.
  destruct (find contributes cmds) as [[cmd coords]|]; cbn [fst] in H.
  - destruct (Ascii.eqb cmd "M"); [|exact H].
    destruct H as (v & vs & cs & E & _ & Hl).
    eexists. split; [exact E|]. split.
    + split; [discriminate|]. intros Hc. apply Hn in Hc. discriminate Hc.
    + intros pv pc Hr. injection Hr as <- <-.
      split; [discriminate|]. split; [cbn [length]; rewrite Hl|]; reflexivity.
  - exists None. split; [exact H|]. split.
    + split; [intros _; apply Hn; reflexivity | reflexivity].
    + intros pv pc Hr. discriminate Hr.
Qed.

Lemma svg_to_matplotlib_path_outcome_witness :
  (exists r,
      visualize_points.svg_to_matplotlib_path "M 0 0 L 1 1 Z"%string = Ok r
      /\ hd_error [visualize_points.MOVETO; visualize_points.LINETO;
                   visualize_points.CLOSEPOLY] = Some visualize_points.MOVETO)
  /\ visualize_points.svg_to_matplotlib_path "L 1 2 L 3 4"%string = Raise ValueError.
Proof.
  split.
  - pose proof (svg_to_matplotlib_path_outcome "M 0 0 L 1 1 Z"%string) as H.
    vm_compute moveto_first in H. cbn zeta iota in H.
    destruct H as (r & E & _ & H). exists r. split; [exact E|].
    vm_compute in E. injection E as <-.
    apply (H _ _ eq_refl).
  - exact (svg_to_matplotlib_path_outcome "L 1 2 L 3 4"%string).
Defined.

Lemma path_step_polyline (w : visualize_points.path_walk) (c : command) :
  polyline_command c = true ->
  let cur := (visualize_points.current_x w, visualize_points.current_y w) in
  visualize_points.vertices (visualize_points.path_step w c)
    = visualize_points.vertices w ++ fst (trace_command cur c)
  /\ (visualize_points.current_x (visualize_points.path_step w c),
      visualize_points.current_y (visualize_points.path_step w c))
     = snd (trace_command cur c).
Proof.
  destruct w as [vs cs cx cy sx sy]. destruct c as [cmd coords].
  unfold polyline_command, visualize_points.path_step, trace_command.
  cbn [fst snd visualize_points.vertices visualize_points.current_x
       visualize_points.current_y].
  intros Hp. apply negb_true_iff in Hp.
  apply orb_false_iff in Hp as [Hp HZ]. apply orb_false_iff in Hp as [HQ HC].
  rewrite HQ, HC, HZ.
  destruct (Ascii.eqb_spec cmd "M") as [->|HM];
    [destruct coords as [|a [|b ?]]; cbn; rewrite ?app_nil_r; split; reflexivity|].
  destruct (Ascii.eqb_spec cmd "L") as [->|HL];
    [destruct coords as [|a [|b ?]]; cbn; rewrite ?app_nil_r; split; reflexivity|].
  destruct (Ascii.eqb_spec cmd "H") as [->|HH];
    [destruct coords as [|a ?]; cbn; rewrite ?app_nil_r; split; reflexivity|].
  destruct (Ascii.eqb_spec cmd "V") as [->|HV];
    [destruct coords as [|a ?]; cbn; rewrite ?app_nil_r; split; reflexivity|].
  destruct coords as [|a [|b [|c2 [|d [|e [|f ?]]]]]]; cbn; rewrite ?app_nil_r;
    split; reflexivity.
Qed.

Lemma path_walk_polyline (cmds : list command) (w : visualize_points.path_walk) :
  forallb polyline_command cmds = true ->
  visualize_points.vertices (fold_left visualize_points.path_step cmds w)
  = visualize_points.vertices w
    ++ recorded_points (visualize_points.current_x w, visualize_points.current_y w) cmds.
Proof.
  revert w. induction cmds as [|c cmds IH]; intros w Hp.
  - cbn. rewrite app_nil_r. reflexivity.
  - cbn [forallb] in Hp. apply andb_true_iff in Hp as [Hc Hp].
    cbn [fold_left recorded_points].
    destruct (path_step_polyline w c Hc) as [Hv Hcur]. cbn zeta in Hv, Hcur.
    rewrite (IH _ Hp), Hv, Hcur.
    destruct (trace_command (visualize_points.current_x w, visualize_points.current_y w) c)
      as [pts cur']. cbn [fst snd]. rewrite app_assoc. reflexivity.
Qed.

Lemma recorded_points_kept (cmds : list command) (cur : Q * Q) :
  recorded_points cur (filter kept cmds) = recorded_points cur cmds.
Proof.
  revert cur. induction cmds as [|c cmds IH]; intros cur; [reflexivity|].
  cbn [filter]. destruct (kept c) eqn:K.
  - cbn [recorded_points]. destruct (trace_command cur c) as [pts cur'].
    rewrite IH. reflexivity.
  - cbn [recorded_points].
    assert (E : trace_command cur c = ([], cur)).
    { destruct c as [cmd coords]. unfold kept in K. cbn [fst snd] in K.
      apply orb_false_iff in K as [_ K]. apply negb_false_iff in K.
      destruct coords; [reflexivity | discriminate K]. }
    rewrite E. cbn [app]. apply IH.
Qed.

(** X9: on an outline without Q, C and Z commands, whose first
    command that draws (if any) is a MoveTo, the visualizer and the
    verifier compute the same bounds: the bounds [visualize] takes from
    the vertices of [svg_to_matplotlib_path] are the result of
    [get_svg_bounds], [None] included.  When the first command that
    draws is not a MoveTo, the verifier still returns bounds and the
    visualizer stops with the [ValueError] of the path constructor. *)
Theorem polyline_bounds_agree (s : string) :
  let cmds := map vp_command (Re.findall_commands s) in
  forallb polyline_command cmds = true ->
  (exists r, fix_json_alignment.get_svg_bounds s = Ok r
             /\ (moveto_first cmds = false -> exists b, r = Some b))
  /\ visualize_points.visualize_bounds s
     = if moveto_first cmds then fix_json_alignment.get_svg_bounds s
       else Raise ValueError.
Proof.
  intros cmds Hp.
  pose proof (get_svg_bounds_recorded s) as Hb. rewrite recorded_points_kept in Hb.
  fold cmds in Hb.
  split.
  { rewrite Hb. destruct (recorded_points (0, 0) cmds) as [|p pts] eqn:E.
    - eexists. split; [reflexivity|]. intros Hm. exfalso.
      apply recorded_points_nil, find_contributes_none in E.
      unfold moveto_first in Hm. rewrite E in Hm. discriminate Hm.
    - eexists. split; [reflexivity|]. intros _. eexists. reflexivity. }
  pose proof (svg_to_matplotlib_path_cases s) as H. cbn zeta in H. fold cmds in H.
  pose proof (path_walk_polyline cmds (visualize_points.mkPathWalk [] [] 0 0 0 0) Hp)
    as Hv.
  cbn [visualize_points.vertices visualize_points.current_x
       visualize_points.current_y app] in Hv.
  pose proof (recorded_points_nil cmds (0, 0)) as Hnil.
  pose proof (find_contributes_none cmds) as Hnone.
  unfold moveto_first, visualize_points.visualize_bounds.
  destruct (find contributes cmds) as [[cmd coords]|]; cbn [fst] in H.
  - destruct (Ascii.eqb cmd "M").
    + destruct H as (v & vs & cs & E & Ew & _). rewrite E. cbn [bind].
      rewrite Hb, <- Hv, Ew. reflexivity.
    + rewrite H. reflexivity.
  - rewrite H. cbn [bind]. rewrite Hb.
    rewrite (proj2 Hnil (proj1 Hnone eq_refl)). reflexivity.
Qed.

Lemma polyline_bounds_agree_witness :
  visualize_points.visualize_bounds "M 10 20 L 30 5 H 2 v 7 T 1 1"%string
  = fix_json_alignment.get_svg_bounds "M 10 20 L 30 5 H 2 v 7 T 1 1"%string
  /\ visualize_points.visualize_bounds "L 1 2 L 3 4"%string = Raise ValueError
  /\ exists b, fix_json_alignment.get_svg_bounds "L 1 2 L 3 4"%string = Ok (Some b).
Proof.
  split; [|split].
  - apply (proj2 (polyline_bounds_agree "M 10 20 L 30 5 H 2 v 7 T 1 1"%string eq_refl)).
  - apply (proj2 (polyline_bounds_agree "L 1 2 L 3 4"%string eq_refl)).
  - destruct (proj1 (polyline_bounds_agree "L 1 2 L 3 4"%string eq_refl))
      as (r & E & Hr).
    destruct (Hr eq_refl) as [b ->]. exists b. exact E.
Defined.

(** ** The font header check *)

Lemma magic_prefix_not_markup (magic data : string) :
  In magic extract_telugu.font_magics ->
  String.prefix magic data = true ->
  String.prefix "<" (Str.lstrip (String.substring 0 64 data)) = false.
Proof.
  intros Hin Hp. apply String.prefix_correct in Hp.
  destruct data as [|c d];
    [destruct Hin as [<-|[<-|[<-|[<-|[]]]]]; discriminate Hp|].
  destruct Hin as [<-|[<-|[<-|[<-|[]]]]];
    cbn [String.length String.substring] in Hp; injection Hp as Hc _; subst c;
    reflexivity.
Qed.

(** X10: [inspect_header] accepts exactly the data that begin with one
    of the four font magic numbers; its markup test never changes the
    answer. *)
Theorem inspect_header_magic (data : string) :
  extract_telugu.inspect_header data
  = existsb (fun magic => String.prefix magic data) extract_telugu.font_magics.
Proof.
  unfold extract_telugu.inspect_header.
  destruct (existsb (fun magic => String.prefix magic data) extract_telugu.font_magics) eqn:E.
  - apply existsb_exists in E as (magic & Hin & Hp).
    rewrite (magic_prefix_not_markup magic data Hin Hp). reflexivity.
  - cbn [negb]. destruct (String.prefix "<" _); reflexivity.
Qed.

(** ** Stroke data *)



Lemma strokes_loop_records (L : list (list Json.value)) (acc : list (list (Q * Q))) :
  visualize_points.strokes_loop (map stroke_record L) acc
  = visualize_points.strokes_loop (map Json.Arr L) acc.
Proof.
  revert acc. induction L as [|entries L IH]; intros acc; [reflexivity|].
  cbn [map visualize_points.strokes_loop]. unfold stroke_record at 1.
  cbn [visualize_points.points_of_stroke existsb fst String.eqb Ascii.eqb Bool.eqb orb
       Json.getitem find snd Json.iterate].
  destruct (visualize_points.stroke_loop entries []); apply IH.
Qed.

Lemma bare_list_has_no_key (L : list (list Json.value)) (key : string) :
  existsb (Json.is_str key) (map Json.Arr L) = false.
Proof. induction L as [|e L IH]; [reflexivity | exact IH]. Qed.

(** X11: the record form [{"strokes": [{"points": [...]}, ...]}] and
    the bare list-of-lists form of the same strokes load to the same
    result. *)
Theorem load_points_record_and_list_forms (L : list (list Json.value)) :
  visualize_points.load_points_from_data
    (Json.Obj [("strokes"%string, Json.Arr (map stroke_record L))])
  = visualize_points.load_points_from_data (Json.Arr (map Json.Arr L)).
Proof.
  unfold visualize_points.load_points_from_data.
  cbn [Json.contains]. rewrite bare_list_has_no_key.
  cbn. apply strokes_loop_records.
Qed.


(** X13: [load_points_from_json] raises [TypeError] on data that is
    [None], a boolean or a number, on a list that contains the string
    "strokes" and on a string that contains it. *)
Theorem load_points_type_errors :
  visualize_points.load_points_from_data Json.Null = Json.Raises Json.TypeError
  /\ (forall b, visualize_points.load_points_from_data (Json.Bool b)
                = Json.Raises Json.TypeError)
  /\ (forall q, visualize_points.load_points_from_data (Json.Num q)
                = Json.Raises Json.TypeError)
  /\ (forall items,
         existsb (Json.is_str "strokes") items = true ->
         visualize_points.load_points_from_data (Json.Arr items)
         = Json.Raises Json.TypeError)
  /\ (forall s,
         Json.is_substring "strokes" s = true ->
         visualize_points.load_points_from_data (Json.Str s)
         = Json.Raises Json.TypeError).
Proof.
  repeat split; try reflexivity.
  - intros items H. unfold visualize_points.load_points_from_data.
    cbn [Json.contains]. rewrite H. reflexivity.
  - intros s H. unfold visualize_points.load_points_from_data.
    cbn [Json.contains]. rewrite H. reflexivity.
Qed.

Lemma load_points_type_errors_witness :
  visualize_points.load_points_from_data
    (Json.Arr [Json.Arr [Json.Str "0.5,0.5"]; Json.Str "strokes"])
  = Json.Raises Json.TypeError.
Proof.
  apply (proj1 (proj2 (proj2 (proj2 load_points_type_errors)))). reflexivity.
Defined.

(** ** Dotted paths from stroke points *)

Lemma smooth_loop_without_curves (all_points : list string) (view_size : Q)
      (points : list string) (i : nat) (acc : list string) :
  generate_dotted_path.smooth_loop all_points view_size false i points acc
  = generate_dotted_path.path_loop view_size i points acc.
Proof.
  revert i acc. induction points as [|p points IH]; intros i acc; [reflexivity|].
  cbn [generate_dotted_path.smooth_loop generate_dotted_path.path_loop andb].
  destruct (generate_dotted_path.parse_point p) as [[x|] [y|]]; try apply IH.
  destruct (Nat.eqb i 0); apply IH.
Qed.

(** X14: on two or more entries, [points_to_svg_path_smooth] without
    curves returns the path of [points_to_svg_path]. *)
Theorem smooth_without_curves_is_plain (p q : string) (rest : list string) (view_size : Q) :
  generate_dotted_path.points_to_svg_path_smooth (p :: q :: rest) view_size false
  = Json.Returns (generate_dotted_path.points_to_svg_path (p :: q :: rest) view_size).
Proof.
  unfold generate_dotted_path.points_to_svg_path_smooth,
    generate_dotted_path.points_to_svg_path.
  rewrite smooth_loop_without_curves. reflexivity.
Qed.

(** X15: on a single malformed entry [points_to_svg_path] returns the
    empty path, while [points_to_svg_path_smooth] raises [TypeError]. *)
Theorem single_malformed_point (p : string) (view_size : Q) (use_curves : bool) :
  generate_dotted_path.parse_point p = (None, None) ->
  generate_dotted_path.points_to_svg_path [p] view_size = EmptyString
  /\ generate_dotted_path.points_to_svg_path_smooth [p] view_size use_curves
     = Json.Raises Json.TypeError.
Proof.
  intros H. unfold generate_dotted_path.points_to_svg_path,
    generate_dotted_path.points_to_svg_path_smooth.
  cbn [generate_dotted_path.path_loop]. rewrite H. split; reflexivity.
Qed.

Lemma single_malformed_point_witness :
  generate_dotted_path.points_to_svg_path ["0.5;0.3"%string] 1000 = EmptyString
  /\ generate_dotted_path.points_to_svg_path_smooth ["0.5;0.3"%string] 1000 true
     = Json.Raises Json.TypeError.
Proof.
  apply (single_malformed_point "0.5;0.3"%string 1000 true). reflexivity.
Defined.

Lemma prefix_L (r : string) : String.prefix "L " ("L " ++ r) = true.
Proof. apply String.prefix_correct. destruct r; reflexivity. Qed.

Lemma path_loop_later (view_size : Q) (points : list string) (i : nat)
      (acc : list string) :
  Forall (fun c => String.prefix "L " c = true) acc ->
  Forall (fun c => String.prefix "L " c = true)
         (generate_dotted_path.path_loop view_size (S i) points acc).
Proof.
  revert i acc. induction points as [|p points IH]; intros i acc Hacc; [exact Hacc|].
  cbn [generate_dotted_path.path_loop Nat.eqb].
  destruct (generate_dotted_path.parse_point p) as [[x|] [y|]]; try (apply IH; exact Hacc).
  apply IH. apply Forall_app. split; [exact Hacc|]. constructor; [apply prefix_L|constructor].
Qed.

(** The commands added after the first entry do not depend on the
    commands already collected. *)
Lemma path_loop_tail (view_size : Q) (points : list string) (i : nat)
      (acc acc' : list string) :
  exists more,
    generate_dotted_path.path_loop view_size (S i) points acc = acc ++ more
    /\ generate_dotted_path.path_loop view_size (S i) points acc' = acc' ++ more.
Proof.
  revert i acc acc'. induction points as [|q points IH]; intros i acc acc'.
  - exists []. cbn. rewrite !app_nil_r. split; reflexivity.
  - cbn [generate_dotted_path.path_loop Nat.eqb].
    destruct (generate_dotted_path.parse_point q) as [[x|] [y|]]; try apply IH.
    destruct (IH (S i)
                 (acc ++ [("L " ++ extract_telugu.format_1f (x * view_size) ++ " "
                             ++ extract_telugu.format_1f (y * view_size))%string])
                 (acc' ++ [("L " ++ extract_telugu.format_1f (x * view_size) ++ " "
                              ++ extract_telugu.format_1f (y * view_size))%string]))
      as (more & E1 & E2).
    rewrite E1, E2, <- !app_assoc. eexists. split; reflexivity.
Qed.

Lemma prefix_M (r : string) : String.prefix "M " ("M " ++ r) = true.
Proof. apply String.prefix_correct. destruct r; reflexivity. Qed.

Lemma path_loop_length (view_size : Q) (points : list string) (i : nat)
      (acc : list string) :
  length (generate_dotted_path.path_loop view_size i points acc)
  = (length acc + length (display_points points view_size))%nat.
Proof.
  unfold display_points.
  revert i acc. induction points as [|q points IH]; intros i acc.
  - cbn. lia.
  - cbn [generate_dotted_path.path_loop flat_map].
    destruct (generate_dotted_path.parse_point q) as [[x|] [y|]];
      try (rewrite IH; reflexivity).
    destruct (Nat.eqb i 0); rewrite IH, !length_app; cbn [length]; lia.
Qed.

(** X16: the path of [points_to_svg_path] is the join, with single
    spaces, of one command per well-formed entry, in order.  When the
    first entry is well formed the first command is a MoveTo and all the
    others are LineTo; when the first entry is malformed every command
    is a LineTo, so the path has no MoveTo. *)
Theorem points_to_svg_path_commands (p : string) (rest : list string) (view_size : Q) :
  exists cmds,
    generate_dotted_path.points_to_svg_path (p :: rest) view_size = Str.join " " cmds
    /\ length cmds = length (display_points (p :: rest) view_size)
    /\ match generate_dotted_path.parse_point p with
       | (Some _, Some _) =>
           exists first others,
             cmds = first :: others
             /\ String.prefix "M " first = true
             /\ Forall (fun c => String.prefix "L " c = true) others
       | _ => Forall (fun c => String.prefix "L " c = true) cmds
       end.
Proof.
  unfold generate_dotted_path.points_to_svg_path.
  eexists. split; [reflexivity|]. split; [apply path_loop_length|].
  cbn [generate_dotted_path.path_loop Nat.eqb].
  destruct (generate_dotted_path.parse_point p) as [[x|] [y|]];
    try (apply path_loop_later; constructor).
  cbn [app].
  destruct (path_loop_tail view_size rest 0
              [("M " ++ extract_telugu.format_1f (x * view_size) ++ " "
                  ++ extract_telugu.format_1f (y * view_size))%string] [])
    as (more & E1 & E2).
  rewrite E1. cbn [app] in *. eexists; exists more. split; [reflexivity|].
  split; [apply prefix_M|].
  rewrite <- E2. apply path_loop_later. constructor.
Qed.

Lemma stroke_commands_length (stroke points : list (Q * Q)) (use_curves : bool)
      (i : nat) (acc : list string) :
  length (fix_dotted_path_alignment_output.stroke_commands stroke use_curves i points acc)
  = (length acc + length points)%nat.
Proof.
  revert i acc. induction points as [|[x y] points IH]; intros i acc.
  - cbn. lia.
  - cbn [fix_dotted_path_alignment_output.stroke_commands].
    destruct (Nat.eqb i 0); [rewrite IH, length_app; cbn; lia|].
    destruct (use_curves && Nat.ltb 0 i); [|rewrite IH, length_app; cbn; lia].
    destruct (Nat.eqb i 1); destruct (nth (i - 1) stroke (0, 0)) as [px py];
      rewrite IH, length_app; cbn; lia.
Qed.

Lemma stroke_commands_acc (stroke points : list (Q * Q)) (use_curves : bool)
      (i : nat) (acc : list string) :
  exists more,
    fix_dotted_path_alignment_output.stroke_commands stroke use_curves i points acc
    = acc ++ more.
Proof.
  revert i acc. induction points as [|[x y] points IH]; intros i acc.
  - exists []. cbn. rewrite app_nil_r. reflexivity.
  - cbn [fix_dotted_path_alignment_output.stroke_commands].
    destruct (Nat.eqb i 0);
      [edestruct IH as [more E]; rewrite E, <- app_assoc; eexists; reflexivity|].
    destruct (use_curves && Nat.ltb 0 i);
      [|edestruct IH as [more E]; rewrite E, <- app_assoc; eexists; reflexivity].
    destruct (Nat.eqb i 1); destruct (nth (i - 1) stroke (0, 0)) as [px py];
      edestruct IH as [more E]; rewrite E, <- app_assoc; eexists; reflexivity.
Qed.

Lemma path_segments_loop_spec (svg_strokes : list (list (Q * Q))) (use_curves : bool)
      (acc : list string) :
  fix_dotted_path_alignment_output.path_segments_loop svg_strokes use_curves acc
  = acc ++ map (fun stroke =>
                  Str.join " " (fix_dotted_path_alignment_output.stroke_commands
                                  stroke use_curves 0 stroke []))
               (filter (fun stroke => negb (is_nil stroke)) svg_strokes).
Proof.
  revert acc. induction svg_strokes as [|stroke rest IH]; intros acc.
  - cbn. rewrite app_nil_r. reflexivity.
  - cbn [fix_dotted_path_alignment_output.path_segments_loop filter].
    destruct stroke as [|p ps]; cbn [is_nil negb]; [apply IH|].
    pose proof (stroke_commands_length (p :: ps) (p :: ps) use_curves 0 []) as Hl.
    destruct (fix_dotted_path_alignment_output.stroke_commands
                (p :: ps) use_curves 0 (p :: ps) []) as [|c cs] eqn:E;
      [cbn in Hl; lia|].
    rewrite IH. cbn [map]. rewrite E, <- app_assoc. reflexivity.
Qed.

(** X17: [generate_dotted_path_from_svg_coords] skips the empty strokes
    and joins one segment per remaining stroke, in order; the segment of
    a stroke is the join of as many commands as the stroke has points,
    the first of them the MoveTo to its first point. *)
Theorem generate_dotted_path_segments (svg_strokes : list (list (Q * Q)))
        (use_curves : bool) :
  exists segments : list (list string),
    fix_dotted_path_alignment_output.generate_dotted_path_from_svg_coords
      svg_strokes use_curves
    = Str.join (String (ascii_of_nat 10) "           ") (map (Str.join " ") segments)
    /\ Forall2 (fun (stroke : list (Q * Q)) (commands : list string) =>
                  length commands = length stroke
                  /\ exists x y others,
                      hd_error stroke = Some (x, y)
                      /\ commands
                         = ("M " ++ extract_telugu.format_1f x ++ " "
                              ++ extract_telugu.format_1f y)%string :: others)
               (filter (fun stroke => negb (is_nil stroke)) svg_strokes) segments.
Proof.
  unfold fix_dotted_path_alignment_output.generate_dotted_path_from_svg_coords.
  rewrite path_segments_loop_spec. cbn [app].
  exists (map (fun stroke =>
                 fix_dotted_path_alignment_output.stroke_commands stroke use_curves 0 stroke [])
              (filter (fun stroke => negb (is_nil stroke)) svg_strokes)).
  rewrite map_map. split; [reflexivity|].
  induction svg_strokes as [|stroke rest IH]; [constructor|].
  cbn [filter]. destruct stroke as [|[x y] ps]; cbn [is_nil negb]; [exact IH|].
  cbn [map]. constructor; [|exact IH].
  split; [rewrite stroke_commands_length; reflexivity|].
  exists x, y. cbn [fix_dotted_path_alignment_output.stroke_commands Nat.eqb].
  destruct (stroke_commands_acc ((x, y) :: ps) ps use_curves 1
              ([] ++ [("M " ++ extract_telugu.format_1f x ++ " "
                         ++ extract_telugu.format_1f y)%string])) as [more E].
  exists more. split; [reflexivity|]. rewrite E. reflexivity.
Qed.

(** [convert_points] with a fit of scale zero: the bare [except] hides
    the division by zero of every entry. *)
Lemma reverse_transform_point_zero_scale (nx ny v : Q) (t : Transform Q) :
  scale t == 0 ->
  fix_dotted_path_alignment.reverse_transform_point nx ny t v = Raise ZeroDivisionError.
Proof.
  intros Hs. unfold fix_dotted_path_alignment.reverse_transform_point.
  rewrite (truediv_Q_zero _ _ Hs). reflexivity.
Qed.

(** X18: with a fit whose scale is zero, [convert_points] converts no
    entry at all: the division by zero raised for each entry is swallowed
    and the points collected so far are returned unchanged. *)
Theorem convert_points_zero_scale (points : list string) (t : Transform Q) (v : Q)
        (svg_points : list (Q * Q)) :
  scale t == 0 ->
  fix_dotted_path_alignment.convert_points points t v svg_points = svg_points.
Proof.
  intros Hs. revert svg_points. induction points as [|p points IH]; intros acc; [reflexivity|].
  cbn [fix_dotted_path_alignment.convert_points].
  destruct (fix_dotted_path_alignment.decode_point p) as [[x y]|e]; cbn [bind fst snd].
  - rewrite (reverse_transform_point_zero_scale x y v t Hs). apply IH.
  - apply IH.
Qed.

Lemma convert_points_zero_scale_witness :
  fix_dotted_path_alignment.convert_points
    ["0.5,0.5"; "0.25,0.75"]%string (mkTransform 0 10 20) 300 [] = [].
Proof.
  apply (convert_points_zero_scale ["0.5,0.5"; "0.25,0.75"]%string (mkTransform 0 10 20) 300 []).
  reflexivity.
Defined.

(** ** Printing and reading numbers *)

Lemma digit_char (d : Z) :
  (0 <= d < 10)%Z ->
  Str.is_digit (ascii_of_N (Z.to_N (48 + d))) = true
  /\ Str.digit_value (ascii_of_N (Z.to_N (48 + d))) = d.
Proof.
  intros H.
  assert (E : (d = 0 \/ d = 1 \/ d = 2 \/ d = 3 \/ d = 4 \/ d = 5 \/ d = 6 \/ d = 7
               \/ d = 8 \/ d = 9)%Z) by lia.
  repeat (destruct E as [->|E]; [split; reflexivity|]). subst d. split; reflexivity.
Qed.

Lemma digit_not_sign (c : ascii) :
  Str.is_digit c = true ->
  Ascii.eqb c "-" = false /\ Ascii.eqb c "+" = false /\ Ascii.eqb c "." = false
  /\ Str.is_space c = false.
Proof.
  destruct c as [[] [] [] [] [] [] [] []]; intros H; try discriminate H;
    repeat split; reflexivity.
Qed.

Lemma pos_digits_app (fuel : nat) (n : Z) (acc rest : string) :
  (Str.pos_digits fuel n acc ++ rest)%string = Str.pos_digits fuel n (acc ++ rest).
Proof.
  revert n acc. induction fuel as [|fuel IH]; intros n acc; [reflexivity|].
  cbn [Str.pos_digits]. destruct (n <? 10)%Z; [reflexivity|]. rewrite IH. reflexivity.
Qed.

(** Reading back the digits printed for [n]. *)
Lemma digits_pos_digits (fuel : nat) :
  forall n : Z,
    (0 <= n < 10 ^ Z.of_nat (S fuel))%Z ->
    exists k : nat,
      (1 <= k)%nat
      /\ forall (acc : string) (a : Z) (c : nat),
          Float.digits (Str.pos_digits (S fuel) n acc) a c
          = Float.digits acc (a * 10 ^ Z.of_nat k + n)%Z (c + k)%nat.
Proof.
  induction fuel as [|fuel IH]; intros n Hn.
  - exists 1%nat. split; [lia|]. intros acc a c.
    assert (Hlt : (n <? 10)%Z = true) by (apply Z.ltb_lt; cbn in Hn; lia).
    cbn [Str.pos_digits]. rewrite Hlt.
    assert (Hd : (0 <= n mod 10 < 10)%Z) by (apply Z.mod_pos_bound; lia).
    destruct (digit_char _ Hd) as [D1 D2].
    cbn [Float.digits]. rewrite D1, D2.
    rewrite Z.mod_small by (cbn in Hn; lia).
    replace (a * 10 ^ Z.of_nat 1 + n)%Z with (10 * a + n)%Z
        by (change (Z.of_nat 1) with 1%Z; rewrite Z.pow_1_r; lia).
    replace (c + 1)%nat with (S c) by lia. reflexivity.
  - destruct (Z.ltb_spec n 10) as [Hlt|Hge].
    + exists 1%nat. split; [lia|]. intros acc a c.
      assert (Hlt' : (n <? 10)%Z = true) by (apply Z.ltb_lt; lia).
      change (Str.pos_digits (S (S fuel)) n acc)
        with (let acc' := String (ascii_of_N (Z.to_N (48 + n mod 10))) acc in
              if (n <? 10)%Z then acc' else Str.pos_digits (S fuel) (n / 10) acc').
      cbn zeta. rewrite Hlt'.
      assert (Hd : (0 <= n mod 10 < 10)%Z) by (apply Z.mod_pos_bound; lia).
      destruct (digit_char _ Hd) as [D1 D2].
      cbn [Float.digits]. rewrite D1, D2.
      rewrite Z.mod_small by lia.
      replace (a * 10 ^ Z.of_nat 1 + n)%Z with (10 * a + n)%Z
        by (change (Z.of_nat 1) with 1%Z; rewrite Z.pow_1_r; lia).
      replace (c + 1)%nat with (S c) by lia. reflexivity.
    + assert (Hdiv : (0 <= n / 10 < 10 ^ Z.of_nat (S fuel))%Z).
      { split; [apply Z.div_pos; lia|].
        apply Z.div_lt_upper_bound; [lia|].
        replace (10 * 10 ^ Z.of_nat (S fuel))%Z with (10 ^ Z.of_nat (S (S fuel)))%Z; [lia|].
        rewrite (Nat2Z.inj_succ (S fuel)), Z.pow_succ_r by lia. reflexivity. }
      destruct (IH (n / 10)%Z Hdiv) as (k & Hk & Hread).
      exists (S k). split; [lia|]. intros acc a c.
      assert (Hlt' : (n <? 10)%Z = false) by (apply Z.ltb_ge; lia).
      change (Str.pos_digits (S (S fuel)) n acc)
        with (let acc' := String (ascii_of_N (Z.to_N (48 + n mod 10))) acc in
              if (n <? 10)%Z then acc' else Str.pos_digits (S fuel) (n / 10) acc').
      cbn zeta. rewrite Hlt', Hread.
      assert (Hd : (0 <= n mod 10 < 10)%Z) by (apply Z.mod_pos_bound; lia).
      destruct (digit_char _ Hd) as [D1 D2].
      cbn [Float.digits]. rewrite D1, D2.
      replace (c + S k)%nat with (S (c + k)) by lia.
      replace (a * 10 ^ Z.of_nat (S k) + n)%Z
        with (10 * (a * 10 ^ Z.of_nat k + n / 10) + n mod 10)%Z; [reflexivity|].
      rewrite (Nat2Z.inj_succ k), Z.pow_succ_r by lia.
      pose proof (Z.div_mod n 10 ltac:(lia)). lia.
Qed.

Lemma of_int_fuel (n : Z) :
  (0 <= n)%Z -> (0 <= n < 10 ^ Z.of_nat (S (Z.to_nat (Z.log2 n))))%Z.
Proof.
  intros Hn. split; [exact Hn|].
  rewrite Nat2Z.inj_succ, Z2Nat.id by apply Z.log2_nonneg.
  destruct (Z.eq_dec n 0) as [->|Hnz]; [reflexivity|].
  destruct (Z.log2_spec n ltac:(lia)) as [_ Hlt].
  eapply Z.lt_le_trans; [exact Hlt|].
  apply Z.pow_le_mono_l. lia.
Qed.

Lemma of_int_nonneg (n : Z) :
  (0 <= n)%Z -> Str.of_int n = Str.pos_digits (S (Z.to_nat (Z.log2 n))) n EmptyString.
Proof.
  intros Hn. unfold Str.of_int.
  destruct (Z.ltb_spec n 0); [lia | reflexivity].
Qed.

Lemma of_int_one_digit (d : Z) :
  (0 <= d < 10)%Z ->
  Str.of_int d = String (ascii_of_N (Z.to_N (48 + d))) EmptyString.
Proof.
  intros H.
  assert (E : (d = 0 \/ d = 1 \/ d = 2 \/ d = 3 \/ d = 4 \/ d = 5 \/ d = 6 \/ d = 7
               \/ d = 8 \/ d = 9)%Z) by lia.
  repeat (destruct E as [->|E]; [reflexivity|]). subst d. reflexivity.
Qed.

(** The decimal string of a natural number begins with a digit and
    contains no whitespace. *)
Lemma pos_digits_shape (fuel : nat) (n : Z) (acc : string) :
  (0 <= n)%Z -> space_free acc = true ->
  space_free (Str.pos_digits (S fuel) n acc) = true
  /\ exists d r, Str.pos_digits (S fuel) n acc = String d r /\ Str.is_digit d = true.
Proof.
  revert n acc. induction fuel as [|fuel IH]; intros n acc Hn Hacc.
  - assert (Hd : (0 <= n mod 10 < 10)%Z) by (apply Z.mod_pos_bound; lia).
    destruct (digit_char _ Hd) as [D1 _]. destruct (digit_not_sign _ D1) as (_ & _ & _ & Hs).
    cbn [Str.pos_digits].
    assert (E : (if (n <? 10)%Z
                 then String (ascii_of_N (Z.to_N (48 + n mod 10))) acc
                 else String (ascii_of_N (Z.to_N (48 + n mod 10))) acc)
                = String (ascii_of_N (Z.to_N (48 + n mod 10))) acc)
      by (destruct (n <? 10)%Z; reflexivity).
    rewrite E. split.
    + cbn [space_free]. rewrite Hs, Hacc. reflexivity.
    + eexists; eexists. split; [reflexivity | exact D1].
  - assert (Hd : (0 <= n mod 10 < 10)%Z) by (apply Z.mod_pos_bound; lia).
    destruct (digit_char _ Hd) as [D1 _]. destruct (digit_not_sign _ D1) as (_ & _ & _ & Hs).
    change (Str.pos_digits (S (S fuel)) n acc)
      with (let acc' := String (ascii_of_N (Z.to_N (48 + n mod 10))) acc in
            if (n <? 10)%Z then acc' else Str.pos_digits (S fuel) (n / 10) acc').
    cbn zeta. destruct (n <? 10)%Z.
    + split.
      * cbn [space_free]. rewrite Hs, Hacc. reflexivity.
      * eexists; eexists. split; [reflexivity | exact D1].
    + apply IH; [apply Z.div_pos; lia|]. cbn [space_free]. rewrite Hs, Hacc. reflexivity.
Qed.

Lemma strip_space_free (s : string) : space_free s = true -> Str.strip s = s.
Proof.
  intros H. unfold Str.strip.
  assert (Hl : Str.lstrip s = s).
  { destruct s as [|c r]; [reflexivity|]. cbn in H. apply andb_true_iff in H as [Hc _].
    apply negb_true_iff in Hc. cbn. rewrite Hc. reflexivity. }
  rewrite Hl. induction s as [|c r IH]; [reflexivity|].
  cbn in H. apply andb_true_iff in H as [Hc Hr]. apply negb_true_iff in Hc.
  cbn [Str.rstrip]. rewrite Hc. cbn [andb]. f_equal. apply IH; [exact Hr|].
  destruct r as [|c' r']; [reflexivity|]. cbn in Hr. apply andb_true_iff in Hr as [Hc' _].
  apply negb_true_iff in Hc'. cbn. rewrite Hc'. reflexivity.
Qed.

(** Reading a printed natural number that is followed by [rest]. *)
Lemma digits_of_int (n : Z) (rest : string) (a : Z) (c : nat) :
  (0 <= n)%Z ->
  exists k : nat,
    (1 <= k)%nat
    /\ Float.digits (Str.of_int n ++ rest) a c
       = Float.digits rest (a * 10 ^ Z.of_nat k + n)%Z (c + k)%nat.
Proof.
  intros Hn. rewrite (of_int_nonneg n Hn), pos_digits_app. cbn [append].
  destruct (digits_pos_digits _ n (of_int_fuel n Hn)) as (k & Hk & Hread).
  exists k. split; [exact Hk | apply Hread].
Qed.

Lemma number_text_app (s t : string) :
  number_text s = true -> number_text t = true -> number_text (s ++ t) = true.
Proof.
  intros Hs Ht. induction s as [|c r IH]; [exact Ht|].
  cbn in *. apply andb_true_iff in Hs as [Hc Hr]. rewrite Hc. cbn. apply IH, Hr.
Qed.

Lemma pos_digits_number_text (fuel : nat) (n : Z) (acc : string) :
  (0 <= n)%Z -> number_text acc = true -> number_text (Str.pos_digits fuel n acc) = true.
Proof.
  revert n acc. induction fuel as [|fuel IH]; intros n acc Hn Hacc; [exact Hacc|].
  assert (Hd : (0 <= n mod 10 < 10)%Z) by (apply Z.mod_pos_bound; lia).
  destruct (digit_char _ Hd) as [D1 _].
  assert (Hacc' : number_text (String (ascii_of_N (Z.to_N (48 + n mod 10))) acc) = true).
  { cbn [number_text]. rewrite D1, Hacc. reflexivity. }
  cbn [Str.pos_digits]. destruct (n <? 10)%Z; [exact Hacc'|].
  apply IH; [apply Z.div_pos; lia | exact Hacc'].
Qed.

(** A text made of digits, signs and points has nothing for [float] to
    strip and no underscore. *)
Lemma number_text_plain (s : string) :
  number_text s = true ->
  Float.strip s = s /\ Float.underscores Ascii.zero s = Some s.
Proof.
  intros H.
  assert (Hc : forall c, (Str.is_digit c || Ascii.eqb c "-" || Ascii.eqb c ".") = true ->
                         Float.is_space c = false /\ Ascii.eqb c "_" = false).
  { intros c. destruct c as [[] [] [] [] [] [] [] []]; intros Hc; try discriminate Hc;
      split; reflexivity. }
  split.
  - unfold Float.strip.
    assert (Hl : Float.lstrip s = s).
    { destruct s as [|c r]; [reflexivity|]. cbn in H. apply andb_true_iff in H as [H1 _].
      cbn. rewrite (proj1 (Hc c H1)). reflexivity. }
    rewrite Hl. induction s as [|c r IH]; [reflexivity|].
    cbn in H. apply andb_true_iff in H as [H1 Hr].
    cbn [Float.rstrip]. rewrite (proj1 (Hc c H1)). cbn [andb]. f_equal. apply IH; [exact Hr|].
    destruct r as [|c' r']; [reflexivity|]. cbn in Hr. apply andb_true_iff in Hr as [H2 _].
    cbn. rewrite (proj1 (Hc c' H2)). reflexivity.
  - assert (G : forall prev, Ascii.eqb prev "_" = false ->
                             Float.underscores prev s = Some s);
      [|apply G; reflexivity].
    induction s as [|c r IH]; intros prev Hp; cbn [Float.underscores].
    + rewrite Hp. reflexivity.
    + cbn in H. apply andb_true_iff in H as [H1 Hr].
      rewrite (proj2 (Hc c H1)), Hp. cbn [andb].
      rewrite (IH Hr c (proj2 (Hc c H1))). reflexivity.
Qed.

(** [float] on a string without exponent, step by step. *)
Lemma of_str_plain (s s1 s2 : string) (neg : bool) (ip m : Z) (n1 n2 : nat) :
  number_text s = true ->
  Float.sign s = (neg, s1) ->
  Float.digits s1 0 0 = (ip, n1, s2) ->
  match s2 with
  | String c r => if Ascii.eqb c "." then Float.digits r ip 0 else (ip, O, s2)
  | EmptyString => (ip, O, s2)
  end = (m, n2, EmptyString) ->
  (1 <= n1)%nat ->
  Float.of_str s = Ok (Float.decimal_value neg m (- Z.of_nat n2)).
Proof.
  intros Htext Hsign Hdig Hfrac Hn. unfold Float.of_str.
  destruct (number_text_plain s Htext) as [Hstrip Hplain].
  rewrite Hstrip, Hplain. unfold Float.literal. rewrite Hsign, Hdig, Hfrac.
  destruct (Nat.eqb_spec (n1 + n2) 0) as [E|_]; [lia | reflexivity].
Qed.

Lemma sign_digit (d : ascii) (r : string) :
  Str.is_digit d = true -> Float.sign (String d r) = (false, String d r).
Proof.
  intros H. destruct (digit_not_sign d H) as (Hm & Hp & _). cbn. rewrite Hm, Hp. reflexivity.
Qed.

Lemma append_empty (s : string) : (s ++ EmptyString)%string = s.
Proof. induction s as [|c r IH]; cbn; [reflexivity | rewrite IH; reflexivity]. Qed.

Lemma of_int_shape (n : Z) :
  (0 <= n)%Z ->
  space_free (Str.of_int n) = true
  /\ exists d r, Str.of_int n = String d r /\ Str.is_digit d = true.
Proof.
  intros Hn. rewrite (of_int_nonneg n Hn). apply pos_digits_shape; [exact Hn | reflexivity].
Qed.

(** Reading a printed integer. *)
Lemma of_str_of_int (z : Z) :
  exists q, Float.of_str (Str.of_int z) = Ok q /\ q == inject_Z z.
Proof.
  destruct (Z.ltb_spec z 0) as [Hneg|Hpos].
  - (* "-" followed by the digits of -z *)
    assert (Hn : (0 <= - z)%Z) by lia.
    destruct (of_int_shape (- z) Hn) as (Hsf & d & r & Hshape & Hd).
    destruct (digits_of_int (- z) EmptyString 0 0 Hn) as (k & Hk & Hread).
    rewrite append_empty in Hread.
    assert (E : Str.of_int z = String "-" (Str.of_int (- z))).
    { unfold Str.of_int at 1. destruct (Z.ltb_spec z 0); [|lia].
      rewrite (of_int_nonneg _ Hn). reflexivity. }
    eexists. split.
    + rewrite E. eapply (of_str_plain _ (Str.of_int (- z)) EmptyString true _ _ k 0).
      * cbn [number_text orb Ascii.eqb Bool.eqb andb].
        rewrite (of_int_nonneg _ Hn), orb_true_r.
        apply pos_digits_number_text; [exact Hn | reflexivity].
      * reflexivity.
      * rewrite Hread. reflexivity.
      * reflexivity.
      * exact Hk.
    + unfold Float.decimal_value. cbn [Z.of_nat Z.opp Z.leb Z.compare].
      unfold Qeq. cbn. lia.
  - destruct (of_int_shape z Hpos) as (Hsf & d & r & Hshape & Hd).
    destruct (digits_of_int z EmptyString 0 0 Hpos) as (k & Hk & Hread).
    rewrite append_empty in Hread.
    eexists. split.
    + eapply (of_str_plain _ (Str.of_int z) EmptyString false _ _ k 0).
      * rewrite (of_int_nonneg _ Hpos).
        apply pos_digits_number_text; [exact Hpos | reflexivity].
      * rewrite Hshape. apply sign_digit, Hd.
      * rewrite Hread. reflexivity.
      * reflexivity.
      * exact Hk.
    + unfold Float.decimal_value. cbn [Z.of_nat Z.opp Z.leb Z.compare].
      unfold Qeq. cbn. lia.
Qed.

Lemma format_1f_unfold (n : Q) :
  extract_telugu.format_1f n
  = ((if Qltb n 0 then "-" else "")
       ++ Str.of_int (printed_tenths n / 10) ++ "."
       ++ Str.of_int (printed_tenths n mod 10))%string.
Proof. reflexivity. Qed.

Lemma printed_tenths_close (n : Q) :
  (0 <= printed_tenths n)%Z
  /\ - (1 # 2) <= inject_Z (printed_tenths n) - Qabs n * 10
  /\ inject_Z (printed_tenths n) - Qabs n * 10 <= 1 # 2.
Proof.
  unfold printed_tenths. set (scaled := Qabs n * 10).
  assert (Hs : 0 <= scaled).
  { unfold scaled. pose proof (Qabs_nonneg n). lra. }
  pose proof (Qfloor_le scaled) as Hfl. pose proof (Qlt_floor scaled) as Hfu.
  set (fl := Qfloor scaled) in *.
  assert (Hfl0 : (0 <= fl)%Z).
  { assert (H : inject_Z 0 < inject_Z (fl + 1)) by (change (inject_Z 0) with 0; lra).
    rewrite <- Zlt_Qlt in H. lia. }
  rewrite inject_Z_plus in Hfu. change (inject_Z 1) with 1 in Hfu.
  cbn zeta.
  destruct (Qltb (scaled - inject_Z fl) (1 # 2)) eqn:E1.
  { apply Qltb_lt in E1. repeat split; [exact Hfl0 | lra | lra]. }
  apply Qltb_ge in E1.
  destruct (Qltb (1 # 2) (scaled - inject_Z fl)) eqn:E2.
  { apply Qltb_lt in E2. rewrite inject_Z_plus. change (inject_Z 1) with 1.
    repeat split; [lia | lra | lra]. }
  apply Qltb_ge in E2.
  destruct (Z.even fl).
  - repeat split; [exact Hfl0 | lra | lra].
  - rewrite inject_Z_plus. change (inject_Z 1) with 1. repeat split; [lia | lra | lra].
Qed.

(** Reading the digits that [f"{n:.1f}"] prints after the sign. *)
Lemma of_str_tenths (neg : bool) (s : string) (T : Z) :
  (0 <= T)%Z ->
  number_text s = true ->
  Float.sign s = (neg, (Str.of_int (T / 10) ++ "." ++ Str.of_int (T mod 10))%string) ->
  Float.of_str s = Ok (Qmake (if neg then - T else T) 10).
Proof.
  intros HT Hstrip Hsign.
  assert (Hhi : (0 <= T / 10)%Z) by (apply Z.div_pos; lia).
  assert (Hlo : (0 <= T mod 10 < 10)%Z) by (apply Z.mod_pos_bound; lia).
  destruct (digits_of_int (T / 10) ("." ++ Str.of_int (T mod 10)) 0 0 Hhi)
    as (k & Hk & Hread).
  destruct (digit_char _ Hlo) as [D1 D2].
  rewrite (of_str_plain s _ (String "." (Str.of_int (T mod 10))) neg
             (0 * 10 ^ Z.of_nat k + T / 10) (10 * (0 * 10 ^ Z.of_nat k + T / 10) + T mod 10)
             k 1 Hstrip Hsign).
  - unfold Float.decimal_value. cbn [Z.of_nat Pos.of_succ_nat Z.opp Z.leb Z.compare].
    replace (10 * (0 * 10 ^ Z.of_nat k + T / 10) + T mod 10)%Z with T
      by (pose proof (Z.div_mod T 10 ltac:(lia)); lia).
    reflexivity.
  - rewrite Hread. reflexivity.
  - cbn [Ascii.eqb Bool.eqb andb]. rewrite (of_int_one_digit _ Hlo).
    cbn [Float.digits]. rewrite D1, D2. reflexivity.
  - exact Hk.
Qed.

(** The text of [f"{n:.1f}"]: digits, sign and point only, and not
    empty. *)
Lemma format_1f_text (n : Q) :
  number_text (extract_telugu.format_1f n) = true
  /\ exists c r, extract_telugu.format_1f n = String c r.
Proof.
  destruct (printed_tenths_close n) as (HT & _).
  assert (Hhi : (0 <= printed_tenths n / 10)%Z) by (apply Z.div_pos; lia).
  assert (Hlo : (0 <= printed_tenths n mod 10)%Z) by (apply Z.mod_pos_bound; lia).
  destruct (of_int_shape _ Hhi) as (_ & d & r & Hshape & Hd).
  assert (N1 : number_text (Str.of_int (printed_tenths n / 10)) = true).
  { rewrite (of_int_nonneg _ Hhi). apply pos_digits_number_text; [exact Hhi | reflexivity]. }
  assert (N2 : number_text (Str.of_int (printed_tenths n mod 10)) = true).
  { rewrite (of_int_nonneg _ Hlo). apply pos_digits_number_text; [exact Hlo | reflexivity]. }
  assert (Hbody : number_text (Str.of_int (printed_tenths n / 10) ++ "."
                                 ++ Str.of_int (printed_tenths n mod 10)) = true).
  { apply number_text_app; [exact N1|]. cbn [append number_text]. rewrite N2. reflexivity. }
  rewrite format_1f_unfold. cbn [append] in Hbody. split.
  - destruct (Qltb n 0); cbn [append number_text]; rewrite Hbody; reflexivity.
  - destruct (Qltb n 0); cbn [append].
    + eexists; eexists. reflexivity.
    + rewrite Hshape. cbn [append]. eexists; eexists. reflexivity.
Qed.

Lemma format_1f_reads (n : Q) :
  Float.of_str (extract_telugu.format_1f n)
  = Ok (Qmake (if Qltb n 0 then - printed_tenths n else printed_tenths n) 10).
Proof.
  destruct (printed_tenths_close n) as (HT & _).
  assert (Hhi : (0 <= printed_tenths n / 10)%Z) by (apply Z.div_pos; lia).
  assert (Hlo : (0 <= printed_tenths n mod 10)%Z) by (apply Z.mod_pos_bound; lia).
  destruct (of_int_shape _ Hhi) as (Hsf1 & d & r & Hshape & Hd).
  apply of_str_tenths; [exact HT | |].
  - apply format_1f_text.
  - rewrite format_1f_unfold. destruct (Qltb n 0); cbn [append].
    + reflexivity.
    + rewrite Hshape. cbn [append]. apply sign_digit, Hd.
Qed.

Lemma format_1f_close (n : Q) :
  exists v, Float.of_str (extract_telugu.format_1f n) = Ok v /\ Qabs (v - n) <= 1 # 20.
Proof.
  eexists. split; [apply format_1f_reads|].
  destruct (printed_tenths_close n) as (_ & Hlo & Hhi).
  set (T := printed_tenths n) in *. clearbody T.
  apply Qabs_Qle_condition.
  destruct (Qltb n 0) eqn:E.
  - apply Qltb_lt in E. rewrite (Qabs_neg n) in Hlo, Hhi by lra.
    rewrite (Qmake_Qdiv (- T) 10), inject_Z_opp.
    assert (F : - inject_Z T / inject_Z 10 == - (inject_Z T * (1 # 10))) by field.
    rewrite F. split; lra.
  - apply Qltb_ge in E. rewrite (Qabs_pos n) in Hlo, Hhi by lra.
    rewrite (Qmake_Qdiv T 10).
    assert (F : inject_Z T / inject_Z 10 == inject_Z T * (1 # 10)) by field.
    rewrite F. split; lra.
Qed.

Lemma printed_tenths_exact (n : Q) (z : Z) :
  n * 10 == inject_Z z -> printed_tenths n = Z.abs z.
Proof.
  intros Hz. unfold printed_tenths.
  assert (Es : Qabs n * 10 == inject_Z (Z.abs z)).
  { assert (E : Qabs (n * 10) == Qabs (inject_Z z)) by (rewrite Hz; reflexivity).
    rewrite Qabs_Qmult in E. exact E. }
  assert (Efl : Qfloor (Qabs n * 10) = Z.abs z).
  { rewrite (Qfloor_comp _ _ Es). apply Qfloor_Z. }
  rewrite Efl. cbn zeta.
  assert (Er : Qltb (Qabs n * 10 - inject_Z (Z.abs z)) (1 # 2) = true).
  { apply Qltb_lt. rewrite Es. lra. }
  rewrite Er. reflexivity.
Qed.

(** X20: the text [transform_path] writes for an operand is a decimal
    numeral whose value is within 0.05 of the operand, and is the
    operand itself when the operand is an integer or has a single
    decimal.  The value of the numeral is taken exactly, as
    [Float.of_str] gives it; [float], reading the text back in
    binary64, rounds that value. *)
Theorem format_number_round_trip (n : Q) :
  exists v,
    Float.of_str (extract_telugu.format_number n) = Ok v
    /\ Qabs (v - n) <= 1 # 20
    /\ ((exists z, n * 10 == inject_Z z) -> v == n).
Proof.
  unfold extract_telugu.format_number.
  destruct (Qeq_bool n (inject_Z (extract_telugu.to_int n))) eqn:E; cbn [negb].
  - apply Qeq_bool_iff in E.
    destruct (of_str_of_int (extract_telugu.to_int n)) as (v & Hv & Ev).
    exists v. split; [exact Hv|].
    assert (Evn : v == n) by (rewrite Ev, <- E; reflexivity).
    split; [|intros _; exact Evn].
    rewrite Evn. setoid_replace (n - n) with 0 by ring. discriminate.
  - destruct (format_1f_close n) as (v & Hv & Hclose).
    exists v. split; [exact Hv|]. split; [exact Hclose|].
    intros (z & Hz). rewrite format_1f_reads in Hv. injection Hv as <-.
    rewrite (printed_tenths_exact n z Hz).
    destruct (Qltb n 0) eqn:S.
    + apply Qltb_lt in S.
      assert (Hzneg : (z < 0)%Z).
      { assert (H : inject_Z z < inject_Z 0) by (rewrite <- Hz; change (inject_Z 0) with 0; lra).
        rewrite <- Zlt_Qlt in H. exact H. }
      rewrite (Qmake_Qdiv (- Z.abs z) 10).
      replace (- Z.abs z)%Z with z by lia. rewrite <- Hz. field.
    + apply Qltb_ge in S.
      assert (Hzpos : (0 <= z)%Z).
      { assert (H : inject_Z 0 <= inject_Z z) by (rewrite <- Hz; change (inject_Z 0) with 0; lra).
        rewrite <- Zle_Qle in H. exact H. }
      rewrite (Qmake_Qdiv (Z.abs z) 10).
      replace (Z.abs z) with z by lia. rewrite <- Hz. field.
Qed.

Lemma format_number_round_trip_witness :
  exists v,
    Float.of_str (extract_telugu.format_number (-37 # 10)) = Ok v
    /\ Qabs (v - (-37 # 10)) <= 1 # 20
    /\ v == -37 # 10.
Proof.
  destruct (format_number_round_trip (-37 # 10)) as (v & Hv & Hc & He).
  exists v. split; [exact Hv|]. split; [exact Hc|].
  apply He. exists (-37)%Z. reflexivity.
Defined.

(** ** A generated path, parsed back *)

Lemma number_char (c : ascii) :
  (Str.is_digit c || Ascii.eqb c "-" || Ascii.eqb c ".") = true ->
  Str.is_space c = false /\ Re.is_coord_char c = true /\ Ascii.eqb c "," = false.
Proof.
  destruct c as [[] [] [] [] [] [] [] []]; intros H; try discriminate H;
    repeat split; reflexivity.
Qed.

Lemma number_text_space_free (s : string) : number_text s = true -> space_free s = true.
Proof.
  induction s as [|c r IH]; [reflexivity|]. cbn. intros H.
  apply andb_true_iff in H as [Hc Hr]. destruct (number_char c Hc) as (Hs & _).
  rewrite Hs. cbn. apply IH, Hr.
Qed.

Lemma coord_text_app (s t : string) :
  coord_text s = true -> coord_text t = true -> coord_text (s ++ t) = true.
Proof.
  intros Hs Ht. induction s as [|c r IH]; [exact Ht|].
  cbn in *. apply andb_true_iff in Hs as [Hc Hr]. rewrite Hc. cbn. apply IH, Hr.
Qed.

Lemma number_text_coord_text (s : string) : number_text s = true -> coord_text s = true.
Proof.
  induction s as [|c r IH]; [reflexivity|]. cbn. intros H.
  apply andb_true_iff in H as [Hc Hr]. destruct (number_char c Hc) as (_ & Hk & _).
  rewrite Hk. cbn. apply IH, Hr.
Qed.

Lemma append_assoc (a b c : string) : ((a ++ b) ++ c)%string = (a ++ b ++ c)%string.
Proof. induction a as [|x a IH]; cbn; [reflexivity | rewrite IH; reflexivity]. Qed.

Lemma cmd_scan_coords_run (cmd : ascii) (acc s : string) :
  coord_text s = true ->
  Re.cmd_scan (Re.Coords cmd acc) s = [(cmd, (acc ++ s)%string)].
Proof.
  revert acc. induction s as [|c r IH]; intros acc H.
  - cbn. rewrite append_empty. reflexivity.
  - cbn in H. apply andb_true_iff in H as [Hc Hr].
    cbn [Re.cmd_scan]. rewrite Hc, (IH _ Hr), append_assoc. reflexivity.
Qed.

(** The pattern on the text of one generated command, alone or followed
    by the blank that joins it to the next. *)
Lemma findall_command_text (letter : ascii) (pt : Q * Q) (trail : string) :
  Re.is_command letter = true ->
  coord_text trail = true ->
  Re.cmd_scan Re.Search (command_text letter pt ++ trail)
  = [(letter, (extract_telugu.format_1f (fst pt) ++ String " "
                 (extract_telugu.format_1f (snd pt) ++ trail))%string)].
Proof.
  intros Hl Ht. unfold command_text.
  destruct (format_1f_text (fst pt)) as (Nx & cx & rx & Ex).
  destruct (format_1f_text (snd pt)) as (Ny & _).
  cbn [append Re.cmd_scan]. rewrite Hl.
  replace (Str.is_space " ") with true by reflexivity.
  rewrite Ex in *. cbn [append Re.cmd_scan].
  cbn [number_text] in Nx. apply andb_true_iff in Nx as [Hcx Nrx].
  destruct (number_char cx Hcx) as (Hs & Hk & _). rewrite Hs, Hk.
  rewrite cmd_scan_coords_run.
  - cbn [append]. rewrite append_assoc. reflexivity.
  - rewrite append_assoc. apply coord_text_app; [apply number_text_coord_text, Nrx|].
    cbn [append coord_text]. replace (Re.is_coord_char " ") with true by reflexivity.
    cbn [andb]. apply coord_text_app; [apply number_text_coord_text, Ny | exact Ht].
Qed.

Lemma replace_no_comma (s : string) :
  comma_free s = true -> Str.replace "," " " s = s.
Proof.
  intros H. induction s as [|c r IH]; [reflexivity|].
  unfold comma_free in H. cbn in H. apply andb_true_iff in H as [Hc Hr].
  apply negb_true_iff in Hc. cbn [Str.replace]. rewrite Hc, IH; [reflexivity | exact Hr].
Qed.

Lemma number_text_comma_free (s : string) : number_text s = true -> comma_free s = true.
Proof.
  unfold comma_free. induction s as [|c r IH]; [reflexivity|]. cbn. intros H.
  apply andb_true_iff in H as [Hc Hr]. destruct (number_char c Hc) as (_ & _ & Hk).
  rewrite Hk. cbn. apply IH, Hr.
Qed.

Lemma comma_free_app (s t : string) :
  comma_free s = true -> comma_free t = true -> comma_free (s ++ t) = true.
Proof.
  unfold comma_free. intros Hs Ht. induction s as [|c r IH]; [exact Ht|].
  cbn in *. apply andb_true_iff in Hs as [Hc Hr]. rewrite Hc. cbn. apply IH, Hr.
Qed.

Lemma split_ws_from_word (w cur rest : string) :
  space_free w = true ->
  Str.split_ws_from cur (w ++ rest) = Str.split_ws_from (cur ++ w) rest.
Proof.
  revert cur. induction w as [|c r IH]; intros cur H.
  - cbn. rewrite append_empty. reflexivity.
  - cbn in H. apply andb_true_iff in H as [Hc Hr]. apply negb_true_iff in Hc.
    cbn [append Str.split_ws_from]. rewrite Hc, (IH _ Hr), append_assoc. reflexivity.
Qed.

(** [split()] on two words separated by a blank, with or without a blank
    at the end. *)
Lemma split_ws_two_words (a b : string) (trail : bool) :
  space_free a = true -> space_free b = true ->
  Str.is_empty a = false -> Str.is_empty b = false ->
  Str.split_ws (a ++ String " " (b ++ (if trail then " " else "")))%string = [a; b].
Proof.
  intros Ha Hb Na Nb. unfold Str.split_ws.
  rewrite (split_ws_from_word a EmptyString _ Ha). cbn [append Str.split_ws_from].
  replace (Str.is_space " ") with true by reflexivity. rewrite Na.
  rewrite (split_ws_from_word b EmptyString _ Hb). cbn [append].
  destruct trail; cbn [Str.split_ws_from].
  - replace (Str.is_space " ") with true by reflexivity. rewrite Nb. reflexivity.
  - rewrite Nb. reflexivity.
Qed.

Lemma is_empty_cons (s : string) : (exists c r, s = String c r) -> Str.is_empty s = false.
Proof. intros (c & r & ->). reflexivity. Qed.

(** The operands read from the text of one generated command. *)
Lemma operands_command_text (pt : Q * Q) (trail : bool) :
  exists a b,
    operands (extract_telugu.format_1f (fst pt) ++ String " "
                (extract_telugu.format_1f (snd pt) ++ (if trail then " " else "")))%string
    = [a; b]
    /\ Qabs (a - fst pt) <= 1 # 20 /\ Qabs (b - snd pt) <= 1 # 20.
Proof.
  destruct (format_1f_text (fst pt)) as (Nx & Ex).
  destruct (format_1f_text (snd pt)) as (Ny & Ey).
  destruct (format_1f_close (fst pt)) as (a & Ha & Ca).
  destruct (format_1f_close (snd pt)) as (b & Hb & Cb).
  exists a, b. split; [|split; assumption].
  unfold operands. rewrite replace_no_comma.
  - rewrite split_ws_two_words;
      try (apply number_text_space_free; assumption);
      try (apply is_empty_cons; assumption).
    unfold well_formed_values. cbn [flat_map]. rewrite Ha, Hb. reflexivity.
  - apply comma_free_app; [apply number_text_comma_free, Nx|].
    change (String " " ?x) with (" " ++ x)%string.
    apply comma_free_app; [reflexivity|].
    apply comma_free_app; [apply number_text_comma_free, Ny|].
    destruct trail; reflexivity.
Qed.

Lemma trail_coord_text (trail : bool) : coord_text (if trail then " " else "") = true.
Proof. destruct trail; reflexivity. Qed.

(** One generated MoveTo or LineTo command, parsed. *)
Lemma parse_command_text (letter : ascii) (pt : Q * Q) (trail : bool) :
  letter = "M"%char \/ letter = "L"%char ->
  exists c,
    filter kept (map vp_command
                     (Re.cmd_scan Re.Search
                        (command_text letter pt ++ (if trail then " " else ""))))
    = [c]
    /\ command_near letter pt c.
Proof.
  intros Hl.
  assert (Hcmd : Re.is_command letter = true) by (destruct Hl as [->| ->]; reflexivity).
  rewrite (findall_command_text letter pt _ Hcmd (trail_coord_text trail)).
  destruct (operands_command_text pt trail) as (a & b & Hop & Ca & Cb).
  destruct (format_1f_text (fst pt)) as (_ & cx & rx & Ex).
  exists (letter, [a; b]). split.
  - cbn [map vp_command]. rewrite Hop.
    assert (Hne : Str.is_empty
                    (extract_telugu.format_1f (fst pt) ++ String " "
                       (extract_telugu.format_1f (snd pt) ++ (if trail then " " else "")))
                  = false) by (rewrite Ex; reflexivity).
    rewrite Hne. destruct Hl as [-> | ->]; reflexivity.
  - split; [reflexivity|]. exists a, b. repeat split; assumption.
Qed.

(** A generated MoveTo followed by generated LineTo commands, parsed. *)
Lemma parse_joined_commands (letter : ascii) (pt : Q * Q) (later : list (Q * Q)) :
  letter = "M"%char \/ letter = "L"%char ->
  exists c cs,
    filter kept (map vp_command
                     (Re.cmd_scan Re.Search
                        (Str.join " " (command_text letter pt
                                         :: map (command_text "L") later))))
    = c :: cs
    /\ command_near letter pt c
    /\ Forall2 (command_near "L") later cs.
Proof.
  revert letter pt. induction later as [|q later IH]; intros letter pt Hl.
  - destruct (parse_command_text letter pt false Hl) as (c & E & Hc).
    exists c, []. cbn [map Str.join]. rewrite append_empty in E.
    split; [exact E|]. split; [exact Hc | constructor].
  - destruct (parse_command_text letter pt true Hl) as (c & E & Hc).
    destruct (IH "L"%char q (or_intror eq_refl)) as (c' & cs & E' & Hc' & Hcs).
    exists c, (c' :: cs).
    cbn [map]. cbn [map] in E'.
    change (Str.join " " (command_text letter pt :: command_text "L" q
                            :: map (command_text "L") later))
      with (command_text letter pt ++ " "
              ++ Str.join " " (command_text "L" q :: map (command_text "L") later))%string.
    assert (Hstart : exists r, Str.join " " (command_text "L" q :: map (command_text "L") later)
                               = String "L" r).
    { destruct later; cbn [map Str.join]; unfold command_text; cbn [append];
        eexists; reflexivity. }
    destruct Hstart as [r Hr]. rewrite Hr in *.
    rewrite <- append_assoc, (cmd_scan_app_command _ Re.Search "L" r eq_refl).
    rewrite map_app, filter_app, E, E'. cbn [app].
    split; [reflexivity|]. split; [exact Hc|]. constructor; assumption.
Qed.

Lemma path_loop_later_spec (view_size : Q) (entries : list string) (i : nat)
      (acc : list string) :
  generate_dotted_path.path_loop view_size (S i) entries acc
  = acc ++ map (command_text "L") (display_points entries view_size).
Proof.
  revert i acc. induction entries as [|e entries IH]; intros i acc.
  - cbn. rewrite app_nil_r. reflexivity.
  - cbn [generate_dotted_path.path_loop Nat.eqb display_points flat_map].
    destruct (generate_dotted_path.parse_point e) as [[x|] [y|]];
      try (rewrite IH; reflexivity).
    rewrite IH. cbn [app map]. rewrite <- app_assoc. reflexivity.
Qed.

(** X21: in exact arithmetic, when the first entry of a stroke is a
    pair of decimal numerals, the path written by [points_to_svg_path]
    parses back to one M command for the first point and one L command
    for every other entry that is a pair of decimal numerals, in order,
    each with two operands within 0.05 of the display-space coordinates
    of its point.  Numerals and coordinates are taken with their exact
    values (in binary64 each is rounded), and the words [inf] and [nan]
    are no numerals. *)
Theorem dotted_path_parses_back (p : string) (rest : list string) (view_size x y : Q) :
  generate_dotted_path.parse_point p = (Some x, Some y) ->
  exists c cs,
    fix_json_alignment.parse_svg_path
      (generate_dotted_path.points_to_svg_path (p :: rest) view_size) = Ok (c :: cs)
    /\ command_near "M" (x * view_size, y * view_size) c
    /\ Forall2 (command_near "L") (display_points rest view_size) cs.
Proof.
  intros Hp.
  destruct (parse_joined_commands "M" (x * view_size, y * view_size)
              (display_points rest view_size) (or_introl eq_refl))
    as (c & cs & E & Hc & Hcs).
  exists c, cs. split; [|split; assumption].
  unfold fix_json_alignment.parse_svg_path, generate_dotted_path.points_to_svg_path.
  rewrite fja_parse_matches_spec. cbn [app].
  cbn [generate_dotted_path.path_loop Nat.eqb]. rewrite Hp.
  rewrite path_loop_later_spec. cbn [app].
  unfold Re.findall_commands.
  change ("M " ++ extract_telugu.format_1f (x * view_size) ++ " "
            ++ extract_telugu.format_1f (y * view_size))%string
    with (command_text "M" (x * view_size, y * view_size)).
  rewrite E. reflexivity.
Qed.

Lemma dotted_path_parses_back_witness :
  exists c cs,
    fix_json_alignment.parse_svg_path
      (generate_dotted_path.points_to_svg_path
         ["0.5,0.3"; "oops"; "0.61, 0.4"]%string 1000) = Ok (c :: cs)
    /\ command_near "M" ((5 # 10) * 1000, (3 # 10) * 1000) c
    /\ Forall2 (command_near "L") (display_points ["oops"; "0.61, 0.4"]%string 1000) cs.
Proof.
  apply (dotted_path_parses_back "0.5,0.3"%string ["oops"; "0.61, 0.4"]%string 1000
                                 (5 # 10) (3 # 10)).
  reflexivity.
Defined.

(** ** The three decoders of a point entry *)

Lemma float_space_is_space (c : ascii) : Float.is_space c = true -> Str.is_space c = true.
Proof. destruct c as [[] [] [] [] [] [] [] []]; intros H; try reflexivity; discriminate H. Qed.

Lemma float_lstrip_split (s : string) :
  exists l, s = (l ++ Float.lstrip s)%string /\ all_space l = true.
Proof.
  induction s as [|c r IH]; [exists EmptyString; split; reflexivity|].
  cbn [Float.lstrip]. destruct (Float.is_space c) eqn:E.
  - destruct IH as (l & El & Hl). exists (String c l). split.
    + cbn [append]. rewrite <- El. reflexivity.
    + cbn [all_space]. rewrite (float_space_is_space c E), Hl. reflexivity.
  - exists EmptyString. split; reflexivity.
Qed.

Lemma float_rstrip_split (s : string) :
  exists r, s = (Float.rstrip s ++ r)%string /\ all_space r = true.
Proof.
  induction s as [|c t IH]; [exists EmptyString; split; reflexivity|].
  destruct IH as (r & Er & Hr). cbn [Float.rstrip].
  destruct (Float.is_space c && Str.is_empty (Float.rstrip t)) eqn:E.
  - apply andb_true_iff in E as [Ec Et].
    destruct (Float.rstrip t) as [|? ?]; [|discriminate Et]. cbn [append] in Er. subst t.
    exists (String c r). split; [reflexivity|].
    cbn [all_space]. rewrite (float_space_is_space c Ec), Hr. reflexivity.
  - exists r. split; [|exact Hr]. cbn [append]. rewrite <- Er. reflexivity.
Qed.

Lemma lstrip_spaces (l t : string) :
  all_space l = true -> Str.lstrip (l ++ t) = Str.lstrip t.
Proof.
  induction l as [|c l IH]; intros H; [reflexivity|].
  cbn in H. apply andb_true_iff in H as [Hc Hl].
  cbn [append Str.lstrip]. rewrite Hc. apply IH, Hl.
Qed.

Lemma rstrip_all_space (r : string) : all_space r = true -> Str.rstrip r = EmptyString.
Proof.
  induction r as [|c r IH]; intros H; [reflexivity|].
  cbn in H. apply andb_true_iff in H as [Hc Hr].
  cbn [Str.rstrip]. rewrite (IH Hr), Hc. reflexivity.
Qed.

Lemma rstrip_spaces (t r : string) :
  all_space r = true -> Str.rstrip (t ++ r) = Str.rstrip t.
Proof.
  intros H. induction t as [|c t IH]; [apply rstrip_all_space, H|].
  cbn [append Str.rstrip]. rewrite IH. reflexivity.
Qed.

Lemma float_strip_space_free (s : string) : space_free s = true -> Float.strip s = s.
Proof.
  intros H. unfold Float.strip.
  assert (Hn : forall c, Str.is_space c = false -> Float.is_space c = false).
  { intros c Hc. destruct (Float.is_space c) eqn:E; [|reflexivity].
    rewrite (float_space_is_space c E) in Hc. discriminate Hc. }
  assert (Hl : Float.lstrip s = s).
  { destruct s as [|c r]; [reflexivity|]. cbn in H. apply andb_true_iff in H as [Hc _].
    apply negb_true_iff in Hc. cbn. rewrite (Hn c Hc). reflexivity. }
  rewrite Hl. induction s as [|c r IH]; [reflexivity|].
  cbn in H. apply andb_true_iff in H as [Hc Hr]. apply negb_true_iff in Hc.
  cbn [Float.rstrip]. rewrite (Hn c Hc). cbn [andb]. f_equal. apply IH; [exact Hr|].
  destruct r as [|c' r']; [reflexivity|]. cbn in Hr. apply andb_true_iff in Hr as [Hc' _].
  apply negb_true_iff in Hc'. cbn. rewrite (Hn c' Hc'). reflexivity.
Qed.

Lemma sign_space_free (s s1 : string) (neg : bool) :
  Float.sign s = (neg, s1) -> space_free s1 = true -> space_free s = true.
Proof.
  destruct s as [|c r]; cbn [Float.sign].
  - intros E _. reflexivity.
  - destruct (Ascii.eqb_spec c "-") as [->|_].
    { intros E H. injection E as _ <-. cbn [space_free]. rewrite H. reflexivity. }
    destruct (Ascii.eqb_spec c "+") as [->|_].
    { intros E H. injection E as _ <-. cbn [space_free]. rewrite H. reflexivity. }
    intros E H. injection E as _ <-. exact H.
Qed.

Lemma digits_space_free (s rest : string) (acc a : Z) (cnt n : nat) :
  Float.digits s acc cnt = (a, n, rest) -> space_free rest = true -> space_free s = true.
Proof.
  revert acc cnt. induction s as [|c r IH]; intros acc cnt; cbn [Float.digits].
  - intros E H. reflexivity.
  - destruct (Str.is_digit c) eqn:D.
    + intros E H. cbn [space_free].
      destruct (digit_not_sign c D) as (_ & _ & _ & Hs). rewrite Hs, (IH _ _ E H). reflexivity.
    + intros E H. injection E as _ _ <-. exact H.
Qed.

(** A decimal literal contains no whitespace. *)
Lemma literal_space_free (s : string) (x : Q) :
  Float.literal s = Ok x -> space_free s = true.
Proof.
  unfold Float.literal.
  destruct (Float.sign s) as [neg s1] eqn:Es.
  destruct (Float.digits s1 0 0) as [[ip n1] s2] eqn:E1.
  destruct (match s2 with
            | String c r => if Ascii.eqb c "." then Float.digits r ip 0 else (ip, O, s2)
            | EmptyString => (ip, O, s2)
            end) as [[m n2] s3] eqn:E2.
  intros H.
  assert (H3 : space_free s3 = true).
  { destruct (Nat.eqb (n1 + n2) 0); [discriminate H|].
    destruct s3 as [|c r]; [reflexivity|].
    destruct (Ascii.eqb c "e" || Ascii.eqb c "E") eqn:Ec; [|discriminate H].
    destruct (Float.sign r) as [eneg r1] eqn:Er.
    destruct (Float.digits r1 0 0) as [[ev n3] r2] eqn:E3.
    destruct (Nat.eqb n3 0); [discriminate H|].
    destruct r2 as [|? ?]; [|discriminate H].
    pose proof (sign_space_free _ _ _ Er (digits_space_free _ _ _ _ _ _ E3 eq_refl)) as Hr.
    cbn [space_free]. rewrite Hr.
    destruct c as [[] [] [] [] [] [] [] []]; try discriminate Ec; reflexivity. }
  apply (sign_space_free _ _ _ Es). apply (digits_space_free _ _ _ _ _ _ E1).
  destruct s2 as [|c r]; [injection E2 as _ _ <-; exact H3|].
  destruct (Ascii.eqb_spec c ".") as [->|_].
  - cbn [space_free]. rewrite (digits_space_free _ _ _ _ _ _ E2 H3). reflexivity.
  - injection E2 as _ _ <-. exact H3.
Qed.

Lemma underscores_space_free (s s0 : string) (prev : ascii) :
  Float.underscores prev s = Some s0 -> space_free s0 = true -> space_free s = true.
Proof.
  revert prev s0. induction s as [|c r IH]; intros prev s0; cbn [Float.underscores].
  - intros _ _. reflexivity.
  - destruct (Ascii.eqb_spec c "_") as [->|_].
    + destruct (Str.is_digit prev); [|discriminate].
      intros E H. cbn [space_free]. rewrite (IH _ _ E H). reflexivity.
    + destruct (Ascii.eqb prev "_" && negb (Str.is_digit c)); [discriminate|].
      destruct (Float.underscores c r) as [r'|] eqn:E; [|discriminate].
      intros E0 H. injection E0 as <-. cbn [space_free] in *.
      apply andb_true_iff in H as [Hc Hr]. rewrite Hc, (IH _ _ E Hr). reflexivity.
Qed.

(** What [float] accepts, [str.strip] leaves readable: the whitespace
    [float] removes is whitespace for [strip], and nothing else of an
    accepted text is. *)
Lemma of_str_strip (s : string) (x : Q) :
  Float.of_str s = Ok x -> Float.of_str (Str.strip s) = Ok x.
Proof.
  intros H. pose proof H as H0. unfold Float.of_str in H.
  destruct (Float.underscores Ascii.zero (Float.strip s)) as [s0|] eqn:U; [|discriminate H].
  pose proof (underscores_space_free _ _ _ U (literal_space_free _ _ H)) as Hu.
  assert (E : Str.strip s = Float.strip s).
  { unfold Float.strip in *.
    destruct (float_lstrip_split s) as (l & El & Hl).
    destruct (float_rstrip_split (Float.lstrip s)) as (r & Er & Hr).
    set (u := Float.rstrip (Float.lstrip s)) in *.
    unfold Str.strip. rewrite El, (lstrip_spaces _ _ Hl), Er.
    destruct u as [|c u'].
    - cbn in U. injection U as <-. discriminate H.
    - pose proof (strip_space_free _ Hu) as Hs. unfold Str.strip in Hs.
      cbn [space_free] in Hu. apply andb_true_iff in Hu as [Hc _].
      apply negb_true_iff in Hc.
      assert (Hlu : forall t, Str.lstrip (String c t) = String c t)
        by (intros t; cbn [Str.lstrip]; rewrite Hc; reflexivity).
      rewrite Hlu in Hs. cbn [append]. rewrite Hlu.
      change (String c (u' ++ r)) with (String c u' ++ r)%string.
      rewrite (rstrip_spaces _ _ Hr). exact Hs. }
  rewrite E. unfold Float.of_str. rewrite (float_strip_space_free _ Hu), U. exact H.
Qed.

(** X24: the two copies of [parse_point] (visualize_points.py and
    generate_dotted_path.py) decode every entry alike, and every entry
    that the aligner decodes ([map(float, point_str.split(','))] in
    fix_dotted_path_alignment.py) they decode to the same pair.  The
    converse fails: [parse_point] calls [strip] on each field, which
    removes the separators FS to US that [float] rejects, so an entry
    like ["0.5\x1c,0.5"] is a point for the visualizer and the generator
    and is skipped by the aligner. *)
Theorem point_decoders_agree :
  (forall point_str,
      visualize_points.parse_point point_str = generate_dotted_path.parse_point point_str)
  /\ (forall point_str x y,
         fix_dotted_path_alignment.decode_point point_str = Ok (x, y) ->
         visualize_points.parse_point point_str = (Some x, Some y))
  /\ (let entry := ("0.5" ++ String (ascii_of_nat 28) ",0.5")%string in
      fix_dotted_path_alignment.decode_point entry = Raise ValueError
      /\ visualize_points.parse_point entry = (Some (5 # 10), Some (5 # 10))).
Proof.
  split; [reflexivity|]. split; [|split; vm_compute; reflexivity].
  intros point_str x y.
  unfold fix_dotted_path_alignment.decode_point, visualize_points.parse_point.
  destruct (Str.split_on "," point_str) as [|a [|b [|c rest]]]; try discriminate.
  destruct (Float.of_str a) as [xa|e] eqn:Ea; cbn [bind]; [|discriminate].
  destruct (Float.of_str b) as [yb|e] eqn:Eb; cbn [bind]; [|discriminate].
  intros E. injection E as <- <-.
  rewrite (of_str_strip _ _ Ea), (of_str_strip _ _ Eb). reflexivity.
Qed.

Lemma point_decoders_agree_witness :
  visualize_points.parse_point " 0.5, 0.25 "%string = (Some (5 # 10), Some (25 # 100)).
Proof.
  apply (proj1 (proj2 point_decoders_agree) " 0.5, 0.25 "%string (5 # 10) (25 # 100)).
  reflexivity.
Defined.

(** ** Curve samples and control points *)

Lemma sample_parameter_range (i : nat) (n : positive) :
  (i < Pos.to_nat n + 1)%nat ->
  0 <= inject_Z (Z.of_nat i) / inject_Z (Zpos n)
  /\ inject_Z (Z.of_nat i) / inject_Z (Zpos n) <= 1.
Proof.
  intros Hi.
  assert (Hn : 0 < inject_Z (Zpos n)) by reflexivity.
  assert (H0 : 0 <= inject_Z (Z.of_nat i)).
  { change 0 with (inject_Z 0). rewrite <- Zle_Qle. lia. }
  assert (H1 : inject_Z (Z.of_nat i) <= inject_Z (Zpos n)).
  { rewrite <- Zle_Qle. lia. }
  split.
  - apply Qle_shift_div_l; [exact Hn | lra].
  - apply Qle_shift_div_r; [exact Hn | lra].
Qed.

Lemma convex3 (a b c u v w lo hi : Q) :
  0 <= a -> 0 <= b -> 0 <= c -> a + b + c == 1 ->
  lo <= u -> u <= hi -> lo <= v -> v <= hi -> lo <= w -> w <= hi ->
  lo <= a * u + b * v + c * w /\ a * u + b * v + c * w <= hi.
Proof. intros. split; nra. Qed.

Lemma convex4 (a b c d u v w z lo hi : Q) :
  0 <= a -> 0 <= b -> 0 <= c -> 0 <= d -> a + b + c + d == 1 ->
  lo <= u -> u <= hi -> lo <= v -> v <= hi -> lo <= w -> w <= hi -> lo <= z -> z <= hi ->
  lo <= a * u + b * v + c * w + d * z /\ a * u + b * v + c * w + d * z <= hi.
Proof. intros. split; nra. Qed.

Lemma quadratic_in_range (t u v w lo hi : Q) :
  0 <= t -> t <= 1 ->
  lo <= u -> u <= hi -> lo <= v -> v <= hi -> lo <= w -> w <= hi ->
  lo <= (1-t)^2 * u + 2*(1-t)*t * v + t^2 * w
  /\ (1-t)^2 * u + 2*(1-t)*t * v + t^2 * w <= hi.
Proof.
  intros Ht0 Ht1 ? ? ? ? ? ?.
  assert (A : 0 <= (1-t)^2) by (cbn; nra).
  assert (B : 0 <= 2*(1-t)*t) by nra.
  assert (C : 0 <= t^2) by (cbn; nra).
  assert (S : (1-t)^2 + 2*(1-t)*t + t^2 == 1) by (cbn; ring).
  apply convex3; assumption.
Qed.

Lemma cubic_in_range (t u v w z lo hi : Q) :
  0 <= t -> t <= 1 ->
  lo <= u -> u <= hi -> lo <= v -> v <= hi -> lo <= w -> w <= hi -> lo <= z -> z <= hi ->
  lo <= (1-t)^3 * u + 3*(1-t)^2*t * v + 3*(1-t)*t^2 * w + t^3 * z
  /\ (1-t)^3 * u + 3*(1-t)^2*t * v + 3*(1-t)*t^2 * w + t^3 * z <= hi.
Proof.
  intros Ht0 Ht1 ? ? ? ? ? ? ? ?.
  assert (P : 0 <= 1 - t) by lra.
  assert (P2 : 0 <= (1-t)*(1-t)) by nra.
  assert (T2 : 0 <= t*t) by nra.
  assert (A : 0 <= (1-t)^3) by (cbn; nra).
  assert (B : 0 <= 3*(1-t)^2*t) by (cbn; nra).
  assert (C : 0 <= 3*(1-t)*t^2) by (cbn; nra).
  assert (D : 0 <= t^3) by (cbn; nra).
  assert (S : (1-t)^3 + 3*(1-t)^2*t + 3*(1-t)*t^2 + t^3 == 1) by (cbn; ring).
  apply convex4; assumption.
Qed.

(** X23: in exact arithmetic, whatever the number of samples, every
    point sampled on a quadratic or cubic curve lies in any box that
    contains the point the curve starts from, its control points and its
    endpoint.  The rounding of binary64 is not part of the statement. *)
Theorem curve_samples_in_control_box (lox hix loy hiy : Q) (n : positive) (p : Q * Q) :
  (forall x0 y0 x1 y1 x2 y2,
      between lox hix x0 -> between lox hix x1 -> between lox hix x2 ->
      between loy hiy y0 -> between loy hiy y1 -> between loy hiy y2 ->
      In p (fix_json_alignment.sample_quadratic_bezier x0 y0 x1 y1 x2 y2 n) ->
      between lox hix (fst p) /\ between loy hiy (snd p))
  /\ (forall x0 y0 x1 y1 x2 y2 x3 y3,
         between lox hix x0 -> between lox hix x1 -> between lox hix x2 ->
         between lox hix x3 ->
         between loy hiy y0 -> between loy hiy y1 -> between loy hiy y2 ->
         between loy hiy y3 ->
         In p (fix_json_alignment.sample_cubic_bezier x0 y0 x1 y1 x2 y2 x3 y3 n) ->
         between lox hix (fst p) /\ between loy hiy (snd p)).
Proof.
  unfold between. split.
  - intros x0 y0 x1 y1 x2 y2 [? ?] [? ?] [? ?] [? ?] [? ?] [? ?] Hin.
    unfold fix_json_alignment.sample_quadratic_bezier in Hin.
    apply in_map_iff in Hin as (i & <- & Hi). apply in_seq in Hi.
    destruct (sample_parameter_range i n ltac:(lia)) as [Ht0 Ht1].
    cbn [fst snd]. split; apply quadratic_in_range; assumption.
  - intros x0 y0 x1 y1 x2 y2 x3 y3 [? ?] [? ?] [? ?] [? ?] [? ?] [? ?] [? ?] [? ?] Hin.
    unfold fix_json_alignment.sample_cubic_bezier in Hin.
    apply in_map_iff in Hin as (i & <- & Hi). apply in_seq in Hi.
    destruct (sample_parameter_range i n ltac:(lia)) as [Ht0 Ht1].
    cbn [fst snd]. split; apply cubic_in_range; assumption.
Qed.

Lemma curve_samples_in_control_box_witness :
  let p := nth 1 (fix_json_alignment.sample_quadratic_bezier 0 0 50 100 100 0 4) (0, 0) in
  between 0 100 (fst p) /\ between 0 100 (snd p).
Proof.
  intros p.
  apply (proj1 (curve_samples_in_control_box 0 100 0 100 4 p) 0 0 50 100 100 0);
    try (split; discriminate).
  right. left. reflexivity.
Defined.

(** ** The number scan of fix_dotted_path_alignment.py *)











